(** * Learning Intelligence Tool: the analytics core, embedded and verified

    A shallow embedding of the Python sources
    - [src/config.py]                      (thresholds and weights),
    - [src/models/dropout_detector.py]     (risk levels),
    - [src/models/difficulty_analyzer.py]  (difficulty score, level, rank),
    - [src/data/feature_engineering.py]    (score trend),
    - [src/data/ingestion.py]              (record validation),
    - [src/data/preprocessing.py]          (imputation and outlier capping).

    Conventions.  A pandas column of floats is a [list Q]: arithmetic is
    exact rational arithmetic, the idealisation of the IEEE doubles the
    program computes with.  A missing value (NaN) is [None] where a column
    may hold one.  A DataFrame of a fixed schema is a list of records, one
    per row, in row order; a column is [map field rows]. *)

From Stdlib Require Import String Ascii.
From Stdlib Require Import QArith Qminmax Qround ZArith List Bool Lia Lqa.
From Stdlib Require Import Sorting.Sorted Sorting.Permutation.
Import ListNotations.

Open Scope Q_scope.

(** ** Sorting, as [sort_values] and [argsort] are used by the program

    pandas sorts a frame by one key.  The model is an insertion sort that
    keeps the input order of rows with equal keys.  (pandas' default
    algorithm does not promise an order among equal keys; no theorem below
    depends on it except where stated.) *)

Section Sorting.
Context {A : Type}.
Variable leb : A -> A -> bool.

Fixpoint insert_sorted (x : A) (l : list A) : list A :=
  match l with
  | [] => [x]
  | y :: r => if leb x y then x :: y :: r else y :: insert_sorted x r
  end.

Fixpoint sort_by (l : list A) : list A :=
  match l with
  | [] => []
  | x :: r => insert_sorted x (sort_by r)
  end.

(** The order a boolean comparison decides. *)
Definition ordered_by : A -> A -> Prop := fun a b => leb a b = true.
End Sorting.

(** Elementwise binary operation on two columns of one frame. *)
Fixpoint map2 {A B C : Type} (f : A -> B -> C) (xs : list A) (ys : list B) : list C :=
  match xs, ys with
  | x :: xs', y :: ys' => f x y :: map2 f xs' ys'
  | _, _ => []
  end.

(** ** [src/config.py] *)

Module Config.
(** [HIGH_RISK_THRESHOLD = 0.7], [MEDIUM_RISK_THRESHOLD = 0.4]. *)
Definition HIGH_RISK_THRESHOLD : Q := 7 # 10.
Definition MEDIUM_RISK_THRESHOLD : Q := 4 # 10.

(** [DIFFICULTY_WEIGHTS], a dict with four fixed keys. *)
Record weights : Type := {
  w_dropout_rate : Q;
  w_avg_time : Q;
  w_avg_score : Q;
  w_completion_rate : Q
}.

Definition DIFFICULTY_WEIGHTS : weights := {|
  w_dropout_rate := 35 # 100;
  w_avg_time := 25 # 100;
  w_avg_score := 30 # 100;
  w_completion_rate := 10 # 100
|}.
End Config.

(** ** [src/models/dropout_detector.py] *)

Module DropoutDetector.
Import Config.

Inductive risk_level : Type := High | Medium | Low.

(** One cell of the nested [np.where] of [predict_risk_level]. *)
Definition risk_level_of (risk_score : Q) : risk_level :=
  if Qle_bool HIGH_RISK_THRESHOLD risk_score then High
  else if Qle_bool MEDIUM_RISK_THRESHOLD risk_score then Medium
  else Low.

Section Detector.
(** The fitted estimator is an external collaborator: [predict_proba]
    gives one dropout probability per row of the feature frame.  A
    detector is that estimator and its [is_trained] flag. *)
Variable FeatureFrame : Type.
Variable is_trained : bool.
Variable predict_proba : FeatureFrame -> list Q.

(** [predict_risk_score(X)]; [None] is the ValueError raised before
    training. *)
Definition predict_risk_score (X : FeatureFrame) : option (list Q) :=
  if negb is_trained then None else Some (predict_proba X).

(** [predict_risk_level(X)]. *)
Definition predict_risk_level (X : FeatureFrame) : option (list risk_level) :=
  match predict_risk_score X with
  | None => None
  | Some risk_scores => Some (map risk_level_of risk_scores)
  end.
End Detector.
End DropoutDetector.

(** ** [src/models/difficulty_analyzer.py] *)

(** One row of the frame built by [engineer_chapter_features]. *)
Module ChapterFeatures.
Record t : Type := {
  course_id : Z;
  chapter_order : Q;
  avg_score : Q;
  score_std : Q;
  student_count : Z;
  avg_time_spent : Q;
  time_std : Q;
  completions : Q;
  attempts : Z;
  completion_rate : Q;
  dropout_rate : Q
}.
End ChapterFeatures.

Inductive difficulty_level : Type := Easy | Medium | Hard.

(** One row of the frame returned by [analyze_difficulty]; a
    [difficulty_level] of [None] is the NaN that [pd.cut] gives a score
    outside its bins. *)
Module Assessment.
Record t : Type := {
  course_id : Z;
  chapter_order : Q;
  difficulty_score : Q;
  difficulty_level : option difficulty_level;
  difficulty_rank : Z;
  dropout_rate : Q;
  avg_time_spent : Q;
  avg_score : Q;
  completion_rate : Q;
  student_count : Z
}.
End Assessment.

Module DifficultyAnalyzer.
Import Config.

(** [series.min()] and [series.max()]; NaN ([None]) on an empty series. *)
Definition series_min (series : list Q) : option Q :=
  match series with
  | [] => None
  | x :: r => Some (fold_left Qmin r x)
  end.

Definition series_max (series : list Q) : option Q :=
  match series with
  | [] => None
  | x :: r => Some (fold_left Qmax r x)
  end.

(** [_normalize]: zeros when [max_val == min_val], else min-max scaling.
    On an empty series both extrema are NaN, the comparison is false and
    the scaled series is empty. *)
Definition _normalize (series : list Q) : list Q :=
  match series_min series, series_max series with
  | Some min_val, Some max_val =>
      if Qeq_bool max_val min_val then repeat 0 (length series)
      else map (fun x => (x - min_val) / (max_val - min_val)) series
  | _, _ => []
  end.

(** [numpy.searchsorted(bins, x, side='left')] on ascending [bins]. *)
Fixpoint searchsorted_left (bins : list Q) (x : Q) : nat :=
  match bins with
  | [] => 0%nat
  | b :: r => if Qle_bool x b then 0%nat else S (searchsorted_left r x)
  end.

(** [pd.cut(x, bins, labels, include_lowest)] with right-closed bins:
    the bin index is [searchsorted_left]; [include_lowest] moves
    [x == bins[0]] into the first bin; index 0 and index [len(bins)]
    are outside every bin and give NaN. *)
Definition cut {L : Type} (bins : list Q) (labels : list L)
           (include_lowest : bool) (x : Q) : option L :=
  let ids := searchsorted_left bins x in
  let ids :=
    match bins with
    | b0 :: _ => if include_lowest && Qeq_bool x b0 then 1%nat else ids
    | [] => ids
    end in
  if Nat.eqb ids (length bins) || Nat.eqb ids 0 then None
  else nth_error labels (ids - 1).

Definition difficulty_bins : list Q := [0; 33; 66; 100].
Definition difficulty_labels : list difficulty_level := [Easy; Medium; Hard].

Definition level_of_score (s : Q) : option difficulty_level :=
  cut difficulty_bins difficulty_labels true s.

(** [rank(ascending=False, method='dense')].  pandas walks the values in
    descending order with a counter of the groups of equal values seen
    so far and gives every member of a group the counter's value.
    [dense_walk cur k rest x] is that walk, standing on a value [cur]
    whose group has number [k], looking for the group of [x]. *)
Fixpoint dense_walk (cur : Q) (k : Z) (rest : list Q) (x : Q) : Z :=
  if Qeq_bool cur x then k
  else match rest with
       | [] => k
       | y :: r => dense_walk y (if Qeq_bool y cur then k else (k + 1)%Z) r x
       end.

Definition desc (x y : Q) : bool := Qle_bool y x.

(** The rank of [x] among [values]: the walk starts on the greatest
    value, whose group has number 1. *)
Definition dense_rank_of (values : list Q) (x : Q) : Z :=
  match sort_by desc values with
  | [] => 0%Z
  | top :: rest => dense_walk top 1%Z rest x
  end.

Definition rank_dense_desc (values : list Q) : list Z :=
  map (dense_rank_of values) values.

Definition by_score_desc (a b : Assessment.t) : bool :=
  Qle_bool (Assessment.difficulty_score b) (Assessment.difficulty_score a).

(** The four normalised columns and the score column of
    [analyze_difficulty]. *)
Definition dropout_rate_norm (df : list ChapterFeatures.t) : list Q :=
  _normalize (map ChapterFeatures.dropout_rate df).
Definition avg_time_norm (df : list ChapterFeatures.t) : list Q :=
  _normalize (map ChapterFeatures.avg_time_spent df).
Definition avg_score_norm (df : list ChapterFeatures.t) : list Q :=
  map (fun v => 1 - v) (_normalize (map ChapterFeatures.avg_score df)).
Definition completion_rate_norm (df : list ChapterFeatures.t) : list Q :=
  map (fun v => 1 - v) (_normalize (map ChapterFeatures.completion_rate df)).

Definition scale (w : Q) (col : list Q) : list Q := map (fun v => v * w) col.
Definition add (c1 c2 : list Q) : list Q := map2 Qplus c1 c2.

Definition difficulty_score_column (ws : weights) (df : list ChapterFeatures.t) : list Q :=
  let weighted :=
    add (add (add (scale (w_dropout_rate ws) (dropout_rate_norm df))
                  (scale (w_avg_time ws) (avg_time_norm df)))
             (scale (w_avg_score ws) (avg_score_norm df)))
        (scale (w_completion_rate ws) (completion_rate_norm df)) in
  map (fun v => v * 100) weighted.

(** Selection of the result columns, row by row. *)
Definition select_row (c : ChapterFeatures.t) (s : Q)
           (l : option difficulty_level) (r : Z) : Assessment.t :=
  {| Assessment.course_id := ChapterFeatures.course_id c;
     Assessment.chapter_order := ChapterFeatures.chapter_order c;
     Assessment.difficulty_score := s;
     Assessment.difficulty_level := l;
     Assessment.difficulty_rank := r;
     Assessment.dropout_rate := ChapterFeatures.dropout_rate c;
     Assessment.avg_time_spent := ChapterFeatures.avg_time_spent c;
     Assessment.avg_score := ChapterFeatures.avg_score c;
     Assessment.completion_rate := ChapterFeatures.completion_rate c;
     Assessment.student_count := ChapterFeatures.student_count c |}.

Fixpoint select_rows (df : list ChapterFeatures.t) (scores : list Q)
         (levels : list (option difficulty_level)) (ranks : list Z)
  : list Assessment.t :=
  match df, scores, levels, ranks with
  | c :: df', s :: scores', l :: levels', r :: ranks' =>
      select_row c s l r :: select_rows df' scores' levels' ranks'
  | _, _, _, _ => []
  end.

(** The frame before the final [sort_values]. *)
Definition scored (ws : weights) (chapter_features : list ChapterFeatures.t)
  : list Assessment.t :=
  let df := chapter_features in
  let difficulty_score := difficulty_score_column ws df in
  let difficulty_level := map level_of_score difficulty_score in
  let difficulty_rank := rank_dense_desc difficulty_score in
  select_rows df difficulty_score difficulty_level difficulty_rank.

(** [analyze_difficulty], with [self.weights] explicit. *)
Definition analyze_difficulty_with (ws : weights)
           (chapter_features : list ChapterFeatures.t) : list Assessment.t :=
  sort_by by_score_desc (scored ws chapter_features).

Definition analyze_difficulty (chapter_features : list ChapterFeatures.t)
  : list Assessment.t :=
  analyze_difficulty_with DIFFICULTY_WEIGHTS chapter_features.
End DifficultyAnalyzer.

(** ** [src/data/feature_engineering.py] *)

(** One row of a validated frame: [validate_data] has rejected NaN in
    [time_spent], [score] and [chapter_order] and any [completion_status]
    other than 0 and 1, so every column holds numbers. *)
Module ChapterEvent.
Record t : Type := {
  student_id : Z;
  course_id : Z;
  chapter_order : Q;
  time_spent : Q;
  score : Q;
  completion_status : Q
}.
End ChapterEvent.

(** One row of the frame returned by [engineer_student_features].  The two
    standard-deviation columns ([score_std], [time_std]) need square roots
    and are left out; no statement below reads them. *)
Module StudentFeatures.
Record t : Type := {
  student_id : Z;
  course_id : Z;
  avg_score : Q;
  min_score : Q;
  max_score : Q;
  total_time_spent : Q;
  avg_time_per_chapter : Q;
  chapters_attempted : Z;
  last_chapter : Q;
  chapters_completed : Q;
  completion_rate : Q;
  engagement_rate : Q;
  score_trend : Q;
  low_score_count : Q
}.
End StudentFeatures.

Module FeatureEngineering.
Import ChapterEvent.

Definition sum (series : list Q) : Q := fold_left Qplus series 0.

Definition count (series : list Q) : Z := Z.of_nat (length series).

(** [series.mean()] of a series without NaN, as the exact rational the
    program's double arithmetic rounds.  The rounded mean of the program
    need not lie between the least and the greatest value of the series
    (three scores 50.08 have the double mean 50.080000000000005), so no
    property below compares a mean with the extrema of its series. *)
Definition mean (series : list Q) : Q := sum series / inject_Z (count series).

(** [series.min()], [series.max()] of a group; a group is never empty. *)
Definition min (series : list Q) : Q :=
  match series with [] => 0 | x :: r => fold_left Qmin r x end.
Definition max (series : list Q) : Q :=
  match series with [] => 0 | x :: r => fold_left Qmax r x end.

Definition head {A : Type} (n : nat) (rows : list A) : list A := firstn n rows.
Definition tail {A : Type} (n : nat) (rows : list A) : list A :=
  skipn (length rows - n) rows.

Definition by_chapter_order (a b : ChapterEvent.t) : bool :=
  Qle_bool (chapter_order a) (chapter_order b).

(** [_calculate_score_trend(group)]. *)
Definition _calculate_score_trend (group : list ChapterEvent.t) : Q :=
  if (length group <? 4)%nat then 0
  else
    let group := sort_by by_chapter_order group in
    let first_avg := mean (map score (head 3 group)) in
    let last_avg := mean (map score (tail 3 group)) in
    last_avg - first_avg.

(** Group keys of [groupby]: the distinct keys, in ascending order. *)
Definition key_eq_dec (a b : Z * Z) : {a = b} + {a <> b}.
Proof. decide equality; apply Z.eq_dec. Defined.

Definition key_leb (a b : Z * Z) : bool :=
  (fst a <? fst b)%Z || ((fst a =? fst b)%Z && (snd a <=? snd b)%Z).

Definition key (e : ChapterEvent.t) : Z * Z := (student_id e, course_id e).

Definition groupby_student_course (df : list ChapterEvent.t)
  : list ((Z * Z) * list ChapterEvent.t) :=
  map (fun k => (k, filter (fun e => if key_eq_dec (key e) k then true else false) df))
      (sort_by key_leb (nodup key_eq_dec (map key df))).

Definition groupby_student (df : list ChapterEvent.t)
  : list (Z * list ChapterEvent.t) :=
  map (fun s => (s, filter (fun e => (student_id e =? s)%Z) df))
      (sort_by Z.leb (nodup Z.eq_dec (map student_id df))).

(** [left.merge(right, on='student_id', how='left')] for a [right] with
    one row per student: the right value of the student, NaN if none. *)
Fixpoint merge_left (right : list (Z * Q)) (student : Z) : option Q :=
  match right with
  | [] => None
  | (s, v) :: r => if (s =? student)%Z then Some v else merge_left r student
  end.

Definition fillna (v : Q) (x : option Q) : Q :=
  match x with Some y => y | None => v end.

(** [df.groupby('student_id').apply(_calculate_score_trend)]. *)
Definition score_trend_table (df : list ChapterEvent.t) : list (Z * Q) :=
  map (fun g => (fst g, _calculate_score_trend (snd g))) (groupby_student df).

(** [df[df['score'] < 50].groupby('student_id').size()]. *)
Definition low_score_table (df : list ChapterEvent.t) : list (Z * Q) :=
  map (fun g => (fst g, inject_Z (Z.of_nat (length (snd g)))))
      (groupby_student (filter (fun e => negb (Qle_bool 50 (score e))) df)).

(** The rows [engineer_student_features] builds once the trend of every
    student is at hand: one row per (student_id, course_id) group, with
    the trend and the low-score count merged in on [student_id]. *)
Definition student_feature_rows (df : list ChapterEvent.t)
  : list StudentFeatures.t :=
  let score_trend := score_trend_table df in
  let low_score_count := low_score_table df in
  map (fun g =>
         let '(k, rows) := g in
         let chapters_attempted := count (map chapter_order rows) in
         let chapters_completed := sum (map completion_status rows) in
         let total_time_spent := sum (map time_spent rows) in
         {| StudentFeatures.student_id := fst k;
            StudentFeatures.course_id := snd k;
            StudentFeatures.avg_score := mean (map score rows);
            StudentFeatures.min_score := min (map score rows);
            StudentFeatures.max_score := max (map score rows);
            StudentFeatures.total_time_spent := total_time_spent;
            StudentFeatures.avg_time_per_chapter := mean (map time_spent rows);
            StudentFeatures.chapters_attempted := chapters_attempted;
            StudentFeatures.last_chapter := max (map chapter_order rows);
            StudentFeatures.chapters_completed := chapters_completed;
            StudentFeatures.completion_rate :=
              chapters_completed / inject_Z chapters_attempted;
            StudentFeatures.engagement_rate :=
              total_time_spent / (inject_Z chapters_attempted * 60);
            StudentFeatures.score_trend :=
              fillna 0 (merge_left score_trend (fst k));
            StudentFeatures.low_score_count :=
              fillna 0 (merge_left low_score_count (fst k)) |})
      (groupby_student_course df).

(** [engineer_student_features(df)].  [None] is the ValueError the
    function raises on a frame without rows: with no student group,
    [df.groupby('student_id').apply(_calculate_score_trend)] gives an
    empty frame, not a series of trends, and naming the two columns of
    its [reset_index()] fails.  With at least one group the frame is
    built. *)
Definition engineer_student_features (df : list ChapterEvent.t)
  : option (list StudentFeatures.t) :=
  match groupby_student df with
  | [] => None
  | _ :: _ => Some (student_feature_rows df)
  end.

(** The trend as the specification words it: computed from the events
    that share the (student_id, course_id) key and from no other. *)
Definition events_of_key (df : list ChapterEvent.t) (student course : Z)
  : list ChapterEvent.t :=
  filter (fun e => (student_id e =? student)%Z && (course_id e =? course)%Z) df.

Definition spec_score_trend (df : list ChapterEvent.t) (student course : Z) : Q :=
  let events := events_of_key df student course in
  if (length events <? 4)%nat then 0
  else
    let ordered := sort_by by_chapter_order events in
    mean (map score (skipn (length ordered - 3) ordered))
    - mean (map score (firstn 3 ordered)).
End FeatureEngineering.

(** ** [src/data/ingestion.py] *)

Module Ingestion.

(** A cell of a frame as it is loaded, before any check: a number, a
    text, or a missing value. *)
Inductive cell : Type :=
| Num (q : Q)
| Text (s : string)
| NaN.

(** A loaded DataFrame: its columns in order, each a name and its cells. *)
Definition DataFrame : Type := list (string * list cell).

Definition REQUIRED_COLUMNS : list string :=
  ["student_id"; "course_id"; "chapter_order"; "time_spent"; "score";
   "completion_status"]%string.

Inductive DataValidationError : Type :=
| EmptyInput
| MissingColumns (missing : list string)
| TypeValidationFailed
| ScoreOutOfRange
| NegativeTime
| InvalidChapterOrder
| InvalidCompletionStatus.

Inductive outcome : Type :=
| Returned
| Raised (e : DataValidationError).

(** [df.empty]: no column, or no row. *)
Definition empty (df : DataFrame) : bool :=
  match df with
  | [] => true
  | (_, cells) :: _ => Nat.eqb (length cells) 0
  end.

Definition has_column (df : DataFrame) (name : string) : bool :=
  existsb (fun c => String.eqb (fst c) name) df.

(** [df[name]] for a column known to be there. *)
Fixpoint column (df : DataFrame) (name : string) : list cell :=
  match df with
  | [] => []
  | (n, cells) :: r => if String.eqb n name then cells else column r name
  end.

Definition isna (c : cell) : bool :=
  match c with NaN => true | _ => false end.

Definition lt_cell (c : cell) (bound : Q) : bool :=
  match c with Num v => negb (Qle_bool bound v) | _ => false end.

Definition gt_cell (c : cell) (bound : Q) : bool :=
  match c with Num v => negb (Qle_bool v bound) | _ => false end.

Definition isin_0_1 (c : cell) : bool :=
  match c with Num v => Qeq_bool v 0 || Qeq_bool v 1 | _ => false end.

(** The columns [validate_data] passes through [pd.to_numeric]. *)
Definition COERCED_COLUMNS : list string :=
  ["time_spent"; "score"; "chapter_order"; "completion_status"]%string.

Section Validation.
(** How [pd.to_numeric] reads a text: the number it denotes, if any. *)
Variable parse_number : string -> option Q.

(** One cell of [pd.to_numeric(series, errors='coerce')]. *)
Definition to_numeric (c : cell) : cell :=
  match c with
  | Num q => Num q
  | Text s => match parse_number s with Some q => Num q | None => NaN end
  | NaN => NaN
  end.

(** [df[name] = pd.to_numeric(df[name], errors='coerce')]. *)
Definition coerce_column (name : string) (df : DataFrame) : DataFrame :=
  map (fun c => if String.eqb (fst c) name
                then (fst c, map to_numeric (snd c)) else c) df.

Definition coerce_numeric_columns (df : DataFrame) : DataFrame :=
  coerce_column "completion_status"
    (coerce_column "chapter_order"
       (coerce_column "score"
          (coerce_column "time_spent" df))).

(** [validate_data(df)].  The caller's frame is an object the function
    assigns columns of, so the function is a state transformer: it
    returns the frame as the caller finds it afterwards, and whether it
    returned or raised. *)
Definition validate_data (df : DataFrame) : DataFrame * outcome :=
  if empty df then (df, Raised EmptyInput)
  else
    let missing_columns :=
      filter (fun c => negb (has_column df c)) REQUIRED_COLUMNS in
    match missing_columns with
    | _ :: _ => (df, Raised (MissingColumns missing_columns))
    | [] =>
        let df := coerce_numeric_columns df in
        if existsb isna (column df "time_spent")
           || existsb isna (column df "score")
           || existsb isna (column df "chapter_order")
        then (df, Raised TypeValidationFailed)
        else if existsb (fun c => lt_cell c 0) (column df "score")
                || existsb (fun c => gt_cell c 100) (column df "score")
        then (df, Raised ScoreOutOfRange)
        else if existsb (fun c => lt_cell c 0) (column df "time_spent")
        then (df, Raised NegativeTime)
        else if existsb (fun c => lt_cell c 1) (column df "chapter_order")
        then (df, Raised InvalidChapterOrder)
        else if negb (forallb isin_0_1 (column df "completion_status"))
        then (df, Raised InvalidCompletionStatus)
        else (df, Returned)
    end.
End Validation.

(** A reading of texts that accepts unsigned decimal integers, used to
    run the validator on concrete frames. *)
Definition digit_value (c : ascii) : option Z :=
  let n := Z.of_nat (nat_of_ascii c) in
  if ((48 <=? n) && (n <=? 57))%Z then Some (n - 48)%Z else None.

Fixpoint parse_digits (acc : Z) (s : string) : option Z :=
  match s with
  | EmptyString => Some acc
  | String c r =>
      match digit_value c with
      | Some d => parse_digits (acc * 10 + d)%Z r
      | None => None
      end
  end.

Definition parse_unsigned (s : string) : option Q :=
  match s with
  | EmptyString => None
  | _ => option_map inject_Z (parse_digits 0%Z s)
  end.
End Ingestion.

(** ** [src/data/preprocessing.py] *)

(** One row of a frame handed to the preprocessor: the three columns it
    imputes may hold NaN. *)
Module RawEvent.
Record t : Type := {
  student_id : Z;
  course_id : Z;
  chapter_order : Q;
  time_spent : option Q;
  score : option Q;
  completion_status : option Q
}.
End RawEvent.

Module Preprocessing.
Import RawEvent.

(** The state of a [DataPreprocessor] object ([self.scaler] is never
    fitted or read). *)
Record DataPreprocessor : Type := { is_fitted : bool }.

Definition __init__ : DataPreprocessor := {| is_fitted := false |}.

(** The values of a column that are not NaN. *)
Fixpoint dropna (series : list (option Q)) : list Q :=
  match series with
  | [] => []
  | Some v :: r => v :: dropna r
  | None :: r => dropna r
  end.

Definition isna_any (series : list (option Q)) : bool :=
  existsb (fun x => match x with None => true | Some _ => false end) series.

(** [series.quantile(q)] with linear interpolation, NaN skipped; NaN on
    a series with no value. *)
Definition quantile (q : Q) (series : list (option Q)) : option Q :=
  let values := sort_by Qle_bool (dropna series) in
  match values with
  | [] => None
  | v0 :: _ =>
      let h := inject_Z (Z.of_nat (length values) - 1) * q in
      let lo := Z.to_nat (Qfloor h) in
      let frac := h - inject_Z (Qfloor h) in
      let a := nth lo values v0 in
      let b := nth (Nat.min (S lo) (length values - 1)) values v0 in
      Some (a + (b - a) * frac)
  end.

Definition median (series : list (option Q)) : option Q :=
  quantile (1 # 2) series.

Definition mean (series : list (option Q)) : option Q :=
  match dropna series with
  | [] => None
  | values =>
      Some (fold_left Qplus values 0 / inject_Z (Z.of_nat (length values)))
  end.

(** [series.fillna(value)]: a NaN [value] fills nothing. *)
Definition fillna (value : option Q) (x : option Q) : option Q :=
  match x with
  | Some v => Some v
  | None => value
  end.

Definition set_time_spent (e : RawEvent.t) (v : option Q) : RawEvent.t :=
  {| student_id := student_id e; course_id := course_id e;
     chapter_order := chapter_order e; time_spent := v;
     score := score e; completion_status := completion_status e |}.

Definition set_score (e : RawEvent.t) (v : option Q) : RawEvent.t :=
  {| student_id := student_id e; course_id := course_id e;
     chapter_order := chapter_order e; time_spent := time_spent e;
     score := v; completion_status := completion_status e |}.

Definition set_completion_status (e : RawEvent.t) (v : option Q) : RawEvent.t :=
  {| student_id := student_id e; course_id := course_id e;
     chapter_order := chapter_order e; time_spent := time_spent e;
     score := score e; completion_status := v |}.

(** [_handle_missing_values(df)]. *)
Definition _handle_missing_values (df : list RawEvent.t) : list RawEvent.t :=
  let df :=
    if isna_any (map time_spent df)
    then let m := median (map time_spent df) in
         map (fun e => set_time_spent e (fillna m (time_spent e))) df
    else df in
  let df :=
    if isna_any (map score df)
    then let m := mean (map score df) in
         map (fun e => set_score e (fillna m (score e))) df
    else df in
  let df :=
    if isna_any (map completion_status df)
    then map (fun e => set_completion_status e
                         (fillna (Some 0) (completion_status e))) df
    else df in
  df.

(** Python's [max(0, x)]: [x] when [x > 0], else 0 (also for NaN). *)
Definition max_0 (x : option Q) : Q :=
  match x with
  | Some v => if negb (Qle_bool v 0) then v else 0
  | None => 0
  end.

(** [series.clip(lower, upper)]: a NaN bound does not bound, two scalar
    bounds are put in order first, the upper bound is applied before the
    lower one, and a NaN value stays NaN. *)
Definition clip (lower : Q) (upper : option Q) (x : option Q) : option Q :=
  match x with
  | None => None
  | Some v =>
      match upper with
      | Some u =>
          let lo := if negb (Qle_bool lower u) then u else lower in
          let hi := if negb (Qle_bool u lower) then u else lower in
          let v := if Qle_bool v hi then v else hi in
          Some (if Qle_bool lo v then v else lo)
      | None => Some (if Qle_bool lower v then v else lower)
      end
  end.

Definition option_map2 (f : Q -> Q -> Q) (x y : option Q) : option Q :=
  match x, y with
  | Some a, Some b => Some (f a b)
  | _, _ => None
  end.

(** [_handle_outliers(df)]. *)
Definition _handle_outliers (df : list RawEvent.t) : list RawEvent.t :=
  let q1 := quantile (25 # 100) (map time_spent df) in
  let q3 := quantile (75 # 100) (map time_spent df) in
  let iqr := option_map2 Qminus q3 q1 in
  let lower_bound :=
    max_0 (option_map2 Qminus q1 (option_map (Qmult (15 # 10)) iqr)) in
  let upper_bound :=
    option_map2 Qplus q3 (option_map (Qmult (15 # 10)) iqr) in
  map (fun e => set_time_spent e (clip lower_bound upper_bound (time_spent e))) df.


Definition transform (self : DataPreprocessor) (df : list RawEvent.t)
  : DataPreprocessor * list RawEvent.t :=
  let df := _handle_missing_values df in
  let df := _handle_outliers df in
  (self, df).
End Preprocessing.

(** ** Sample inputs *)

Module Samples.
Definition chapter (course : Z) (order dropout time score completion : Q)
  : ChapterFeatures.t :=
  {| ChapterFeatures.course_id := course;
     ChapterFeatures.chapter_order := order;
     ChapterFeatures.avg_score := score;
     ChapterFeatures.score_std := 0;
     ChapterFeatures.student_count := 100;
     ChapterFeatures.avg_time_spent := time;
     ChapterFeatures.time_std := 0;
     ChapterFeatures.completions := completion * 100;
     ChapterFeatures.attempts := 100;
     ChapterFeatures.completion_rate := completion;
     ChapterFeatures.dropout_rate := dropout |}.

(** The two-row batch of the specification's example. *)
Definition two_chapters : list ChapterFeatures.t :=
  [chapter 1 1 (1 # 10) 30 85 (9 # 10);
   chapter 1 2 (5 # 10) 60 60 (5 # 10)].

(** The batch of [test_difficulty_analyzer], with one row repeated so
    that two chapters tie. *)
Definition six_chapters : list ChapterFeatures.t :=
  [chapter 1 1 (1 # 10) 30 85 (9 # 10);
   chapter 1 2 (3 # 10) 45 70 (7 # 10);
   chapter 1 3 (5 # 10) 60 60 (5 # 10);
   chapter 2 1 (2 # 10) 35 80 (8 # 10);
   chapter 2 2 (4 # 10) 50 65 (6 # 10);
   chapter 3 1 (4 # 10) 50 65 (6 # 10)].

(** A batch in which every chapter has the same dropout rate. *)
Definition same_dropout : list ChapterFeatures.t :=
  [chapter 1 1 (1 # 5) 30 85 (4 # 5);
   chapter 1 2 (1 # 5) 60 60 (4 # 5);
   chapter 1 3 (1 # 5) 45 70 (4 # 5)].

Definition event (student course : Z) (order score : Q) : ChapterEvent.t :=
  {| ChapterEvent.student_id := student;
     ChapterEvent.course_id := course;
     ChapterEvent.chapter_order := order;
     ChapterEvent.time_spent := 30;
     ChapterEvent.score := score;
     ChapterEvent.completion_status := 1 |}.

(** Student 1 follows two courses: four chapters of course 1 and the
    first chapter of course 2; student 2 follows three chapters of
    course 1 (the scores 85, 90, 88 of the specification's example). *)
Definition two_courses : list ChapterEvent.t :=
  [event 1 1 1 10; event 1 1 2 20; event 1 1 3 30; event 1 1 4 40;
   event 1 2 1 100;
   event 2 1 1 85; event 2 1 2 90; event 2 1 3 88].

(** One student, one course, five chapters given out of order. *)
Definition one_course : list ChapterEvent.t :=
  [event 7 3 2 60; event 7 3 1 50; event 7 3 5 90; event 7 3 3 70;
   event 7 3 4 80].

Import Ingestion.

Definition frame (student_id course_id chapter_order time_spent score
                  completion_status : list cell) : DataFrame :=
  [("student_id", student_id); ("course_id", course_id);
   ("chapter_order", chapter_order); ("time_spent", time_spent);
   ("score", score); ("completion_status", completion_status)]%string.

(** A frame read from line-record JSON where one score came as text. *)
Definition text_score : DataFrame :=
  frame [Num 1; Num 1] [Num 1; Num 1] [Num 1; Num 2] [Num 30; Num 45]
        [Text "85"; Num 90] [Num 1; Num 0].

(** A frame whose student ids are not numbers. *)
Definition text_student_id : DataFrame :=
  frame [Text "abc"; Text "xyz"] [Num 1; Num 1] [Num 1; Num 2]
        [Num 30; Num 45] [Num 85; Num 90] [Num 1; Num 0].

(** A frame with a time that is not a number. *)
Definition bad_time : DataFrame :=
  frame [Num 1; Num 1] [Num 1; Num 1] [Num 1; Num 2] [Num 30; Text "soon"]
        [Num 85; Num 90] [Num 1; Num 0].

(** A frame of numbers only. *)
Definition all_numbers : DataFrame :=
  frame [Num 1; Num 1] [Num 1; Num 1] [Num 1; Num 2] [Num 30; Num 45]
        [Num 85; Num 90] [Num 1; Num 0].

Definition raw (time score completion : option Q) : RawEvent.t :=
  {| RawEvent.student_id := 1; RawEvent.course_id := 1;
     RawEvent.chapter_order := 1; RawEvent.time_spent := time;
     RawEvent.score := score; RawEvent.completion_status := completion |}.

(** A frame with one missing value per imputed column and one outlier. *)
Definition with_gaps : list RawEvent.t :=
  [raw (Some 10) (Some 50) None; raw None (Some 70) (Some 1);
   raw (Some 20) None (Some 1); raw (Some 1000) (Some 90) (Some 1);
   raw (Some 30) (Some 90) (Some 1)].
End Samples.

(** ** Further functions of [src/models/difficulty_analyzer.py] *)

Module DifficultyQueries.
Import DifficultyAnalyzer.

(** [df.head(n)]: the first [n] rows; for a negative [n], all rows but
    the last [-n]. *)
Definition head {A : Type} (n : Z) (rows : list A) : list A :=
  if (0 <=? n)%Z then firstn (Z.to_nat n) rows
  else firstn (length rows - Z.to_nat (- n)) rows.

(** [get_difficult_chapters(chapter_features, top_n)]; [top_n] defaults
    to 10. *)
Definition get_difficult_chapters (chapter_features : list ChapterFeatures.t)
           (top_n : Z) : list Assessment.t :=
  let difficulty_df := analyze_difficulty chapter_features in
  head top_n difficulty_df.

(** [get_chapters_needing_improvement(chapter_features, threshold)];
    [threshold] defaults to 60. *)
Definition get_chapters_needing_improvement
           (chapter_features : list ChapterFeatures.t) (threshold : Q)
  : list Assessment.t :=
  let difficulty_df := analyze_difficulty chapter_features in
  filter (fun a => Qle_bool threshold (Assessment.difficulty_score a)) difficulty_df.

Definition level_eqb (x y : difficulty_level) : bool :=
  match x, y with
  | Easy, Easy | Medium, Medium | Hard, Hard => true
  | _, _ => false
  end.

(** [difficulty_df['difficulty_level'] == label]; NaN equals no label. *)
Definition level_is (label : difficulty_level) (a : Assessment.t) : bool :=
  match Assessment.difficulty_level a with
  | Some l => level_eqb l label
  | None => false
  end.

(** The integer entries of the dict of [get_summary_statistics]; the
    three entries that round a float to two decimals are left out. *)
Record summary_counts : Type := {
  total_chapters : nat;
  hard_chapters : nat;
  medium_chapters : nat;
  easy_chapters : nat
}.

Definition get_summary_statistics (difficulty_df : list Assessment.t)
  : summary_counts :=
  {| total_chapters := length difficulty_df;
     hard_chapters := length (filter (level_is Hard) difficulty_df);
     medium_chapters := length (filter (level_is Medium) difficulty_df);
     easy_chapters := length (filter (level_is Easy) difficulty_df) |}.

(** The order of the levels, least difficult first. *)
Definition level_index (l : difficulty_level) : nat :=
  match l with Easy => 0 | Medium => 1 | Hard => 2 end.
End DifficultyQueries.

(** ** Further functions of [src/models/dropout_detector.py] *)

(** One row of the frame built by [get_high_risk_students]. *)
Module RiskRow.
Record t : Type := {
  student_id : Z;
  risk_score : Q;
  risk_level : DropoutDetector.risk_level
}.
End RiskRow.

Module HighRisk.
Import DropoutDetector.

(** The order of the risk levels, least severe first. *)
Definition severity (l : risk_level) : nat :=
  match l with Low => 0 | Medium => 1 | High => 2 end.

(** [pd.DataFrame({'student_id': ..., 'risk_score': ..., 'risk_level': ...})]
    from three arrays of one length. *)
Fixpoint results_frame (student_ids : list Z) (risk_scores : list Q)
         (risk_levels : list risk_level) : list RiskRow.t :=
  match student_ids, risk_scores, risk_levels with
  | i :: ids, s :: scores, l :: levels =>
      {| RiskRow.student_id := i; RiskRow.risk_score := s; RiskRow.risk_level := l |}
      :: results_frame ids scores levels
  | _, _, _ => []
  end.

(** [results['risk_level'].isin(['High', 'Medium'])]. *)
Definition isin_high_medium (r : RiskRow.t) : bool :=
  match RiskRow.risk_level r with
  | High | Medium => true
  | Low => false
  end.

Definition by_risk_score_desc (a b : RiskRow.t) : bool :=
  Qle_bool (RiskRow.risk_score b) (RiskRow.risk_score a).

Section Detector.
Variable FeatureFrame : Type.
Variable is_trained : bool.
Variable predict_proba : FeatureFrame -> list Q.

(** [get_high_risk_students(X, student_ids)]; [None] is the ValueError of
    an untrained detector or of arrays of different lengths. *)
Definition get_high_risk_students (X : FeatureFrame) (student_ids : list Z)
  : option (list RiskRow.t) :=
  match predict_risk_score FeatureFrame is_trained predict_proba X with
  | None => None
  | Some risk_scores =>
      match predict_risk_level FeatureFrame is_trained predict_proba X with
      | None => None
      | Some risk_levels =>
          if Nat.eqb (length student_ids) (length risk_scores)
          then
            let results := results_frame student_ids risk_scores risk_levels in
            let high_risk := filter isin_high_medium results in
            Some (sort_by by_risk_score_desc high_risk)
          else None
      end
  end.
End Detector.

(** The risk counts of [InferenceEngine._calculate_summary_stats]. *)
Definition level_eqb (x y : risk_level) : bool :=
  Nat.eqb (severity x) (severity y).

Definition risk_count (label : risk_level) (risk_levels : list risk_level) : nat :=
  length (filter (fun l => level_eqb l label) risk_levels).
End HighRisk.

(** ** [engineer_chapter_features] of [src/data/feature_engineering.py] *)

Module ChapterFeatureEngineering.
Import ChapterEvent FeatureEngineering.

(** The first occurrence of every value, for an equality given as a
    boolean test: the distinct group keys in order of appearance. *)
Fixpoint unique_by {A : Type} (eqb : A -> A -> bool) (l : list A) : list A :=
  match l with
  | [] => []
  | x :: r => x :: filter (fun y => negb (eqb x y)) (unique_by eqb r)
  end.

(** The key of [groupby(['course_id', 'chapter_order'])]; two chapter
    orders are one key when they are equal as numbers. *)
Definition chapter_key (e : ChapterEvent.t) : Z * Q := (course_id e, chapter_order e).

Definition chapter_key_eqb (a b : Z * Q) : bool :=
  (fst a =? fst b)%Z && Qeq_bool (snd a) (snd b).

Definition chapter_key_leb (a b : Z * Q) : bool :=
  (fst a <? fst b)%Z || ((fst a =? fst b)%Z && Qle_bool (snd a) (snd b)).

Definition groupby_course_chapter (df : list ChapterEvent.t)
  : list ((Z * Q) * list ChapterEvent.t) :=
  map (fun k => (k, filter (fun e => chapter_key_eqb (chapter_key e) k) df))
      (sort_by chapter_key_leb (unique_by chapter_key_eqb (map chapter_key df))).

Section StandardDeviation.
(** [series.std()], the sample standard deviation: a square root, so a
    parameter here; NaN ([None]) on a group of one row. *)
Variable std : list Q -> option Q.

(** [engineer_chapter_features(df)]. *)
Definition engineer_chapter_features (df : list ChapterEvent.t)
  : list ChapterFeatures.t :=
  map (fun g =>
         let '(k, rows) := g in
         let completions := sum (map completion_status rows) in
         let attempts := count (map completion_status rows) in
         let completion_rate := completions / inject_Z attempts in
         {| ChapterFeatures.course_id := fst k;
            ChapterFeatures.chapter_order := snd k;
            ChapterFeatures.avg_score := mean (map score rows);
            ChapterFeatures.score_std := fillna 0 (std (map score rows));
            ChapterFeatures.student_count := count (map score rows);
            ChapterFeatures.avg_time_spent := mean (map time_spent rows);
            ChapterFeatures.time_std := fillna 0 (std (map time_spent rows));
            ChapterFeatures.completions := completions;
            ChapterFeatures.attempts := attempts;
            ChapterFeatures.completion_rate := completion_rate;
            ChapterFeatures.dropout_rate := 1 - completion_rate |})
      (groupby_course_chapter df).
End StandardDeviation.
End ChapterFeatureEngineering.

(** ** The bounds of [_handle_outliers] in [src/data/preprocessing.py] *)

Module OutlierBounds.
Import Preprocessing.

Definition q1 (df : list RawEvent.t) : option Q :=
  quantile (25 # 100) (map RawEvent.time_spent df).

Definition q3 (df : list RawEvent.t) : option Q :=
  quantile (75 # 100) (map RawEvent.time_spent df).

Definition iqr (df : list RawEvent.t) : option Q :=
  option_map2 Qminus (q3 df) (q1 df).

(** [lower_bound = max(0, q1 - 1.5 * iqr)]. *)
Definition lower_bound (df : list RawEvent.t) : Q :=
  max_0 (option_map2 Qminus (q1 df) (option_map (Qmult (15 # 10)) (iqr df))).

(** [upper_bound = q3 + 1.5 * iqr]. *)
Definition upper_bound (df : list RawEvent.t) : option Q :=
  option_map2 Qplus (q3 df) (option_map (Qmult (15 # 10)) (iqr df)).
End OutlierBounds.

(** ** [load_data] of [src/data/ingestion.py] *)

Module Loading.
Import Ingestion.

(** The conditions [load_data] raises, all as [DataValidationError]:
    the file is not there; reading failed or the format is not
    supported (both leave the [try] block as "Error loading file");
    the frame read is not valid. *)
Inductive load_error : Type :=
| FileNotFound
| ErrorLoadingFile
| NotValid (e : DataValidationError).

Section Files.
(** The file system and the two readers are external: whether a path
    exists, its suffix in lower case, and what [pd.read_csv] and
    [pd.read_json] give for it ([None] when the reader raises). *)
Variable Path : Type.
Variable exists_ : Path -> bool.
Variable suffix_lower : Path -> string.
Variable read_csv : Path -> option DataFrame.
Variable read_json : Path -> option DataFrame.
Variable parse_number : string -> option Q.

(** [load_data(file_path)]. *)
Definition load_data (file_path : Path) : DataFrame + load_error :=
  if negb (exists_ file_path) then inr FileNotFound
  else
    let loaded :=
      if String.eqb (suffix_lower file_path) ".csv" then read_csv file_path
      else if String.eqb (suffix_lower file_path) ".json" then read_json file_path
      else None in
    match loaded with
    | None => inr ErrorLoadingFile
    | Some df =>
        match validate_data parse_number df with
        | (df, Returned) => inl df
        | (_, Raised e) => inr (NotValid e)
        end
    end.
End Files.
End Loading.

(** ** More sample inputs *)

Module MoreSamples.
Import Ingestion.

(** Two chapters of one course followed by three students, then one
    chapter of another course. *)
Definition three_students : list ChapterEvent.t :=
  [{| ChapterEvent.student_id := 1; ChapterEvent.course_id := 1;
      ChapterEvent.chapter_order := 1; ChapterEvent.time_spent := 30;
      ChapterEvent.score := 80; ChapterEvent.completion_status := 1 |};
   {| ChapterEvent.student_id := 1; ChapterEvent.course_id := 1;
      ChapterEvent.chapter_order := 2; ChapterEvent.time_spent := 50;
      ChapterEvent.score := 40; ChapterEvent.completion_status := 0 |};
   {| ChapterEvent.student_id := 2; ChapterEvent.course_id := 1;
      ChapterEvent.chapter_order := 1; ChapterEvent.time_spent := 20;
      ChapterEvent.score := 90; ChapterEvent.completion_status := 1 |};
   {| ChapterEvent.student_id := 2; ChapterEvent.course_id := 1;
      ChapterEvent.chapter_order := 2; ChapterEvent.time_spent := 45;
      ChapterEvent.score := 45; ChapterEvent.completion_status := 1 |};
   {| ChapterEvent.student_id := 3; ChapterEvent.course_id := 1;
      ChapterEvent.chapter_order := 1; ChapterEvent.time_spent := 25;
      ChapterEvent.score := 70; ChapterEvent.completion_status := 1 |};
   {| ChapterEvent.student_id := 3; ChapterEvent.course_id := 2;
      ChapterEvent.chapter_order := 1; ChapterEvent.time_spent := 60;
      ChapterEvent.score := 30; ChapterEvent.completion_status := 0 |}].

(** A frame complete but for its score column. *)
Definition no_score : DataFrame :=
  [("student_id", [Num 1]); ("course_id", [Num 1]); ("chapter_order", [Num 1]);
   ("time_spent", [Num 30]); ("completion_status", [Num 1])]%string.

(** Preprocessor input whose times are all present and non-negative. *)
Definition with_outlier : list RawEvent.t :=
  [Samples.raw (Some 10) (Some 50) (Some 1); Samples.raw (Some 20) (Some 70) (Some 1);
   Samples.raw (Some 25) (Some 75) (Some 1); Samples.raw (Some 1000) (Some 90) (Some 1);
   Samples.raw (Some 30) (Some 90) (Some 1)].

(** A file system of two files. *)
Definition file_exists (p : string) : bool :=
  String.eqb p "data.csv" || String.eqb p "notes.txt".

Definition file_suffix (p : string) : string :=
  if String.eqb p "data.csv" then ".csv" else ".txt".

Definition file_csv (p : string) : option DataFrame :=
  if String.eqb p "data.csv" then Some Samples.text_score else None.
End MoreSamples.

(** ** The difficulty score of one chapter within its batch *)

Module ChapterScore.
Import Config DifficultyAnalyzer.

(** The entry [_normalize] computes for a value [x] of [series]. *)
Definition normalize_value (series : list Q) (x : Q) : Q :=
  match series_min series, series_max series with
  | Some min_val, Some max_val =>
      if Qeq_bool max_val min_val then 0
      else (x - min_val) / (max_val - min_val)
  | _, _ => 0
  end.

(** The entry of the [difficulty_score] column for the chapter [c] of
    the batch [df]. *)
Definition score_value (ws : weights) (df : list ChapterFeatures.t)
           (c : ChapterFeatures.t) : Q :=
  (normalize_value (map ChapterFeatures.dropout_rate df) (ChapterFeatures.dropout_rate c)
   * w_dropout_rate ws
   + normalize_value (map ChapterFeatures.avg_time_spent df) (ChapterFeatures.avg_time_spent c)
     * w_avg_time ws
   + (1 - normalize_value (map ChapterFeatures.avg_score df) (ChapterFeatures.avg_score c))
     * w_avg_score ws
   + (1 - normalize_value (map ChapterFeatures.completion_rate df)
                          (ChapterFeatures.completion_rate c))
     * w_completion_rate ws)
  * 100.
End ChapterScore.

(** Rows that stand for "no row" where a sample is read by position. *)
Module NoRow.
Definition student : StudentFeatures.t :=
  {| StudentFeatures.student_id := 0; StudentFeatures.course_id := 0;
     StudentFeatures.avg_score := 0; StudentFeatures.min_score := 0;
     StudentFeatures.max_score := 0; StudentFeatures.total_time_spent := 0;
     StudentFeatures.avg_time_per_chapter := 0;
     StudentFeatures.chapters_attempted := 0; StudentFeatures.last_chapter := 0;
     StudentFeatures.chapters_completed := 0; StudentFeatures.completion_rate := 0;
     StudentFeatures.engagement_rate := 0; StudentFeatures.score_trend := 0;
     StudentFeatures.low_score_count := 0 |}.

Definition chapter : ChapterFeatures.t := Samples.chapter 0 0 0 0 0 0.

Definition raw : RawEvent.t := Samples.raw None None None.
End NoRow.

(** * Properties *)

(** ** The sort *)

Section SortingFacts.
Context {A : Type}.
Variable leb : A -> A -> bool.

Lemma insert_sorted_perm (x : A) (l : list A) :
  Permutation (x :: l) (insert_sorted leb x l).
Proof.
  induction l as [|y r IH]; simpl.
  - apply Permutation_refl.
  - destruct (leb x y).
    + apply Permutation_refl.
    + eapply perm_trans; [apply perm_swap|].
      apply perm_skip, IH.
Qed.

Lemma sort_by_perm (l : list A) : Permutation l (sort_by leb l).
Proof.
  induction l as [|x r IH]; simpl.
  - constructor.
  - eapply perm_trans; [apply perm_skip, IH|].
    apply insert_sorted_perm.
Qed.

Lemma sort_by_In (l : list A) (x : A) : In x (sort_by leb l) <-> In x l.
Proof.
  split; intro H.
  - eapply Permutation_in; [apply Permutation_sym, sort_by_perm|exact H].
  - eapply Permutation_in; [apply sort_by_perm|exact H].
Qed.

Lemma sort_by_length (l : list A) : length (sort_by leb l) = length l.
Proof. symmetry. apply Permutation_length, sort_by_perm. Qed.

Hypothesis leb_total : forall a b, leb a b = true \/ leb b a = true.
Hypothesis leb_trans :
  forall a b c, leb a b = true -> leb b c = true -> leb a c = true.

Lemma insert_sorted_strongly (x : A) (l : list A) :
  StronglySorted (ordered_by leb) l -> StronglySorted (ordered_by leb) (insert_sorted leb x l).
Proof.
  induction l as [|y r IH]; simpl; intro Hs.
  - constructor; [constructor|constructor].
  - inversion Hs as [|? ? Hr Hall]; subst.
    destruct (leb x y) eqn:Hxy.
    + constructor; [exact Hs|].
      constructor; [exact Hxy|].
      eapply Forall_impl; [|exact Hall].
      intros z Hz. unfold ordered_by in *. eapply leb_trans; eassumption.
    + constructor; [apply IH, Hr|].
      assert (Hyx : ordered_by leb y x).
      { destruct (leb_total x y) as [H|H]; [congruence|exact H]. }
      rewrite Forall_forall. intros z Hz.
      apply (Permutation_in _ (Permutation_sym (insert_sorted_perm x r))) in Hz.
      destruct Hz as [<-|Hz]; [exact Hyx|].
      rewrite Forall_forall in Hall. apply Hall, Hz.
Qed.

Lemma sort_by_strongly (l : list A) : StronglySorted (ordered_by leb) (sort_by leb l).
Proof.
  induction l as [|x r IH]; simpl.
  - constructor.
  - apply insert_sorted_strongly, IH.
Qed.
End SortingFacts.

(** Boolean comparisons of rationals, as propositions. *)
Lemma Qle_bool_false (x y : Q) : Qle_bool x y = false <-> y < x.
Proof.
  split; intro H.
  - apply Qnot_le_lt. intro Hle. apply Qle_bool_iff in Hle. congruence.
  - destruct (Qle_bool x y) eqn:E; [|reflexivity].
    apply Qle_bool_iff in E. apply Qlt_not_le in H. contradiction.
Qed.

Lemma Qeq_bool_false (x y : Q) : Qeq_bool x y = false <-> ~ x == y.
Proof.
  split; intro H.
  - apply Qeq_bool_neq, H.
  - destruct (Qeq_bool x y) eqn:E; [|reflexivity].
    apply Qeq_bool_iff in E. contradiction.
Qed.

Ltac qbool :=
  repeat match goal with
    | H : Qle_bool _ _ = true |- _ => apply Qle_bool_iff in H
    | H : Qle_bool _ _ = false |- _ => apply Qle_bool_false in H
    | H : Qeq_bool _ _ = true |- _ => apply Qeq_bool_iff in H
    | H : Qeq_bool _ _ = false |- _ => apply Qeq_bool_false in H
    end.

(** ** Risk levels *)

Module DropoutDetectorFacts.
Import Config DropoutDetector.

Lemma risk_level_of_spec (s : Q) :
  (HIGH_RISK_THRESHOLD <= s -> risk_level_of s = High) /\
  (MEDIUM_RISK_THRESHOLD <= s < HIGH_RISK_THRESHOLD -> risk_level_of s = Medium) /\
  (s < MEDIUM_RISK_THRESHOLD -> risk_level_of s = Low).
Proof.
  unfold risk_level_of, HIGH_RISK_THRESHOLD, MEDIUM_RISK_THRESHOLD.
  destruct (Qle_bool (7 # 10) s) eqn:Hh; destruct (Qle_bool (4 # 10) s) eqn:Hm;
    qbool; repeat split; intros; try reflexivity; lra.
Qed.

(** C2.  For a trained detector, every level returned by
    [predict_risk_level] is the threshold class of the risk score in the
    same position: High from 0.7 up, Medium from 0.4 up to but excluding
    0.7, Low below 0.4; a score of exactly 0.7 is High and 0.6999 is
    Medium. *)
Theorem predict_risk_level_thresholds
        (FeatureFrame : Type) (predict_proba : FeatureFrame -> list Q)
        (X : FeatureFrame) (i : nat) (s : Q) :
  nth_error (predict_proba X) i = Some s ->
  0 <= s <= 1 ->
  exists levels level,
    predict_risk_level FeatureFrame true predict_proba X = Some levels
    /\ nth_error levels i = Some level
    /\ (7 # 10 <= s -> level = High)
    /\ (4 # 10 <= s < 7 # 10 -> level = Medium)
    /\ (s < 4 # 10 -> level = Low)
    /\ risk_level_of (7 # 10) = High
    /\ risk_level_of (6999 # 10000) = Medium.
Proof.
  intros Hnth _.
  exists (map risk_level_of (predict_proba X)), (risk_level_of s).
  split; [reflexivity|]. split.
  - rewrite nth_error_map, Hnth. reflexivity.
  - destruct (risk_level_of_spec s) as (Hh & Hm & Hl).
    repeat split; auto.
Qed.

Lemma predict_risk_level_thresholds_witness :
  exists levels level,
    predict_risk_level unit true (fun _ => [7 # 10; 6999 # 10000; 1 # 10]) tt
    = Some levels
    /\ nth_error levels 1 = Some level
    /\ (7 # 10 <= 6999 # 10000 -> level = High)
    /\ (4 # 10 <= 6999 # 10000 < 7 # 10 -> level = Medium)
    /\ (6999 # 10000 < 4 # 10 -> level = Low)
    /\ risk_level_of (7 # 10) = High
    /\ risk_level_of (6999 # 10000) = Medium.
Proof.
  apply (predict_risk_level_thresholds unit
           (fun _ => [7 # 10; 6999 # 10000; 1 # 10]) tt 1%nat (6999 # 10000)).
  - reflexivity.
  - split; unfold Qle; simpl; lia.
Defined.

(** Before training, [predict_risk_level] raises. *)
Example untrained_detector_raises :
  predict_risk_level unit false (fun _ => [7 # 10]) tt = None.
Proof. reflexivity. Qed.
End DropoutDetectorFacts.

(** ** Difficulty score, level and order of the result *)

Lemma Forall_map2 {A B C : Type} (P : A -> Prop) (P' : B -> Prop) (R : C -> Prop)
      (f : A -> B -> C) (xs : list A) (ys : list B) :
  (forall x y, P x -> P' y -> R (f x y)) ->
  Forall P xs -> Forall P' ys -> Forall R (map2 f xs ys).
Proof.
  intros Hf Hxs. revert ys.
  induction Hxs as [|x xs' Hx Hxs' IH]; intros ys Hys; simpl.
  - constructor.
  - destruct Hys as [|y ys' Hy Hys']; constructor; auto.
Qed.

Lemma map2_length {A B C : Type} (f : A -> B -> C) (xs : list A) (ys : list B) :
  length xs = length ys -> length (map2 f xs ys) = length xs.
Proof.
  revert ys. induction xs as [|x xs' IH]; intros [|y ys'] H; simpl in *;
    try reflexivity; try discriminate.
  f_equal. apply IH. lia.
Qed.

Lemma StronglySorted_weaken {A : Type} (R S : A -> A -> Prop) (l : list A) :
  (forall a b, R a b -> S a b) -> StronglySorted R l -> StronglySorted S l.
Proof.
  intros HRS Hs. induction Hs as [|a l' Hl IH Hall]; constructor.
  - exact IH.
  - eapply Forall_impl; [|exact Hall]. intros b. apply HRS.
Qed.

Module DifficultyFacts.
Import Config DifficultyAnalyzer.

Lemma fold_min_lower (r : list Q) (a : Q) :
  fold_left Qmin r a <= a /\ Forall (fun x => fold_left Qmin r a <= x) r.
Proof.
  revert a. induction r as [|y r IH]; intros a; simpl.
  - split; [apply Qle_refl|constructor].
  - destruct (IH (Qmin a y)) as [Hm Hall]. split.
    + eapply Qle_trans; [exact Hm|apply Q.le_min_l].
    + constructor; [|exact Hall].
      eapply Qle_trans; [exact Hm|apply Q.le_min_r].
Qed.

Lemma fold_max_upper (r : list Q) (a : Q) :
  a <= fold_left Qmax r a /\ Forall (fun x => x <= fold_left Qmax r a) r.
Proof.
  revert a. induction r as [|y r IH]; intros a; simpl.
  - split; [apply Qle_refl|constructor].
  - destruct (IH (Qmax a y)) as [Hm Hall]. split.
    + eapply Qle_trans; [apply Q.le_max_l|exact Hm].
    + constructor; [|exact Hall].
      eapply Qle_trans; [apply Q.le_max_r|exact Hm].
Qed.

Lemma series_min_lower (series : list Q) (m : Q) :
  series_min series = Some m -> Forall (fun x => m <= x) series.
Proof.
  destruct series as [|a r]; simpl; intro H; [discriminate|].
  injection H as <-. destruct (fold_min_lower r a). constructor; assumption.
Qed.

Lemma series_max_upper (series : list Q) (m : Q) :
  series_max series = Some m -> Forall (fun x => x <= m) series.
Proof.
  destruct series as [|a r]; simpl; intro H; [discriminate|].
  injection H as <-. destruct (fold_max_upper r a). constructor; assumption.
Qed.

Lemma normalize_length (series : list Q) :
  length (_normalize series) = length series.
Proof.
  unfold _normalize. destruct series as [|a r]; [reflexivity|].
  cbn [series_min series_max].
  destruct (Qeq_bool _ _); [apply repeat_length|apply length_map].
Qed.

Lemma normalize_unit_interval (series : list Q) :
  Forall (fun v => 0 <= v <= 1) (_normalize series).
Proof.
  unfold _normalize.
  destruct (series_min series) as [mn|] eqn:Hmin; [|constructor].
  destruct (series_max series) as [mx|] eqn:Hmax; [|constructor].
  pose proof (series_min_lower _ _ Hmin) as Hlo.
  pose proof (series_max_upper _ _ Hmax) as Hhi.
  destruct (Qeq_bool mx mn) eqn:Heq.
  - apply Forall_forall. intros v Hv. apply repeat_spec in Hv. subst v. lra.
  - qbool. apply Forall_map. rewrite Forall_forall in *.
    intros x Hx. specialize (Hlo x Hx). specialize (Hhi x Hx).
    assert (Hpos : 0 < mx - mn) by lra.
    split.
    + apply Qle_shift_div_l; [exact Hpos|lra].
    + apply Qle_shift_div_r; [exact Hpos|lra].
Qed.

Lemma inverted_unit_interval (col : list Q) :
  Forall (fun v => 0 <= v <= 1) col ->
  Forall (fun v => 0 <= v <= 1) (map (fun v => 1 - v) col).
Proof.
  intro H. apply Forall_map. eapply Forall_impl; [|exact H].
  simpl. intros v Hv. lra.
Qed.

Lemma scale_bounds (w : Q) (col : list Q) :
  0 <= w -> Forall (fun v => 0 <= v <= 1) col ->
  Forall (fun v => 0 <= v <= w) (scale w col).
Proof.
  intros Hw H. apply Forall_map. eapply Forall_impl; [|exact H].
  simpl. intros v Hv. nra.
Qed.

Lemma add_bounds (a b : Q) (c1 c2 : list Q) :
  Forall (fun v => 0 <= v <= a) c1 -> Forall (fun v => 0 <= v <= b) c2 ->
  Forall (fun v => 0 <= v <= a + b) (add c1 c2).
Proof.
  intros H1 H2. unfold add.
  eapply Forall_map2; [|exact H1|exact H2].
  simpl. intros x y Hx Hy. lra.
Qed.

Lemma norm_columns_unit_interval (df : list ChapterFeatures.t) :
  Forall (fun v => 0 <= v <= 1) (dropout_rate_norm df)
  /\ Forall (fun v => 0 <= v <= 1) (avg_time_norm df)
  /\ Forall (fun v => 0 <= v <= 1) (avg_score_norm df)
  /\ Forall (fun v => 0 <= v <= 1) (completion_rate_norm df).
Proof.
  unfold dropout_rate_norm, avg_time_norm, avg_score_norm, completion_rate_norm.
  repeat split;
    try apply inverted_unit_interval; apply normalize_unit_interval.
Qed.

(** The bound for any non-negative weights that sum to one. *)
Lemma difficulty_score_column_bounds (ws : weights) (df : list ChapterFeatures.t) :
  0 <= w_dropout_rate ws -> 0 <= w_avg_time ws ->
  0 <= w_avg_score ws -> 0 <= w_completion_rate ws ->
  w_dropout_rate ws + w_avg_time ws + w_avg_score ws + w_completion_rate ws == 1 ->
  Forall (fun v => 0 <= v <= 100) (difficulty_score_column ws df).
Proof.
  intros H1 H2 H3 H4 Hsum.
  destruct (norm_columns_unit_interval df) as (N1 & N2 & N3 & N4).
  unfold difficulty_score_column.
  apply Forall_map.
  eapply Forall_impl;
    [|apply add_bounds;
      [apply add_bounds;
       [apply add_bounds; apply scale_bounds; eassumption
       |apply scale_bounds; eassumption]
      |apply scale_bounds; eassumption]].
  simpl. intros v Hv. lra.
Qed.

Lemma difficulty_score_column_length (ws : weights) (df : list ChapterFeatures.t) :
  length (difficulty_score_column ws df) = length df.
Proof.
  unfold difficulty_score_column, add, scale, dropout_rate_norm, avg_time_norm,
    avg_score_norm, completion_rate_norm.
  repeat (rewrite ?length_map, ?normalize_length;
          try rewrite map2_length).
  all: repeat (rewrite ?length_map, ?normalize_length; try rewrite map2_length);
    reflexivity.
Qed.

(** Every row of the scored frame carries a score of the score column,
    the level [pd.cut] gives that score and the rank of that score. *)
Lemma In_select_rows (df : list ChapterFeatures.t) (scores : list Q)
      (f : Q -> option difficulty_level) (g : Q -> Z) (a : Assessment.t) :
  In a (select_rows df scores (map f scores) (map g scores)) ->
  In (Assessment.difficulty_score a) scores
  /\ Assessment.difficulty_level a = f (Assessment.difficulty_score a)
  /\ Assessment.difficulty_rank a = g (Assessment.difficulty_score a).
Proof.
  revert scores. induction df as [|c df IH]; intros [|s scores] H; simpl in H;
    try contradiction.
  destruct H as [<-|H].
  - simpl. auto.
  - destruct (IH _ H) as (H1 & H2 & H3). simpl. auto.
Qed.

Lemma select_rows_complete (df : list ChapterFeatures.t) (scores : list Q)
      (f : Q -> option difficulty_level) (g : Q -> Z) (z : Q) :
  length df = length scores -> In z scores ->
  exists a, In a (select_rows df scores (map f scores) (map g scores))
            /\ Assessment.difficulty_score a = z.
Proof.
  revert scores. induction df as [|c df IH]; intros [|s scores] Hlen Hin;
    simpl in *; try contradiction; try discriminate.
  destruct Hin as [<-|Hin].
  - eexists. split; [left; reflexivity|reflexivity].
  - destruct (IH scores) as (a & Ha & Hs); [lia|exact Hin|].
    exists a. auto.
Qed.

Lemma scored_row (ws : weights) (batch : list ChapterFeatures.t) (a : Assessment.t) :
  In a (scored ws batch) ->
  In (Assessment.difficulty_score a) (difficulty_score_column ws batch)
  /\ Assessment.difficulty_level a = level_of_score (Assessment.difficulty_score a)
  /\ Assessment.difficulty_rank a
     = dense_rank_of (difficulty_score_column ws batch) (Assessment.difficulty_score a).
Proof. unfold scored, rank_dense_desc. apply In_select_rows. Qed.

Lemma analyze_row (ws : weights) (batch : list ChapterFeatures.t) (a : Assessment.t) :
  In a (analyze_difficulty_with ws batch) <-> In a (scored ws batch).
Proof. unfold analyze_difficulty_with. apply sort_by_In. Qed.

Lemma default_weights_ok :
  0 <= w_dropout_rate DIFFICULTY_WEIGHTS /\ 0 <= w_avg_time DIFFICULTY_WEIGHTS
  /\ 0 <= w_avg_score DIFFICULTY_WEIGHTS /\ 0 <= w_completion_rate DIFFICULTY_WEIGHTS
  /\ w_dropout_rate DIFFICULTY_WEIGHTS + w_avg_time DIFFICULTY_WEIGHTS
     + w_avg_score DIFFICULTY_WEIGHTS + w_completion_rate DIFFICULTY_WEIGHTS == 1.
Proof. simpl. repeat split; try (unfold Qle; simpl; lia). Qed.

Lemma analyze_score_bounds (batch : list ChapterFeatures.t) (a : Assessment.t) :
  In a (analyze_difficulty batch) ->
  0 <= Assessment.difficulty_score a <= 100.
Proof.
  intro Hin. apply analyze_row, scored_row in Hin. destruct Hin as (Hin & _).
  destruct default_weights_ok as (H1 & H2 & H3 & H4 & Hsum).
  pose proof (difficulty_score_column_bounds DIFFICULTY_WEIGHTS batch H1 H2 H3 H4 Hsum) as Hb.
  rewrite Forall_forall in Hb. apply Hb, Hin.
Qed.
End DifficultyFacts.

Module DifficultyClaims.
Import Config DifficultyAnalyzer DifficultyFacts.

(** C3.  For a non-empty batch every [difficulty_score] returned by
    [analyze_difficulty] lies in [0, 100]: each of the four normalised
    columns lies in [0, 1], the configured weights are non-negative and
    sum to one, and the weighted sum is multiplied by 100. *)
Theorem difficulty_score_in_range
        (batch : list ChapterFeatures.t) (a : Assessment.t) :
  batch <> [] ->
  In a (analyze_difficulty batch) ->
  0 <= Assessment.difficulty_score a <= 100
  /\ Forall (fun v => 0 <= v <= 1) (dropout_rate_norm batch)
  /\ Forall (fun v => 0 <= v <= 1) (avg_time_norm batch)
  /\ Forall (fun v => 0 <= v <= 1) (avg_score_norm batch)
  /\ Forall (fun v => 0 <= v <= 1) (completion_rate_norm batch)
  /\ 0 <= w_dropout_rate DIFFICULTY_WEIGHTS
  /\ 0 <= w_avg_time DIFFICULTY_WEIGHTS
  /\ 0 <= w_avg_score DIFFICULTY_WEIGHTS
  /\ 0 <= w_completion_rate DIFFICULTY_WEIGHTS
  /\ w_dropout_rate DIFFICULTY_WEIGHTS + w_avg_time DIFFICULTY_WEIGHTS
     + w_avg_score DIFFICULTY_WEIGHTS + w_completion_rate DIFFICULTY_WEIGHTS == 1.
Proof.
  intros _ Hin.
  split; [apply analyze_score_bounds with (batch := batch), Hin|].
  destruct (norm_columns_unit_interval batch) as (N1 & N2 & N3 & N4).
  destruct default_weights_ok as (H1 & H2 & H3 & H4 & Hsum).
  repeat split; assumption.
Qed.

Lemma difficulty_score_in_range_witness :
  let a := nth 0 (analyze_difficulty Samples.two_chapters)
               (select_row (Samples.chapter 0 0 0 0 0 0) 0 None 0) in
  0 <= Assessment.difficulty_score a <= 100
  /\ Forall (fun v => 0 <= v <= 1) (dropout_rate_norm Samples.two_chapters)
  /\ Forall (fun v => 0 <= v <= 1) (avg_time_norm Samples.two_chapters)
  /\ Forall (fun v => 0 <= v <= 1) (avg_score_norm Samples.two_chapters)
  /\ Forall (fun v => 0 <= v <= 1) (completion_rate_norm Samples.two_chapters)
  /\ 0 <= w_dropout_rate DIFFICULTY_WEIGHTS
  /\ 0 <= w_avg_time DIFFICULTY_WEIGHTS
  /\ 0 <= w_avg_score DIFFICULTY_WEIGHTS
  /\ 0 <= w_completion_rate DIFFICULTY_WEIGHTS
  /\ w_dropout_rate DIFFICULTY_WEIGHTS + w_avg_time DIFFICULTY_WEIGHTS
     + w_avg_score DIFFICULTY_WEIGHTS + w_completion_rate DIFFICULTY_WEIGHTS == 1.
Proof.
  intro a.
  apply (difficulty_score_in_range Samples.two_chapters a).
  - discriminate.
  - vm_compute. left. reflexivity.
Defined.

Lemma normalize_degenerate (series : list Q) (min_val max_val : Q) :
  series_min series = Some min_val ->
  series_max series = Some max_val ->
  max_val == min_val ->
  _normalize series = repeat 0 (length series).
Proof.
  intros Hmin Hmax Heq. unfold _normalize. rewrite Hmin, Hmax.
  apply Qeq_bool_iff in Heq. rewrite Heq. reflexivity.
Qed.

(** C4.  When a signal has equal minimum and maximum over the batch, its
    min-max normalisation is the column of zeros of the batch's length:
    every entry is the number 0, and no entry is missing. *)
Theorem normalize_constant_signal
        (signal : ChapterFeatures.t -> Q) (batch : list ChapterFeatures.t)
        (min_val max_val : Q) :
  series_min (map signal batch) = Some min_val ->
  series_max (map signal batch) = Some max_val ->
  max_val == min_val ->
  _normalize (map signal batch) = repeat 0 (length batch)
  /\ Forall (fun v => v = 0) (_normalize (map signal batch))
  /\ length (_normalize (map signal batch)) = length batch.
Proof.
  intros Hmin Hmax Heq.
  rewrite (normalize_degenerate _ _ _ Hmin Hmax Heq), length_map.
  repeat split.
  - apply Forall_forall. intros v Hv. apply repeat_spec in Hv. exact Hv.
  - apply repeat_length.
Qed.

Lemma normalize_constant_signal_witness :
  dropout_rate_norm Samples.same_dropout = repeat 0 (length Samples.same_dropout)
  /\ Forall (fun v => v = 0) (dropout_rate_norm Samples.same_dropout)
  /\ length (dropout_rate_norm Samples.same_dropout) = length Samples.same_dropout.
Proof.
  apply (normalize_constant_signal ChapterFeatures.dropout_rate
           Samples.same_dropout (1 # 5) (1 # 5)).
  - reflexivity.
  - reflexivity.
  - reflexivity.
Defined.

(** The specification's example: a batch whose vectors all have the same
    value of a signal has equal extrema for it. *)
Lemma constant_signal_normalized
      (signal : ChapterFeatures.t -> Q) (batch : list ChapterFeatures.t) (r : Q) :
  (forall v, In v batch -> signal v == r) ->
  _normalize (map signal batch) = repeat 0 (length batch).
Proof.
  intro Hconst.
  destruct batch as [|c rest]; [reflexivity|].
  destruct (series_min (map signal (c :: rest))) as [mn|] eqn:Hmin; [|discriminate].
  destruct (series_max (map signal (c :: rest))) as [mx|] eqn:Hmax; [|discriminate].
  rewrite (normalize_degenerate _ mn mx Hmin Hmax), length_map; [reflexivity|].
  pose proof (series_min_lower _ _ Hmin) as Hlo.
  pose proof (series_max_upper _ _ Hmax) as Hhi.
  rewrite Forall_forall in Hlo, Hhi.
  assert (Hc : In (signal c) (map signal (c :: rest))) by (left; reflexivity).
  assert (Hmn : r <= mn).
  { simpl in Hmin. injection Hmin as <-.
    clear - Hconst. assert (Hr : r <= signal c) by (rewrite (Hconst c (or_introl eq_refl)); apply Qle_refl).
    assert (Hall : forall v, In v rest -> r <= signal v).
    { intros v Hv. rewrite (Hconst v (or_intror Hv)). apply Qle_refl. }
    clear Hconst. revert Hr. generalize (signal c) as acc.
    induction rest as [|y rest IH]; intros acc Hacc; simpl; [exact Hacc|].
    apply IH.
    - intros v Hv. apply Hall. right. exact Hv.
    - apply Q.min_glb; [exact Hacc|apply Hall; left; reflexivity]. }
  assert (Hmx : mx <= r).
  { simpl in Hmax. injection Hmax as <-.
    clear - Hconst. assert (Hr : signal c <= r) by (rewrite (Hconst c (or_introl eq_refl)); apply Qle_refl).
    assert (Hall : forall v, In v rest -> signal v <= r).
    { intros v Hv. rewrite (Hconst v (or_intror Hv)). apply Qle_refl. }
    clear Hconst. revert Hr. generalize (signal c) as acc.
    induction rest as [|y rest IH]; intros acc Hacc; simpl; [exact Hacc|].
    apply IH.
    - intros v Hv. apply Hall. right. exact Hv.
    - apply Q.max_lub; [exact Hacc|apply Hall; left; reflexivity]. }
  specialize (Hlo _ Hc). specialize (Hhi _ Hc). lra.
Qed.

Lemma level_of_score_bins (s : Q) :
  0 <= s <= 100 ->
  (s <= 33 -> level_of_score s = Some Easy)
  /\ (33 < s <= 66 -> level_of_score s = Some Medium)
  /\ (66 < s -> level_of_score s = Some Hard).
Proof.
  intros [H0 H100].
  unfold level_of_score, cut, difficulty_bins, difficulty_labels.
  cbn [searchsorted_left length andb].
  destruct (Qle_bool s 0) eqn:E0; destruct (Qeq_bool s 0) eqn:Q0;
    destruct (Qle_bool s 33) eqn:E33; destruct (Qle_bool s 66) eqn:E66;
    destruct (Qle_bool s 100) eqn:E100; qbool;
    repeat split; intros; try reflexivity; lra.
Qed.

(** C5.  A score in [0, 100] is Easy up to and including 33, Medium
    above 33 up to and including 66, and Hard above 66; the score 33 is
    Easy and the score 0 is Easy; and every row returned by
    [analyze_difficulty] carries the level of its own score. *)
Theorem difficulty_level_bins (s : Q) :
  0 <= s <= 100 ->
  (s <= 33 -> level_of_score s = Some Easy)
  /\ (33 < s <= 66 -> level_of_score s = Some Medium)
  /\ (66 < s -> level_of_score s = Some Hard)
  /\ level_of_score 33 = Some Easy
  /\ level_of_score 0 = Some Easy
  /\ (forall batch a,
        In a (analyze_difficulty batch) ->
        Assessment.difficulty_level a
        = level_of_score (Assessment.difficulty_score a)).
Proof.
  intro Hs. destruct (level_of_score_bins s Hs) as (He & Hm & Hh).
  repeat split; auto.
  intros batch a Hin. apply analyze_row, scored_row in Hin. tauto.
Qed.

Lemma difficulty_level_bins_witness :
  (66 <= 33 -> level_of_score 66 = Some Easy)
  /\ (33 < 66 <= 66 -> level_of_score 66 = Some Medium)
  /\ (66 < 66 -> level_of_score 66 = Some Hard)
  /\ level_of_score 33 = Some Easy
  /\ level_of_score 0 = Some Easy
  /\ (forall batch a,
        In a (analyze_difficulty batch) ->
        Assessment.difficulty_level a
        = level_of_score (Assessment.difficulty_score a)).
Proof.
  apply (difficulty_level_bins 66).
  split; unfold Qle; simpl; lia.
Defined.

Lemma by_score_desc_total (a b : Assessment.t) :
  by_score_desc a b = true \/ by_score_desc b a = true.
Proof.
  unfold by_score_desc.
  destruct (Qle_bool (Assessment.difficulty_score b) (Assessment.difficulty_score a)) eqn:E;
    [left; reflexivity|right].
  qbool. apply Qle_bool_iff. lra.
Qed.

Lemma by_score_desc_trans (a b c : Assessment.t) :
  by_score_desc a b = true -> by_score_desc b c = true -> by_score_desc a c = true.
Proof.
  unfold by_score_desc. intros H1 H2. qbool. apply Qle_bool_iff. lra.
Qed.

Lemma analyze_sorted (ws : weights) (batch : list ChapterFeatures.t) :
  StronglySorted
    (fun a b => Assessment.difficulty_score b <= Assessment.difficulty_score a)
    (analyze_difficulty_with ws batch).
Proof.
  unfold analyze_difficulty_with.
  eapply StronglySorted_weaken;
    [|apply sort_by_strongly;
      [apply by_score_desc_total|apply by_score_desc_trans]].
  unfold ordered_by, by_score_desc. intros a b H. apply Qle_bool_iff, H.
Qed.

(** C10.  The frame returned by [analyze_difficulty] is in descending
    order of [difficulty_score]: every row scores at least as much as
    every row after it, so the first row is a hardest chapter; and the
    rows are the scored rows of the batch, rearranged. *)
Theorem analyze_difficulty_sorted_descending
        (batch : list ChapterFeatures.t) (first a : Assessment.t) :
  batch <> [] ->
  hd_error (analyze_difficulty batch) = Some first ->
  In a (analyze_difficulty batch) ->
  StronglySorted
    (fun x y => Assessment.difficulty_score y <= Assessment.difficulty_score x)
    (analyze_difficulty batch)
  /\ Assessment.difficulty_score a <= Assessment.difficulty_score first
  /\ Permutation (scored DIFFICULTY_WEIGHTS batch) (analyze_difficulty batch)
  /\ length (analyze_difficulty batch) = length batch.
Proof.
  intros _ Hhd Hin.
  pose proof (analyze_sorted DIFFICULTY_WEIGHTS batch) as Hs.
  fold (analyze_difficulty batch) in Hs.
  split; [exact Hs|]. split; [|split].
  - destruct (analyze_difficulty batch) as [|h t]; [discriminate|].
    injection Hhd as <-. inversion Hs as [|? ? _ Hall]; subst.
    destruct Hin as [<-|Hin]; [apply Qle_refl|].
    rewrite Forall_forall in Hall. apply Hall, Hin.
  - apply sort_by_perm.
  - unfold analyze_difficulty, analyze_difficulty_with.
    rewrite sort_by_length. unfold scored, rank_dense_desc.
    pose proof (difficulty_score_column_length DIFFICULTY_WEIGHTS batch) as Hlen.
    revert Hlen. generalize (dense_rank_of (difficulty_score_column DIFFICULTY_WEIGHTS batch)).
    generalize (difficulty_score_column DIFFICULTY_WEIGHTS batch).
    clear. induction batch as [|c df IH]; intros [|s scores] g Hlen;
      simpl in *; try reflexivity; try discriminate.
    f_equal. apply IH. lia.
Qed.

Lemma analyze_difficulty_sorted_descending_witness :
  let result := analyze_difficulty Samples.six_chapters in
  let d := select_row (Samples.chapter 0 0 0 0 0 0) 0 None 0 in
  StronglySorted
    (fun x y => Assessment.difficulty_score y <= Assessment.difficulty_score x)
    result
  /\ Assessment.difficulty_score (nth 3 result d)
     <= Assessment.difficulty_score (nth 0 result d)
  /\ Permutation (scored DIFFICULTY_WEIGHTS Samples.six_chapters) result
  /\ length result = length Samples.six_chapters.
Proof.
  intros result d.
  apply (analyze_difficulty_sorted_descending Samples.six_chapters
           (nth 0 result d) (nth 3 result d)).
  - discriminate.
  - vm_compute. reflexivity.
  - vm_compute. do 3 right. left. reflexivity.
Defined.
End DifficultyClaims.

(** ** Dense rank *)

Module DenseRank.
Import Config DifficultyAnalyzer DifficultyFacts.

Lemma dense_walk_cons (cur : Q) (k : Z) (y : Q) (r : list Q) (x : Q) :
  dense_walk cur k (y :: r) x
  = if Qeq_bool cur x then k
    else dense_walk y (if Qeq_bool y cur then k else (k + 1)%Z) r x.
Proof. reflexivity. Qed.

Lemma dense_walk_found (cur : Q) (k : Z) (rest : list Q) (x : Q) :
  cur == x -> dense_walk cur k rest x = k.
Proof.
  intro H. apply Qeq_bool_iff in H.
  destruct rest; simpl; rewrite H; reflexivity.
Qed.

Lemma Qeq_bool_compat_r (c x x' : Q) : x == x' -> Qeq_bool c x = Qeq_bool c x'.
Proof.
  intro H. destruct (Qeq_bool c x) eqn:E1; destruct (Qeq_bool c x') eqn:E2;
    try reflexivity; qbool.
  - exfalso. apply E2. rewrite E1. exact H.
  - exfalso. apply E1. rewrite E2. symmetry. exact H.
Qed.

(** Equal values are in one group. *)
Lemma dense_walk_compat (rest : list Q) (cur : Q) (k : Z) (x x' : Q) :
  x == x' -> dense_walk cur k rest x = dense_walk cur k rest x'.
Proof.
  intro H. revert cur k. induction rest as [|y r IH]; intros cur k.
  - simpl. rewrite (Qeq_bool_compat_r cur x x' H). reflexivity.
  - rewrite !dense_walk_cons, (Qeq_bool_compat_r cur x x' H), IH. reflexivity.
Qed.

Lemma desc_total (a b : Q) : desc a b = true \/ desc b a = true.
Proof.
  unfold desc. destruct (Qle_bool b a) eqn:E; [left; reflexivity|right].
  qbool. apply Qle_bool_iff. lra.
Qed.

Lemma desc_trans (a b c : Q) : desc a b = true -> desc b c = true -> desc a c = true.
Proof. unfold desc. intros H1 H2. qbool. apply Qle_bool_iff. lra. Qed.

Lemma sorted_desc (values : list Q) :
  StronglySorted (fun a b => b <= a) (sort_by desc values).
Proof.
  eapply StronglySorted_weaken;
    [|apply sort_by_strongly; [apply desc_total|apply desc_trans]].
  unfold ordered_by, desc. intros a b H. apply Qle_bool_iff, H.
Qed.

(** The walk from a value [cur] down a descending list: the group of the
    next distinct value below [x] has the number after that of [x]. *)
Lemma dense_walk_next (x y : Q) (l : list Q) :
  y < x ->
  forall (cur : Q) (k : Z),
    StronglySorted (fun a b => b <= a) (cur :: l) ->
    (forall z, In z (cur :: l) -> ~ (y < z /\ z < x)) ->
    In y l ->
    (cur == x -> dense_walk cur k l y = (k + 1)%Z)
    /\ (x < cur -> In x l ->
        dense_walk cur k l y = (dense_walk cur k l x + 1)%Z).
Proof.
  intros Hyx. induction l as [|z r IH]; intros cur k Hs Hgap Hy.
  - contradiction.
  - inversion Hs as [|? ? Hs' Hcur]; subst.
    inversion Hs' as [|? ? Hs'' Hz]; subst.
    rewrite Forall_forall in Hcur, Hz.
    assert (Hzcur : z <= cur) by (apply Hcur; left; reflexivity).
    assert (Hyz : y <= z).
    { destruct Hy as [->|Hy]; [apply Qle_refl|apply Hz, Hy]. }
    assert (Hgap' : forall w, In w (z :: r) -> ~ (y < w /\ w < x)).
    { intros w Hw. apply Hgap. right. exact Hw. }
    split.
    + intro Hcx. rewrite dense_walk_cons.
      assert (E : Qeq_bool cur y = false) by (apply Qeq_bool_false; lra).
      rewrite E.
      destruct (Qeq_bool z cur) eqn:Ezc; qbool.
      * assert (Hy' : In y r).
        { destruct Hy as [->|Hy]; [lra|exact Hy]. }
        apply (IH z k Hs' Hgap' Hy'). lra.
      * assert (Hzy : z == y).
        { specialize (Hgap z (or_intror (or_introl eq_refl))).
          destruct (Qlt_le_dec y z) as [Hlt|Hle]; [|lra].
          exfalso. apply Hgap. split; [exact Hlt|lra]. }
        apply dense_walk_found, Hzy.
    + intros Hxcur Hx. rewrite !dense_walk_cons.
      assert (E1 : Qeq_bool cur y = false) by (apply Qeq_bool_false; lra).
      assert (E2 : Qeq_bool cur x = false) by (apply Qeq_bool_false; lra).
      rewrite E1, E2.
      assert (Hxz : x <= z).
      { destruct Hx as [->|Hx]; [apply Qle_refl|apply Hz, Hx]. }
      destruct (Qeq_dec z x) as [Hzx|Hzx].
      * rewrite (dense_walk_found z _ r x Hzx).
        assert (Hy' : In y r).
        { destruct Hy as [->|Hy]; [lra|exact Hy]. }
        apply (IH z _ Hs' Hgap' Hy'). exact Hzx.
      * assert (Hlt : x < z) by (apply Qle_lteq in Hxz; destruct Hxz as [H|H]; [exact H|exfalso; apply Hzx; symmetry; exact H]).
        assert (Hy' : In y r).
        { destruct Hy as [->|Hy]; [lra|exact Hy]. }
        assert (Hx' : In x r).
        { destruct Hx as [->|Hx]; [lra|exact Hx]. }
        apply (IH z _ Hs' Hgap' Hy'); assumption.
Qed.

Lemma rank_of_greatest (values : list Q) (x : Q) :
  In x values -> (forall z, In z values -> z <= x) ->
  dense_rank_of values x = 1%Z.
Proof.
  intros Hx Hmax. unfold dense_rank_of.
  pose proof (sorted_desc values) as Hs.
  pose proof (sort_by_In desc values) as Hin.
  destruct (sort_by desc values) as [|top rest].
  - apply Hin in Hx. contradiction.
  - apply dense_walk_found.
    assert (Htop : top <= x) by (apply Hmax, Hin; left; reflexivity).
    inversion Hs as [|? ? _ Hall]; subst. rewrite Forall_forall in Hall.
    apply Hin in Hx. destruct Hx as [->|Hx]; [reflexivity|].
    specialize (Hall x Hx). lra.
Qed.

Lemma rank_of_equal (values : list Q) (x x' : Q) :
  x == x' -> dense_rank_of values x = dense_rank_of values x'.
Proof.
  intro H. unfold dense_rank_of.
  destruct (sort_by desc values); [reflexivity|].
  apply dense_walk_compat, H.
Qed.

Lemma rank_of_next (values : list Q) (x y : Q) :
  In x values -> In y values -> y < x ->
  (forall z, In z values -> ~ (y < z /\ z < x)) ->
  dense_rank_of values y = (dense_rank_of values x + 1)%Z.
Proof.
  intros Hx Hy Hyx Hgap. unfold dense_rank_of.
  pose proof (sorted_desc values) as Hs.
  pose proof (sort_by_In desc values) as Hin.
  destruct (sort_by desc values) as [|top rest].
  - apply Hin in Hx. contradiction.
  - assert (Hgap' : forall z, In z (top :: rest) -> ~ (y < z /\ z < x)).
    { intros z Hz. apply Hgap, Hin, Hz. }
    apply Hin in Hx. apply Hin in Hy.
    assert (Hall : forall z, In z rest -> z <= top).
    { inversion Hs as [|? ? _ H]; subst. rewrite Forall_forall in H. exact H. }
    assert (Hxtop : x <= top).
    { destruct Hx as [->|Hx]; [apply Qle_refl|apply Hall, Hx]. }
    assert (Hy' : In y rest).
    { destruct Hy as [->|Hy]; [lra|exact Hy]. }
    destruct (dense_walk_next x y rest Hyx top 1%Z Hs Hgap' Hy') as [Hfirst Hlater].
    destruct (Qeq_dec top x) as [Htx|Htx].
    + rewrite (dense_walk_found top 1%Z rest x Htx). apply Hfirst, Htx.
    + apply Hlater.
      * apply Qle_lteq in Hxtop. destruct Hxtop as [H|H]; [exact H|].
        exfalso. apply Htx. symmetry. exact H.
      * destruct Hx as [->|Hx]; [exfalso; apply Htx; reflexivity|exact Hx].
Qed.

(** C6.  In the frame returned for a non-empty batch, [difficulty_rank]
    is the dense rank in descending order of [difficulty_score]: a row
    that no row outscores has rank 1, rows with equal scores have equal
    ranks, and a row whose score is the next distinct score below that
    of another row has that row's rank plus one. *)
Theorem difficulty_rank_dense
        (batch : list ChapterFeatures.t) (a b : Assessment.t) :
  batch <> [] ->
  In a (analyze_difficulty batch) ->
  In b (analyze_difficulty batch) ->
  ((forall c, In c (analyze_difficulty batch) ->
              Assessment.difficulty_score c <= Assessment.difficulty_score a) ->
   Assessment.difficulty_rank a = 1%Z)
  /\ (Assessment.difficulty_score a == Assessment.difficulty_score b ->
      Assessment.difficulty_rank a = Assessment.difficulty_rank b)
  /\ (Assessment.difficulty_score b < Assessment.difficulty_score a ->
      (forall c, In c (analyze_difficulty batch) ->
                 ~ (Assessment.difficulty_score b < Assessment.difficulty_score c
                    /\ Assessment.difficulty_score c < Assessment.difficulty_score a)) ->
      Assessment.difficulty_rank b = (Assessment.difficulty_rank a + 1)%Z).
Proof.
  intros _ Ha Hb.
  pose proof Ha as Ha'. pose proof Hb as Hb'.
  apply analyze_row, scored_row in Ha'. destruct Ha' as (Hsa & _ & Hra).
  apply analyze_row, scored_row in Hb'. destruct Hb' as (Hsb & _ & Hrb).
  assert (Hrows : forall z, In z (difficulty_score_column DIFFICULTY_WEIGHTS batch) ->
                            exists c, In c (analyze_difficulty batch)
                                      /\ Assessment.difficulty_score c = z).
  { intros z Hz.
    destruct (select_rows_complete batch
                (difficulty_score_column DIFFICULTY_WEIGHTS batch) level_of_score
                (dense_rank_of (difficulty_score_column DIFFICULTY_WEIGHTS batch)) z)
      as (c & Hc & Hs); [symmetry; apply difficulty_score_column_length|exact Hz|].
    exists c. split; [apply analyze_row; exact Hc|exact Hs]. }
  rewrite Hra, Hrb. repeat split.
  - intro Hmax. apply rank_of_greatest; [exact Hsa|].
    intros z Hz. destruct (Hrows z Hz) as (c & Hc & <-). apply Hmax, Hc.
  - apply rank_of_equal.
  - intros Hlt Hgap. apply rank_of_next; try assumption.
    intros z Hz. destruct (Hrows z Hz) as (c & Hc & <-). apply Hgap, Hc.
Qed.

Lemma difficulty_rank_dense_witness :
  let result := analyze_difficulty Samples.six_chapters in
  let d := select_row (Samples.chapter 0 0 0 0 0 0) 0 None 0 in
  let a := nth 1 result d in
  let b := nth 3 result d in
  ((forall c, In c result ->
              Assessment.difficulty_score c <= Assessment.difficulty_score a) ->
   Assessment.difficulty_rank a = 1%Z)
  /\ (Assessment.difficulty_score a == Assessment.difficulty_score b ->
      Assessment.difficulty_rank a = Assessment.difficulty_rank b)
  /\ (Assessment.difficulty_score b < Assessment.difficulty_score a ->
      (forall c, In c result ->
                 ~ (Assessment.difficulty_score b < Assessment.difficulty_score c
                    /\ Assessment.difficulty_score c < Assessment.difficulty_score a)) ->
      Assessment.difficulty_rank b = (Assessment.difficulty_rank a + 1)%Z).
Proof.
  intros result d a b.
  apply (difficulty_rank_dense Samples.six_chapters a b).
  - discriminate.
  - vm_compute. right. left. reflexivity.
  - vm_compute. do 3 right. left. reflexivity.
Defined.

(** The ranks of the sample batch, in the order of the result: the two
    tied chapters share rank 2 and the next chapter has rank 3. *)
Example six_chapters_ranks :
  map Assessment.difficulty_rank (analyze_difficulty Samples.six_chapters)
  = [1; 2; 2; 3; 4; 5]%Z.
Proof. vm_compute. reflexivity. Qed.

(** The example of the specification: the second chapter is harder and
    has rank 1. *)
Example two_chapters_ranks :
  map (fun a => (Assessment.chapter_order a, Assessment.difficulty_rank a,
                 Qred (Assessment.difficulty_score a)))
      (analyze_difficulty Samples.two_chapters)
  = [(2, 1%Z, 100); (1, 2%Z, 0)].
Proof. vm_compute. reflexivity. Qed.
End DenseRank.

(** ** Preprocessing *)

Module PreprocessingFacts.
Import Preprocessing.



(** Only [time_spent] is touched by the outlier step. *)
Lemma handle_outliers_score (df : list RawEvent.t) :
  map RawEvent.score (_handle_outliers df) = map RawEvent.score df.
Proof. unfold _handle_outliers. rewrite map_map. reflexivity. Qed.

(** The sample frame: the missing time is the median 25, the missing
    score the mean 75, the missing completion 0, and the outlier 1000 is
    capped at Q3 + 1.5 IQR = 45. *)
Example with_gaps_preprocessed :
  map (fun e => (option_map Qred (RawEvent.time_spent e),
                 option_map Qred (RawEvent.score e),
                 RawEvent.completion_status e))
      (snd (transform __init__ Samples.with_gaps))
  = [(Some 10, Some 50, Some 0); (Some 25, Some 70, Some 1);
     (Some 20, Some 75, Some 1); (Some 45, Some 90, Some 1);
     (Some 30, Some 90, Some 1)].
Proof. vm_compute. reflexivity. Qed.
End PreprocessingFacts.

(** ** Validation *)

Module IngestionFacts.
Import Ingestion.

Section Facts.
Variable parse_number : string -> option Q.

Lemma to_numeric_not_text (c : cell) :
  (forall s, c <> Text s) -> to_numeric parse_number c = c.
Proof.
  destruct c as [q|s|]; intro H; try reflexivity.
  exfalso. apply (H s). reflexivity.
Qed.

Lemma coerce_column_names (name : string) (df : DataFrame) :
  map fst (coerce_column parse_number name df) = map fst df.
Proof.
  unfold coerce_column. rewrite map_map. apply map_ext.
  intros [n cells]. simpl. destruct (String.eqb n name); reflexivity.
Qed.

Lemma coerce_column_lengths (name : string) (df : DataFrame) :
  map (fun c => length (snd c)) (coerce_column parse_number name df)
  = map (fun c => length (snd c)) df.
Proof.
  unfold coerce_column. rewrite map_map. apply map_ext.
  intros [n cells]. simpl. destruct (String.eqb n name); simpl;
    [apply length_map|reflexivity].
Qed.

Lemma column_coerce_column (name other : string) (df : DataFrame) :
  column (coerce_column parse_number name df) other
  = if String.eqb other name
    then map (to_numeric parse_number) (column df other)
    else column df other.
Proof.
  induction df as [|[n cells] r IH]; simpl.
  - destruct (String.eqb other name); reflexivity.
  - destruct (String.eqb n name) eqn:E1; simpl;
      destruct (String.eqb n other) eqn:E2; try exact IH.
    + apply String.eqb_eq in E1, E2. subst.
      rewrite String.eqb_refl. reflexivity.
    + apply String.eqb_eq in E2. subst.
      rewrite E1. reflexivity.
Qed.

Lemma coerce_column_id (name : string) (df : DataFrame) :
  (forall cells c s, In (name, cells) df -> In c cells -> c <> Text s) ->
  coerce_column parse_number name df = df.
Proof.
  intro H. unfold coerce_column.
  rewrite <- (map_id df) at 2. apply map_ext_in.
  intros [n cells] Hin. simpl.
  destruct (String.eqb n name) eqn:E; [|reflexivity].
  apply String.eqb_eq in E. subst n. f_equal.
  rewrite <- (map_id cells) at 2. apply map_ext_in.
  intros c Hc. apply to_numeric_not_text. intro s. eapply H; eassumption.
Qed.

Lemma column_coerced (name : string) (df : DataFrame) :
  In name COERCED_COLUMNS ->
  column (coerce_numeric_columns parse_number df) name
  = map (to_numeric parse_number) (column df name).
Proof.
  unfold COERCED_COLUMNS, coerce_numeric_columns. intro H.
  repeat (destruct H as [<-|H]; [rewrite !column_coerce_column; reflexivity|]).
  contradiction.
Qed.

Lemma column_not_coerced (name : string) (df : DataFrame) :
  ~ In name COERCED_COLUMNS ->
  column (coerce_numeric_columns parse_number df) name = column df name.
Proof.
  intro H.
  assert (Hne : forall n, In n COERCED_COLUMNS -> String.eqb name n = false).
  { intros n Hn. apply String.eqb_neq. intros ->. exact (H Hn). }
  unfold coerce_numeric_columns. rewrite !column_coerce_column.
  rewrite !Hne by (simpl; tauto). reflexivity.
Qed.

Lemma validate_data_frame (df : DataFrame) :
  fst (validate_data parse_number df) = df
  \/ fst (validate_data parse_number df) = coerce_numeric_columns parse_number df.
Proof.
  unfold validate_data.
  destruct (empty df); [left; reflexivity|].
  destruct (filter _ REQUIRED_COLUMNS); [|left; reflexivity].
  right.
  repeat match goal with
         | |- context [if ?b then _ else _] => destruct b
         end; reflexivity.
Qed.
End Facts.

Lemma validate_data_no_text (parse_number : string -> option Q) (df : DataFrame) :
  (forall name cells c s,
      In (name, cells) df -> In name COERCED_COLUMNS -> In c cells -> c <> Text s) ->
  fst (validate_data parse_number df) = df.
Proof.
  intro H.
  destruct (validate_data_frame parse_number df) as [E|E]; rewrite E; [reflexivity|].
  unfold coerce_numeric_columns.
  rewrite (coerce_column_id parse_number "time_spent" df);
    [|intros cells c s Hin; apply (H _ _ c s Hin); simpl; tauto].
  rewrite (coerce_column_id parse_number "score" df);
    [|intros cells c s Hin; apply (H _ _ c s Hin); simpl; tauto].
  rewrite (coerce_column_id parse_number "chapter_order" df);
    [|intros cells c s Hin; apply (H _ _ c s Hin); simpl; tauto].
  apply coerce_column_id.
  intros cells c s Hin; apply (H _ _ c s Hin); simpl; tauto.
Qed.

(** C7, as stated, fails.  On a frame whose score column holds the text
    "85", [validate_data] returns normally and the caller's frame is no
    longer the frame passed in: the text has become the number 85.  On a
    frame whose time column holds the text "soon" it raises, and the
    caller's frame holds NaN in place of the text. *)
Lemma validate_data_mutates_its_input :
  snd (validate_data parse_unsigned Samples.text_score) = Returned
  /\ fst (validate_data parse_unsigned Samples.text_score) <> Samples.text_score
  /\ column (fst (validate_data parse_unsigned Samples.text_score)) "score"
     = [Num 85; Num 90]
  /\ snd (validate_data parse_unsigned Samples.bad_time) = Raised TypeValidationFailed
  /\ fst (validate_data parse_unsigned Samples.bad_time) <> Samples.bad_time
  /\ column (fst (validate_data parse_unsigned Samples.bad_time)) "time_spent"
     = [Num 30; NaN].
Proof.
  repeat split; try (vm_compute; reflexivity);
    vm_compute; intro H; discriminate H.
Qed.

(** C7, as the code has it.  Whether it returns or raises,
    [validate_data] leaves the column names and their order, the number
    of cells of every column, and every column other than [time_spent],
    [score], [chapter_order] and [completion_status] as they were passed
    in, so [student_id] and [course_id] are unchanged; each of those four
    columns is either unchanged or replaced by its numeric coercion; and
    a frame with no text in those four columns is exactly the frame that
    was passed in. *)
Theorem validate_data_changes_only_coerced_columns
        (parse_number : string -> option Q) (df : DataFrame) :
  map fst (fst (validate_data parse_number df)) = map fst df
  /\ map (fun c => length (snd c)) (fst (validate_data parse_number df))
     = map (fun c => length (snd c)) df
  /\ (forall name, ~ In name COERCED_COLUMNS ->
                   column (fst (validate_data parse_number df)) name = column df name)
  /\ column (fst (validate_data parse_number df)) "student_id" = column df "student_id"
  /\ column (fst (validate_data parse_number df)) "course_id" = column df "course_id"
  /\ (forall name, In name COERCED_COLUMNS ->
                   column (fst (validate_data parse_number df)) name = column df name
                   \/ column (fst (validate_data parse_number df)) name
                      = map (to_numeric parse_number) (column df name))
  /\ ((forall name cells c s,
          In (name, cells) df -> In name COERCED_COLUMNS -> In c cells ->
          c <> Text s) ->
      fst (validate_data parse_number df) = df).
Proof.
  assert (Hother : forall name, ~ In name COERCED_COLUMNS ->
                     column (fst (validate_data parse_number df)) name = column df name).
  { intros name Hn.
    destruct (validate_data_frame parse_number df) as [E|E]; rewrite E;
      [reflexivity|apply column_not_coerced, Hn]. }
  split; [|split; [|split; [|split; [|split; [|split]]]]].
  - destruct (validate_data_frame parse_number df) as [E|E]; rewrite E; [reflexivity|].
    unfold coerce_numeric_columns. rewrite !coerce_column_names. reflexivity.
  - destruct (validate_data_frame parse_number df) as [E|E]; rewrite E; [reflexivity|].
    unfold coerce_numeric_columns. rewrite !coerce_column_lengths. reflexivity.
  - exact Hother.
  - apply Hother. unfold COERCED_COLUMNS. simpl.
    intros [H|[H|[H|[H|[]]]]]; discriminate H.
  - apply Hother. unfold COERCED_COLUMNS. simpl.
    intros [H|[H|[H|[H|[]]]]]; discriminate H.
  - intros name Hn.
    destruct (validate_data_frame parse_number df) as [E|E]; rewrite E;
      [left; reflexivity|right; apply column_coerced, Hn].
  - apply validate_data_no_text.
Qed.

(** A frame of numbers passes validation and is returned as it was. *)
Example all_numbers_validated :
  validate_data parse_unsigned Samples.all_numbers = (Samples.all_numbers, Returned).
Proof. vm_compute. reflexivity. Qed.

Section Rejection.
Variable parse_number : string -> option Q.

Lemma coerced_nan (df : DataFrame) (name : string) (c : cell) :
  In name COERCED_COLUMNS ->
  In c (column df name) ->
  to_numeric parse_number c = NaN ->
  In NaN (column (coerce_numeric_columns parse_number df) name).
Proof.
  intros Hn Hc Hnan. rewrite column_coerced by exact Hn.
  rewrite <- Hnan. apply in_map, Hc.
Qed.

Lemma existsb_isna (cells : list cell) : In NaN cells -> existsb isna cells = true.
Proof. intro H. apply existsb_exists. exists NaN. split; [exact H|reflexivity]. Qed.

Lemma forallb_isin_0_1 (cells : list cell) :
  In NaN cells -> forallb isin_0_1 cells = false.
Proof.
  intro H. destruct (forallb isin_0_1 cells) eqn:E; [|reflexivity].
  rewrite forallb_forall in E. specialize (E NaN H). discriminate E.
Qed.
End Rejection.

(** C8, as stated, fails.  A frame whose [student_id] cells are texts
    that denote no number, and whose other columns are valid, passes
    validation. *)
Lemma validate_data_accepts_text_student_id :
  column Samples.text_student_id "student_id" = [Text "abc"; Text "xyz"]
  /\ to_numeric parse_unsigned (Text "abc") = NaN
  /\ snd (validate_data parse_unsigned Samples.text_student_id) = Returned.
Proof. vm_compute. repeat split. Qed.

(** C8, as the code has it.  If any cell of [time_spent], [score],
    [chapter_order] or [completion_status] cannot be coerced to a number,
    [validate_data] raises: the whole batch is refused. *)
Theorem validate_data_rejects_uncoercible
        (parse_number : string -> option Q) (df : DataFrame)
        (name : string) (c : cell) :
  In name COERCED_COLUMNS ->
  In c (column df name) ->
  to_numeric parse_number c = NaN ->
  exists e, snd (validate_data parse_number df) = Raised e.
Proof.
  intros Hn Hc Hnan.
  pose proof (coerced_nan parse_number df name c Hn Hc Hnan) as Hin.
  unfold validate_data.
  destruct (empty df); [eexists; reflexivity|].
  destruct (filter _ REQUIRED_COLUMNS); [|eexists; reflexivity].
  unfold COERCED_COLUMNS in Hn. simpl in Hn.
  destruct Hn as [<-|[<-|[<-|[<-|[]]]]].
  - rewrite (existsb_isna _ Hin). eexists; reflexivity.
  - rewrite (existsb_isna _ Hin), orb_true_r. eexists; reflexivity.
  - rewrite (existsb_isna _ Hin), orb_true_r. eexists; reflexivity.
  - rewrite (forallb_isin_0_1 _ Hin). cbn [negb].
    repeat match goal with
           | |- context [if ?b then _ else _] => destruct b
           end; eexists; reflexivity.
Qed.

Lemma validate_data_rejects_uncoercible_witness :
  exists e, snd (validate_data parse_unsigned Samples.bad_time) = Raised e.
Proof.
  apply (validate_data_rejects_uncoercible parse_unsigned Samples.bad_time
           "time_spent" (Text "soon")).
  - simpl. tauto.
  - simpl. tauto.
  - reflexivity.
Defined.
End IngestionFacts.

(** ** Score trend *)

Module FeatureEngineeringFacts.
Import FeatureEngineering.

Lemma merge_left_computed (f : Z -> Q) (students : list Z) (s : Z) :
  In s students ->
  merge_left (map (fun x => (x, f x)) students) s = Some (f s).
Proof.
  induction students as [|x r IH]; intro H; [contradiction|].
  simpl. destruct (Z.eqb_spec x s) as [->|Hne]; [reflexivity|].
  destruct H as [H|H]; [contradiction|apply IH, H].
Qed.

Lemma score_trend_table_lookup (df : list ChapterEvent.t) (s : Z) :
  In s (map ChapterEvent.student_id df) ->
  merge_left (score_trend_table df) s
  = Some (_calculate_score_trend
            (filter (fun e => (ChapterEvent.student_id e =? s)%Z) df)).
Proof.
  intro H. unfold score_trend_table, groupby_student.
  rewrite map_map. cbn [fst snd].
  apply (merge_left_computed
           (fun x => _calculate_score_trend
                       (filter (fun e => (ChapterEvent.student_id e =? x)%Z) df))).
  apply sort_by_In, nodup_In, H.
Qed.

(** What the code computes: the trend of a feature row is the trend of
    all the events of the row's student, whatever their course. *)
Lemma score_trend_is_per_student (df : list ChapterEvent.t) (row : StudentFeatures.t) :
  In row (student_feature_rows df) ->
  StudentFeatures.score_trend row
  = _calculate_score_trend
      (filter (fun e => (ChapterEvent.student_id e =? StudentFeatures.student_id row)%Z) df).
Proof.
  unfold student_feature_rows, groupby_student_course.
  rewrite map_map. intro H. apply in_map_iff in H.
  destruct H as (k & <- & Hk). cbn.
  apply sort_by_In, nodup_In, in_map_iff in Hk.
  destruct Hk as (e & <- & He).
  rewrite score_trend_table_lookup; [reflexivity|].
  apply in_map_iff. exists e. split; [reflexivity|exact He].
Qed.

Lemma calculate_score_trend_unfold (group : list ChapterEvent.t) :
  _calculate_score_trend group
  = if (length group <? 4)%nat then 0
    else
      let ordered := sort_by by_chapter_order group in
      mean (map ChapterEvent.score (skipn (length ordered - 3) ordered))
      - mean (map ChapterEvent.score (firstn 3 ordered)).
Proof. reflexivity. Qed.

Lemma engineer_student_features_rows (df : list ChapterEvent.t)
      (rows : list StudentFeatures.t) :
  engineer_student_features df = Some rows ->
  rows = student_feature_rows df /\ df <> [].
Proof.
  unfold engineer_student_features.
  destruct (groupby_student df) eqn:E; [discriminate|].
  intro H. injection H as <-. split; [reflexivity|].
  intros ->. discriminate.
Qed.

Lemma engineer_student_features_defined (df : list ChapterEvent.t) :
  df <> [] -> engineer_student_features df = Some (student_feature_rows df).
Proof.
  intro Hne. unfold engineer_student_features.
  destruct (groupby_student df) eqn:E; [|reflexivity].
  exfalso. destruct df as [|e r]; [contradiction|].
  unfold groupby_student in E. apply map_eq_nil in E.
  assert (Hin : In (ChapterEvent.student_id e)
                   (sort_by Z.leb (nodup Z.eq_dec
                      (map ChapterEvent.student_id (e :: r))))).
  { apply sort_by_In, nodup_In. left. reflexivity. }
  rewrite E in Hin. contradiction.
Qed.

(** Where the specification and the code agree: for a student all of whose events
    are in one course, the trend of the feature row is the trend of the
    events of the row's (student_id, course_id) key. *)
Lemma score_trend_single_course (df : list ChapterEvent.t)
      (rows : list StudentFeatures.t) (row : StudentFeatures.t) :
  engineer_student_features df = Some rows ->
  In row rows ->
  (forall e, In e df ->
             ChapterEvent.student_id e = StudentFeatures.student_id row ->
             ChapterEvent.course_id e = StudentFeatures.course_id row) ->
  StudentFeatures.score_trend row
  = spec_score_trend df (StudentFeatures.student_id row) (StudentFeatures.course_id row).
Proof.
  intros Hrows Hrow Hone.
  apply engineer_student_features_rows in Hrows. destruct Hrows as [-> _].
  rewrite (score_trend_is_per_student df row Hrow).
  unfold spec_score_trend, events_of_key.
  rewrite calculate_score_trend_unfold.
  replace (filter (fun e => (ChapterEvent.student_id e =? StudentFeatures.student_id row)%Z) df)
    with (filter (fun e => (ChapterEvent.student_id e =? StudentFeatures.student_id row)%Z
                           && (ChapterEvent.course_id e =? StudentFeatures.course_id row)%Z) df);
    [reflexivity|].
  apply filter_ext_in. intros e He.
  destruct (Z.eqb_spec (ChapterEvent.student_id e) (StudentFeatures.student_id row)) as [Hs|Hs];
    [|reflexivity].
  rewrite (Hone e He Hs), Z.eqb_refl. reflexivity.
Qed.

(** C1, the code at the failing input.  Student 1 has four events in
    course 1 (chapters 1 to 4, scores 10, 20, 30, 40) and one event in
    course 2 (chapter 1, score 100).  The events of key (1, 2) number
    one, so the trend of that key is 0 by the rule for fewer than four
    events, and the trend of key (1, 1) is 30 - 20 = 10.  The code gives
    both rows the trend of the student's five events taken together and
    ordered by chapter, (20 + 30 + 40)/3 - (10 + 100 + 20)/3 = -40/3;
    the two events of chapter 1 are among the first three in whichever
    order the sort leaves them. *)
Theorem score_trend_pools_courses_of_student :
  option_map
    (map (fun row => (StudentFeatures.student_id row, StudentFeatures.course_id row,
                      StudentFeatures.chapters_attempted row,
                      Qred (StudentFeatures.score_trend row))))
    (engineer_student_features Samples.two_courses)
  = Some [(1%Z, 1%Z, 4%Z, - 40 # 3); (1%Z, 2%Z, 1%Z, - 40 # 3); (2%Z, 1%Z, 3%Z, 0)]
  /\ Qred (spec_score_trend Samples.two_courses 1 1) = 10
  /\ Qred (spec_score_trend Samples.two_courses 1 2) = 0
  /\ Qred (spec_score_trend Samples.two_courses 2 1) = 0.
Proof. vm_compute. repeat split. Qed.

(** A student with five events in one course, given out of order: the
    events are ordered by chapter and the last three and first three
    overlap in the middle one. *)
Example one_course_trend :
  option_map (map (fun row => Qred (StudentFeatures.score_trend row)))
             (engineer_student_features Samples.one_course)
  = Some [20]
  /\ Qred (spec_score_trend Samples.one_course 7 3) = 20.
Proof. vm_compute. repeat split. Qed.
End FeatureEngineeringFacts.

(** * Further properties *)

(** ** Risk levels and the list of students at risk *)

Module HighRiskFacts.
Import Config DropoutDetector HighRisk.

(** Raising the risk score never lowers the risk level. *)
Theorem risk_level_of_monotone (s t : Q) :
  s <= t -> (severity (risk_level_of s) <= severity (risk_level_of t))%nat.
Proof.
  intro Hst. unfold risk_level_of, HIGH_RISK_THRESHOLD, MEDIUM_RISK_THRESHOLD.
  destruct (Qle_bool (7 # 10) s) eqn:Hs7; destruct (Qle_bool (4 # 10) s) eqn:Hs4;
    destruct (Qle_bool (7 # 10) t) eqn:Ht7; destruct (Qle_bool (4 # 10) t) eqn:Ht4;
    qbool; simpl; try lia; exfalso; lra.
Qed.

Lemma risk_level_of_monotone_witness :
  (severity (risk_level_of (45 # 100)) <= severity (risk_level_of (7 # 10)))%nat.
Proof.
  apply (risk_level_of_monotone (45 # 100) (7 # 10)).
  unfold Qle; simpl; lia.
Defined.

Lemma isin_high_medium_threshold (i : Z) (s : Q) :
  isin_high_medium
    {| RiskRow.student_id := i; RiskRow.risk_score := s;
       RiskRow.risk_level := risk_level_of s |} = true
  <-> 4 # 10 <= s.
Proof.
  unfold isin_high_medium, risk_level_of, HIGH_RISK_THRESHOLD, MEDIUM_RISK_THRESHOLD.
  simpl.
  destruct (Qle_bool (7 # 10) s) eqn:H7; destruct (Qle_bool (4 # 10) s) eqn:H4;
    qbool; split; intro H; try reflexivity; try discriminate; lra.
Qed.

Lemma results_frame_In (ids : list Z) (scores : list Q) (r : RiskRow.t) :
  In r (results_frame ids scores (map risk_level_of scores)) ->
  In (RiskRow.risk_score r) scores
  /\ RiskRow.risk_level r = risk_level_of (RiskRow.risk_score r).
Proof.
  revert scores. induction ids as [|i ids IH]; intros [|s scores] H;
    simpl in H; try contradiction.
  destruct H as [<-|H]; simpl.
  - auto.
  - destruct (IH _ H). auto.
Qed.

Lemma results_frame_nth (ids : list Z) (scores : list Q) (n : nat) (i : Z) (s : Q) :
  nth_error ids n = Some i -> nth_error scores n = Some s ->
  In {| RiskRow.student_id := i; RiskRow.risk_score := s;
        RiskRow.risk_level := risk_level_of s |}
     (results_frame ids scores (map risk_level_of scores)).
Proof.
  revert scores n. induction ids as [|i0 ids IH]; intros [|s0 scores] [|n] Hi Hs;
    simpl in *; try discriminate.
  - injection Hi as ->. injection Hs as ->. left. reflexivity.
  - right. eapply IH; eassumption.
Qed.

Lemma results_frame_length (ids : list Z) (scores : list Q) :
  length ids = length scores ->
  length (results_frame ids scores (map risk_level_of scores)) = length scores.
Proof.
  revert scores. induction ids as [|i ids IH]; intros [|s scores] H;
    simpl in *; try reflexivity; try discriminate.
  f_equal. apply IH. lia.
Qed.

Lemma by_risk_score_desc_total (a b : RiskRow.t) :
  by_risk_score_desc a b = true \/ by_risk_score_desc b a = true.
Proof.
  unfold by_risk_score_desc.
  destruct (Qle_bool (RiskRow.risk_score b) (RiskRow.risk_score a)) eqn:E;
    [left; reflexivity|right].
  qbool. apply Qle_bool_iff. lra.
Qed.

Lemma by_risk_score_desc_trans (a b c : RiskRow.t) :
  by_risk_score_desc a b = true -> by_risk_score_desc b c = true ->
  by_risk_score_desc a c = true.
Proof.
  unfold by_risk_score_desc. intros H1 H2. qbool. apply Qle_bool_iff. lra.
Qed.

Lemma results_frame_origin (ids : list Z) (scores : list Q)
      (levels : list risk_level) (r : RiskRow.t) :
  In r (results_frame ids scores levels) ->
  exists n, nth_error ids n = Some (RiskRow.student_id r)
            /\ nth_error scores n = Some (RiskRow.risk_score r).
Proof.
  revert scores levels.
  induction ids as [|i ids IH]; intros [|s scores] [|l levels] H;
    simpl in H; try contradiction.
  destruct H as [<-|H].
  - exists 0%nat. split; reflexivity.
  - destruct (IH _ _ H) as (n & Hi & Hs). exists (S n). split; assumption.
Qed.

Lemma isin_high_medium_bool (i : Z) (s : Q) :
  isin_high_medium
    {| RiskRow.student_id := i; RiskRow.risk_score := s;
       RiskRow.risk_level := risk_level_of s |}
  = Qle_bool (4 # 10) s.
Proof.
  pose proof (isin_high_medium_threshold i s) as [H1 H2].
  destruct (isin_high_medium _); destruct (Qle_bool (4 # 10) s) eqn:E;
    try reflexivity.
  - qbool. specialize (H1 eq_refl). lra.
  - apply Qle_bool_iff in E. specialize (H2 E). discriminate.
Qed.

Lemma results_frame_at_risk (ids : list Z) (scores : list Q) :
  filter isin_high_medium (results_frame ids scores (map risk_level_of scores))
  = map (fun p => {| RiskRow.student_id := fst p; RiskRow.risk_score := snd p;
                     RiskRow.risk_level := risk_level_of (snd p) |})
        (filter (fun p => Qle_bool (4 # 10) (snd p)) (combine ids scores)).
Proof.
  revert scores. induction ids as [|i ids IH]; intros [|s scores];
    try reflexivity.
  cbn [map results_frame combine filter snd]. rewrite isin_high_medium_bool, IH.
  destruct (Qle_bool (4 # 10) s); reflexivity.
Qed.

(** For a trained detector and one student id per feature row, the list
    of students at risk is exactly the students whose risk score is at
    least 0.4, each with the level of its score and never Low, in
    descending order of risk score.  Every returned row is one of the
    given students with the score predicted for it, and the rows are,
    up to their order, the given (student, score) pairs whose score is
    at least 0.4, each as many times as it is given. *)
Theorem get_high_risk_students_spec
        (FeatureFrame : Type) (predict_proba : FeatureFrame -> list Q)
        (X : FeatureFrame) (student_ids : list Z) :
  length student_ids = length (predict_proba X) ->
  exists high_risk,
    get_high_risk_students FeatureFrame true predict_proba X student_ids
    = Some high_risk
    /\ (forall r, In r high_risk ->
                  4 # 10 <= RiskRow.risk_score r
                  /\ RiskRow.risk_level r = risk_level_of (RiskRow.risk_score r)
                  /\ RiskRow.risk_level r <> Low)
    /\ (forall n i s,
           nth_error student_ids n = Some i ->
           nth_error (predict_proba X) n = Some s ->
           4 # 10 <= s ->
           In {| RiskRow.student_id := i; RiskRow.risk_score := s;
                 RiskRow.risk_level := risk_level_of s |} high_risk)
    /\ StronglySorted
         (fun a b => RiskRow.risk_score b <= RiskRow.risk_score a) high_risk
    /\ (length high_risk <= length student_ids)%nat
    /\ (forall r, In r high_risk ->
                  exists n,
                    nth_error student_ids n = Some (RiskRow.student_id r)
                    /\ nth_error (predict_proba X) n = Some (RiskRow.risk_score r))
    /\ Permutation
         high_risk
         (map (fun p => {| RiskRow.student_id := fst p;
                           RiskRow.risk_score := snd p;
                           RiskRow.risk_level := risk_level_of (snd p) |})
              (filter (fun p => Qle_bool (4 # 10) (snd p))
                      (combine student_ids (predict_proba X)))).
Proof.
  intro Hlen. unfold get_high_risk_students, predict_risk_level, predict_risk_score.
  cbn [negb]. rewrite Hlen, Nat.eqb_refl.
  eexists. split; [reflexivity|].
  split; [|split; [|split; [|split; [|split]]]].
  - intros r Hr. apply sort_by_In, filter_In in Hr. destruct Hr as [Hr Hhm].
    apply results_frame_In in Hr. destruct Hr as [_ Hl].
    destruct r as [i s l]. cbn in *. subst l.
    pose proof (proj1 (isin_high_medium_threshold i s) Hhm) as H4.
    repeat split; [exact H4|].
    unfold isin_high_medium in Hhm. cbn in Hhm.
    intro E. rewrite E in Hhm. discriminate.
  - intros n i s Hi Hs H4. apply sort_by_In, filter_In. split.
    + eapply results_frame_nth; eassumption.
    + apply isin_high_medium_threshold, H4.
  - eapply StronglySorted_weaken;
      [|apply sort_by_strongly;
        [apply by_risk_score_desc_total|apply by_risk_score_desc_trans]].
    unfold ordered_by, by_risk_score_desc. intros a b H. apply Qle_bool_iff, H.
  - rewrite sort_by_length.
    eapply Nat.le_trans; [apply filter_length_le|].
    rewrite results_frame_length by exact Hlen. lia.
  - intros r Hr. apply sort_by_In, filter_In in Hr. destruct Hr as [Hr _].
    eapply results_frame_origin, Hr.
  - rewrite <- results_frame_at_risk. apply Permutation_sym, sort_by_perm.
Qed.

Lemma get_high_risk_students_spec_witness :
  exists high_risk,
    get_high_risk_students unit true (fun _ => [3 # 10; 8 # 10; 5 # 10]) tt
                           [101; 102; 103]%Z
    = Some high_risk
    /\ (forall r, In r high_risk ->
                  4 # 10 <= RiskRow.risk_score r
                  /\ RiskRow.risk_level r = risk_level_of (RiskRow.risk_score r)
                  /\ RiskRow.risk_level r <> Low)
    /\ (forall n i s,
           nth_error [101; 102; 103]%Z n = Some i ->
           nth_error [3 # 10; 8 # 10; 5 # 10] n = Some s ->
           4 # 10 <= s ->
           In {| RiskRow.student_id := i; RiskRow.risk_score := s;
                 RiskRow.risk_level := risk_level_of s |} high_risk)
    /\ StronglySorted
         (fun a b => RiskRow.risk_score b <= RiskRow.risk_score a) high_risk
    /\ (length high_risk <= length [101; 102; 103]%Z)%nat
    /\ (forall r, In r high_risk ->
                  exists n,
                    nth_error [101; 102; 103]%Z n = Some (RiskRow.student_id r)
                    /\ nth_error [3 # 10; 8 # 10; 5 # 10] n
                       = Some (RiskRow.risk_score r))
    /\ Permutation
         high_risk
         [ {| RiskRow.student_id := 102; RiskRow.risk_score := 8 # 10;
              RiskRow.risk_level := High |};
           {| RiskRow.student_id := 103; RiskRow.risk_score := 5 # 10;
              RiskRow.risk_level := Medium |} ].
Proof.
  apply (get_high_risk_students_spec unit (fun _ => [3 # 10; 8 # 10; 5 # 10]) tt
           [101; 102; 103]%Z).
  reflexivity.
Defined.

(** The sample: student 102 (0.8, High) comes before student 103 (0.5,
    Medium); student 101 (0.3, Low) is left out. *)
Example high_risk_sample :
  option_map (map (fun r => (RiskRow.student_id r, RiskRow.risk_level r)))
    (get_high_risk_students unit true (fun _ => [3 # 10; 8 # 10; 5 # 10]) tt
                            [101; 102; 103]%Z)
  = Some [(102%Z, High); (103%Z, Medium)].
Proof. reflexivity. Qed.

(** The list of students at risk is refused, not shortened, when the
    detector is untrained or the ids do not match the feature rows. *)
Theorem get_high_risk_students_errors
        (FeatureFrame : Type) (is_trained : bool)
        (predict_proba : FeatureFrame -> list Q)
        (X : FeatureFrame) (student_ids : list Z) :
  is_trained = false \/ length student_ids <> length (predict_proba X) ->
  get_high_risk_students FeatureFrame is_trained predict_proba X student_ids = None.
Proof.
  unfold get_high_risk_students, predict_risk_level, predict_risk_score.
  intros [->|Hlen]; [reflexivity|].
  destruct is_trained; [|reflexivity]. cbn [negb].
  apply Nat.eqb_neq in Hlen. rewrite Hlen. reflexivity.
Qed.

Lemma get_high_risk_students_errors_witness :
  get_high_risk_students unit true (fun _ => [3 # 10; 8 # 10]) tt [101]%Z = None.
Proof.
  apply (get_high_risk_students_errors unit true (fun _ => [3 # 10; 8 # 10]) tt [101]%Z).
  right. simpl. lia.
Defined.

Lemma risk_count_partition (levels : list risk_level) :
  (risk_count High levels + risk_count Medium levels + risk_count Low levels
   = length levels)%nat.
Proof.
  unfold risk_count. induction levels as [|l r IH]; [reflexivity|].
  destruct l; simpl in *; lia.
Qed.

Lemma filter_results_frame_count (ids : list Z) (levels : list risk_level) (scores : list Q) :
  length ids = length scores -> length scores = length levels ->
  length (filter isin_high_medium (results_frame ids scores levels))
  = (risk_count High levels + risk_count Medium levels)%nat.
Proof.
  unfold risk_count. revert scores levels.
  induction ids as [|i ids IH]; intros [|s scores] [|l levels] H1 H2;
    simpl in *; try reflexivity; try discriminate.
  specialize (IH scores levels ltac:(lia) ltac:(lia)).
  unfold isin_high_medium at 1. cbn [RiskRow.risk_level].
  destruct l; simpl; lia.
Qed.

(** The three risk counts of the summary add up to the number of
    students, and the list of students at risk has as many rows as the
    High and Medium counts together. *)
Theorem risk_counts_consistent
        (FeatureFrame : Type) (predict_proba : FeatureFrame -> list Q)
        (X : FeatureFrame) (student_ids : list Z)
        (levels : list risk_level) (high_risk : list RiskRow.t) :
  length student_ids = length (predict_proba X) ->
  predict_risk_level FeatureFrame true predict_proba X = Some levels ->
  get_high_risk_students FeatureFrame true predict_proba X student_ids
  = Some high_risk ->
  (risk_count High levels + risk_count Medium levels + risk_count Low levels
   = length student_ids)%nat
  /\ length high_risk = (risk_count High levels + risk_count Medium levels)%nat.
Proof.
  intros Hlen Hlev Hhr.
  unfold get_high_risk_students, predict_risk_level, predict_risk_score in *.
  cbn [negb] in *. injection Hlev as <-.
  rewrite Hlen, Nat.eqb_refl in Hhr. injection Hhr as <-.
  split.
  - rewrite risk_count_partition, length_map. symmetry. exact Hlen.
  - rewrite sort_by_length. apply filter_results_frame_count;
      [exact Hlen|symmetry; apply length_map].
Qed.

Lemma risk_counts_consistent_witness :
  (risk_count High [Low; High; Medium] + risk_count Medium [Low; High; Medium]
   + risk_count Low [Low; High; Medium] = length [101; 102; 103]%Z)%nat
  /\ length (sort_by by_risk_score_desc
               (filter isin_high_medium
                  (results_frame [101; 102; 103]%Z [3 # 10; 8 # 10; 5 # 10]
                                 [Low; High; Medium])))
     = (risk_count High [Low; High; Medium] + risk_count Medium [Low; High; Medium])%nat.
Proof.
  apply (risk_counts_consistent unit (fun _ => [3 # 10; 8 # 10; 5 # 10]) tt
           [101; 102; 103]%Z).
  - reflexivity.
  - reflexivity.
  - reflexivity.
Defined.
End HighRiskFacts.

(** ** More on the difficulty analysis *)

Module DifficultyMore.
Import Config DifficultyAnalyzer DifficultyFacts DifficultyQueries DenseRank.

Lemma level_of_score_cases (s : Q) :
  0 <= s <= 100 ->
  (s <= 33 /\ level_of_score s = Some Easy)
  \/ (33 < s <= 66 /\ level_of_score s = Some Medium)
  \/ (66 < s /\ level_of_score s = Some Hard).
Proof.
  intros [H0 H100].
  unfold level_of_score, cut, difficulty_bins, difficulty_labels.
  cbn [searchsorted_left length andb].
  destruct (Qle_bool s 0) eqn:E0; destruct (Qeq_bool s 0) eqn:Q0;
    destruct (Qle_bool s 33) eqn:E33; destruct (Qle_bool s 66) eqn:E66;
    destruct (Qle_bool s 100) eqn:E100; qbool; cbn;
    first [left; split; [lra|reflexivity]
          |right; left; split; [lra|reflexivity]
          |right; right; split; [lra|reflexivity]
          |exfalso; lra].
Qed.

Lemma analyze_level (batch : list ChapterFeatures.t) (a : Assessment.t) :
  In a (analyze_difficulty batch) ->
  Assessment.difficulty_level a = level_of_score (Assessment.difficulty_score a).
Proof. intro H. apply analyze_row, scored_row in H. tauto. Qed.

(** Every analysed chapter has a level (never NaN), and a chapter with a
    higher score never has a lower level. *)
Theorem difficulty_level_monotone
        (batch : list ChapterFeatures.t) (a b : Assessment.t) :
  In a (analyze_difficulty batch) ->
  In b (analyze_difficulty batch) ->
  Assessment.difficulty_score a <= Assessment.difficulty_score b ->
  exists la lb,
    Assessment.difficulty_level a = Some la
    /\ Assessment.difficulty_level b = Some lb
    /\ (level_index la <= level_index lb)%nat.
Proof.
  intros Ha Hb Hab.
  rewrite (analyze_level batch a Ha), (analyze_level batch b Hb).
  destruct (level_of_score_cases _ (analyze_score_bounds batch a Ha))
    as [[Ra ->]|[[Ra ->]|[Ra ->]]];
    destruct (level_of_score_cases _ (analyze_score_bounds batch b Hb))
      as [[Rb ->]|[[Rb ->]|[Rb ->]]];
    try (do 2 eexists; repeat split; simpl; lia);
    exfalso; lra.
Qed.

Lemma difficulty_level_monotone_witness :
  let result := analyze_difficulty Samples.six_chapters in
  let d := select_row (Samples.chapter 0 0 0 0 0 0) 0 None 0 in
  exists la lb,
    Assessment.difficulty_level (nth 4 result d) = Some la
    /\ Assessment.difficulty_level (nth 3 result d) = Some lb
    /\ (level_index la <= level_index lb)%nat.
Proof.
  intros result d.
  apply (difficulty_level_monotone Samples.six_chapters (nth 4 result d) (nth 3 result d)).
  - vm_compute. do 4 right. left. reflexivity.
  - vm_compute. do 3 right. left. reflexivity.
  - vm_compute. discriminate.
Defined.

Lemma dense_walk_ge (rest : list Q) (cur : Q) (k : Z) (x : Q) :
  (k <= dense_walk cur k rest x)%Z.
Proof.
  revert cur k. induction rest as [|y r IH]; intros cur k.
  - simpl. destruct (Qeq_bool cur x); lia.
  - rewrite dense_walk_cons. destruct (Qeq_bool cur x); [lia|].
    eapply Z.le_trans; [|apply IH].
    destruct (Qeq_bool y cur); lia.
Qed.

Lemma dense_walk_le (rest : list Q) (cur : Q) (k : Z) (x : Q) :
  (dense_walk cur k rest x <= k + Z.of_nat (length rest))%Z.
Proof.
  revert cur k. induction rest as [|y r IH]; intros cur k.
  - simpl. destruct (Qeq_bool cur x); lia.
  - rewrite dense_walk_cons. destruct (Qeq_bool cur x); [simpl; lia|].
    eapply Z.le_trans; [apply IH|].
    destruct (Qeq_bool y cur); simpl length; lia.
Qed.

(** Down a descending list, a smaller value is in a later group. *)
Lemma dense_walk_lt (x y : Q) (l : list Q) :
  y < x ->
  forall (cur : Q) (k : Z),
    StronglySorted (fun a b => b <= a) (cur :: l) ->
    In y l ->
    (cur == x -> (k < dense_walk cur k l y)%Z)
    /\ (x < cur -> In x l ->
        (dense_walk cur k l x < dense_walk cur k l y)%Z).
Proof.
  intros Hyx. induction l as [|z r IH]; intros cur k Hs Hy.
  - contradiction.
  - inversion Hs as [|? ? Hs' Hcur]; subst.
    inversion Hs' as [|? ? Hs'' Hz]; subst.
    rewrite Forall_forall in Hcur, Hz.
    assert (Hzcur : z <= cur) by (apply Hcur; left; reflexivity).
    split.
    + intro Hcx. rewrite dense_walk_cons.
      assert (E : Qeq_bool cur y = false) by (apply Qeq_bool_false; lra).
      rewrite E.
      destruct (Qeq_bool z cur) eqn:Ezc; qbool.
      * assert (Hy' : In y r).
        { destruct Hy as [->|Hy]; [lra|exact Hy]. }
        apply (IH z k Hs' Hy'). lra.
      * pose proof (dense_walk_ge r z (k + 1)%Z y). lia.
    + intros Hxcur Hx. rewrite !dense_walk_cons.
      assert (E1 : Qeq_bool cur y = false) by (apply Qeq_bool_false; lra).
      assert (E2 : Qeq_bool cur x = false) by (apply Qeq_bool_false; lra).
      rewrite E1, E2.
      assert (Hxz : x <= z).
      { destruct Hx as [->|Hx]; [apply Qle_refl|apply Hz, Hx]. }
      assert (Hy' : In y r).
      { destruct Hy as [->|Hy]; [lra|exact Hy]. }
      destruct (Qeq_dec z x) as [Hzx|Hzx].
      * rewrite (dense_walk_found z _ r x Hzx).
        apply (IH z _ Hs' Hy'). exact Hzx.
      * assert (Hlt : x < z).
        { apply Qle_lteq in Hxz. destruct Hxz as [H|H]; [exact H|].
          exfalso. apply Hzx. symmetry. exact H. }
        assert (Hx' : In x r).
        { destruct Hx as [->|Hx]; [lra|exact Hx]. }
        apply (IH z _ Hs' Hy'); assumption.
Qed.

Lemma rank_of_lt (values : list Q) (x y : Q) :
  In x values -> In y values -> y < x ->
  (dense_rank_of values x < dense_rank_of values y)%Z.
Proof.
  intros Hx Hy Hyx. unfold dense_rank_of.
  pose proof (sorted_desc values) as Hs.
  pose proof (sort_by_In desc values) as Hin.
  destruct (sort_by desc values) as [|top rest].
  - apply Hin in Hx. contradiction.
  - apply Hin in Hx. apply Hin in Hy.
    assert (Hall : forall z, In z rest -> z <= top).
    { inversion Hs as [|? ? _ H]; subst. rewrite Forall_forall in H. exact H. }
    assert (Hxtop : x <= top).
    { destruct Hx as [->|Hx]; [apply Qle_refl|apply Hall, Hx]. }
    assert (Hy' : In y rest).
    { destruct Hy as [->|Hy]; [lra|exact Hy]. }
    destruct (dense_walk_lt x y rest Hyx top 1%Z Hs Hy') as [Hfirst Hlater].
    destruct (Qeq_dec top x) as [Htx|Htx].
    + rewrite (dense_walk_found top 1%Z rest x Htx). apply Hfirst, Htx.
    + apply Hlater.
      * apply Qle_lteq in Hxtop. destruct Hxtop as [H|H]; [exact H|].
        exfalso. apply Htx. symmetry. exact H.
      * destruct Hx as [->|Hx]; [exfalso; apply Htx; reflexivity|exact Hx].
Qed.

Lemma rank_of_bounds (values : list Q) (x : Q) :
  values <> [] ->
  (1 <= dense_rank_of values x <= Z.of_nat (length values))%Z.
Proof.
  intro Hne. unfold dense_rank_of.
  pose proof (sort_by_length desc values) as Hlen.
  destruct (sort_by desc values) as [|top rest].
  - destruct values; [contradiction|discriminate].
  - split; [apply dense_walk_ge|].
    eapply Z.le_trans; [apply dense_walk_le|]. simpl in Hlen. lia.
Qed.

(** The rank follows the score: of two analysed chapters, the one with
    the strictly higher score has the strictly smaller rank, and every
    rank lies between 1 and the number of chapters. *)
Theorem difficulty_rank_follows_score
        (batch : list ChapterFeatures.t) (a b : Assessment.t) :
  In a (analyze_difficulty batch) ->
  In b (analyze_difficulty batch) ->
  (Assessment.difficulty_score b < Assessment.difficulty_score a ->
   (Assessment.difficulty_rank a < Assessment.difficulty_rank b)%Z)
  /\ (1 <= Assessment.difficulty_rank a <= Z.of_nat (length batch))%Z.
Proof.
  intros Ha Hb.
  apply analyze_row, scored_row in Ha. destruct Ha as (Hsa & _ & Hra).
  apply analyze_row, scored_row in Hb. destruct Hb as (Hsb & _ & Hrb).
  rewrite Hra, Hrb. split.
  - intro Hlt. apply rank_of_lt; assumption.
  - rewrite <- (difficulty_score_column_length DIFFICULTY_WEIGHTS batch).
    apply rank_of_bounds. intro E. rewrite E in Hsa. contradiction.
Qed.

Lemma difficulty_rank_follows_score_witness :
  let result := analyze_difficulty Samples.six_chapters in
  let d := select_row (Samples.chapter 0 0 0 0 0 0) 0 None 0 in
  (Assessment.difficulty_score (nth 5 result d)
   < Assessment.difficulty_score (nth 1 result d) ->
   (Assessment.difficulty_rank (nth 1 result d)
    < Assessment.difficulty_rank (nth 5 result d))%Z)
  /\ (1 <= Assessment.difficulty_rank (nth 1 result d)
      <= Z.of_nat (length Samples.six_chapters))%Z.
Proof.
  intros result d.
  apply (difficulty_rank_follows_score Samples.six_chapters
           (nth 1 result d) (nth 5 result d)).
  - vm_compute. right. left. reflexivity.
  - vm_compute. do 5 right. left. reflexivity.
Defined.
End DifficultyMore.

(** ** The queries on the analysed chapters *)

Module DifficultyQueriesFacts.
Import Config DifficultyAnalyzer DifficultyFacts DifficultyQueries.

Lemma StronglySorted_app_order {A : Type} (R : A -> A -> Prop) (l1 l2 : list A) :
  StronglySorted R (l1 ++ l2) ->
  forall a b, In a l1 -> In b l2 -> R a b.
Proof.
  induction l1 as [|x l1 IH]; intros Hs a b Ha Hb; [contradiction|].
  simpl in Hs. inversion Hs as [|? ? Hs' Hall]; subst.
  destruct Ha as [<-|Ha].
  - rewrite Forall_forall in Hall. apply Hall, in_or_app. right. exact Hb.
  - apply IH; assumption.
Qed.

Lemma analyze_sorted_desc (batch : list ChapterFeatures.t) :
  StronglySorted
    (fun a b => Assessment.difficulty_score b <= Assessment.difficulty_score a)
    (analyze_difficulty batch).
Proof.
  unfold analyze_difficulty, analyze_difficulty_with.
  eapply StronglySorted_weaken; [|apply sort_by_strongly].
  - unfold ordered_by, by_score_desc. intros a b H. apply Qle_bool_iff, H.
  - intros a b. unfold by_score_desc.
    destruct (Qle_bool (Assessment.difficulty_score b) (Assessment.difficulty_score a)) eqn:E;
      [left; reflexivity|right].
    qbool. apply Qle_bool_iff. lra.
  - unfold by_score_desc. intros a b c H1 H2. qbool. apply Qle_bool_iff. lra.
Qed.

Lemma select_rows_length (df : list ChapterFeatures.t) (scores : list Q)
      (f : Q -> option difficulty_level) (g : Q -> Z) :
  length scores = length df ->
  length (select_rows df scores (map f scores) (map g scores)) = length df.
Proof.
  revert scores. induction df as [|c df IH]; intros [|s scores] H;
    simpl in *; try reflexivity; try discriminate.
  f_equal. apply IH. lia.
Qed.

Lemma analyze_length (batch : list ChapterFeatures.t) :
  length (analyze_difficulty batch) = length batch.
Proof.
  unfold analyze_difficulty, analyze_difficulty_with.
  rewrite sort_by_length. unfold scored, rank_dense_desc.
  apply select_rows_length, difficulty_score_column_length.
Qed.

(** [get_difficult_chapters] with a non-negative [top_n] returns the
    first [top_n] rows of the analysis, all of them when there are fewer,
    and no chapter it leaves out scores more than a chapter it returns. *)
Theorem get_difficult_chapters_top
        (batch : list ChapterFeatures.t) (top_n : Z) :
  (0 <= top_n)%Z ->
  length (get_difficult_chapters batch top_n)
  = Nat.min (Z.to_nat top_n) (length batch)
  /\ exists rest,
      analyze_difficulty batch = get_difficult_chapters batch top_n ++ rest
      /\ forall a b, In a (get_difficult_chapters batch top_n) -> In b rest ->
                     Assessment.difficulty_score b <= Assessment.difficulty_score a.
Proof.
  intro Hn. unfold get_difficult_chapters, head.
  apply Z.leb_le in Hn. rewrite Hn. split.
  - rewrite length_firstn, analyze_length. reflexivity.
  - exists (skipn (Z.to_nat top_n) (analyze_difficulty batch)).
    split; [symmetry; apply firstn_skipn|].
    apply (StronglySorted_app_order
             (fun a b => Assessment.difficulty_score b <= Assessment.difficulty_score a)).
    rewrite firstn_skipn. apply analyze_sorted_desc.
Qed.

Lemma get_difficult_chapters_top_witness :
  length (get_difficult_chapters Samples.six_chapters 2)
  = Nat.min (Z.to_nat 2) (length Samples.six_chapters)
  /\ exists rest,
      analyze_difficulty Samples.six_chapters
      = get_difficult_chapters Samples.six_chapters 2 ++ rest
      /\ forall a b, In a (get_difficult_chapters Samples.six_chapters 2) ->
                     In b rest ->
                     Assessment.difficulty_score b <= Assessment.difficulty_score a.
Proof.
  apply (get_difficult_chapters_top Samples.six_chapters 2). lia.
Defined.

(** A negative [top_n] drops the last [-top_n] rows, the least difficult
    chapters. *)
Theorem get_difficult_chapters_negative
        (batch : list ChapterFeatures.t) (top_n : Z) :
  (top_n < 0)%Z ->
  length (get_difficult_chapters batch top_n)
  = (length batch - Z.to_nat (- top_n))%nat
  /\ exists rest,
      analyze_difficulty batch = get_difficult_chapters batch top_n ++ rest
      /\ forall a b, In a (get_difficult_chapters batch top_n) -> In b rest ->
                     Assessment.difficulty_score b <= Assessment.difficulty_score a.
Proof.
  intro Hn. unfold get_difficult_chapters, head.
  apply Z.leb_gt in Hn. rewrite Hn. split.
  - rewrite length_firstn, analyze_length. lia.
  - exists (skipn (length (analyze_difficulty batch) - Z.to_nat (- top_n))
                  (analyze_difficulty batch)).
    split; [symmetry; apply firstn_skipn|].
    apply (StronglySorted_app_order
             (fun a b => Assessment.difficulty_score b <= Assessment.difficulty_score a)).
    rewrite firstn_skipn. apply analyze_sorted_desc.
Qed.

Lemma get_difficult_chapters_negative_witness :
  length (get_difficult_chapters Samples.six_chapters (-2))
  = (length Samples.six_chapters - Z.to_nat (- (-2)))%nat
  /\ exists rest,
      analyze_difficulty Samples.six_chapters
      = get_difficult_chapters Samples.six_chapters (-2) ++ rest
      /\ forall a b, In a (get_difficult_chapters Samples.six_chapters (-2)) ->
                     In b rest ->
                     Assessment.difficulty_score b <= Assessment.difficulty_score a.
Proof.
  apply (get_difficult_chapters_negative Samples.six_chapters (-2)). lia.
Defined.

(** In a list in descending order of score, the rows at or above a
    threshold are a prefix. *)
Lemma filter_threshold_prefix (threshold : Q) (l : list Assessment.t) :
  StronglySorted
    (fun a b => Assessment.difficulty_score b <= Assessment.difficulty_score a) l ->
  let keep := filter (fun a => Qle_bool threshold (Assessment.difficulty_score a)) l in
  keep = firstn (length keep) l.
Proof.
  induction 1 as [|x l Hs IH Hall]; [reflexivity|].
  cbn zeta in *. simpl.
  destruct (Qle_bool threshold (Assessment.difficulty_score x)) eqn:E.
  - simpl. f_equal. exact IH.
  - replace (filter _ l) with (@nil Assessment.t); [reflexivity|].
    symmetry. rewrite Forall_forall in Hall.
    clear IH Hs. induction l as [|y l IHl]; [reflexivity|].
    simpl.
    assert (Hy : Qle_bool threshold (Assessment.difficulty_score y) = false).
    { apply Qle_bool_false. qbool.
      specialize (Hall y (or_introl eq_refl)). simpl in Hall. lra. }
    rewrite Hy. apply IHl. intros z Hz. apply Hall. right. exact Hz.
Qed.

(** The chapters needing improvement are exactly the analysed chapters
    whose score is at least the threshold; they are the leading rows of
    the analysis, so they are what [get_difficult_chapters] returns when
    asked for that many. *)
Theorem get_chapters_needing_improvement_spec
        (batch : list ChapterFeatures.t) (threshold : Q) :
  (forall a, In a (get_chapters_needing_improvement batch threshold)
             <-> In a (analyze_difficulty batch)
                 /\ threshold <= Assessment.difficulty_score a)
  /\ get_chapters_needing_improvement batch threshold
     = get_difficult_chapters batch
         (Z.of_nat (length (get_chapters_needing_improvement batch threshold)))
  /\ StronglySorted
       (fun a b => Assessment.difficulty_score b <= Assessment.difficulty_score a)
       (get_chapters_needing_improvement batch threshold).
Proof.
  assert (Hprefix :
            get_chapters_needing_improvement batch threshold
            = firstn (length (get_chapters_needing_improvement batch threshold))
                     (analyze_difficulty batch)).
  { apply (filter_threshold_prefix threshold), analyze_sorted_desc. }
  split; [|split].
  - intro a. unfold get_chapters_needing_improvement. rewrite filter_In.
    rewrite Qle_bool_iff. reflexivity.
  - unfold get_difficult_chapters, head.
    replace (0 <=? Z.of_nat _)%Z with true by (symmetry; apply Z.leb_le; lia).
    rewrite Nat2Z.id. exact Hprefix.
  - rewrite Hprefix.
    pose proof (analyze_sorted_desc batch) as Hs.
    rewrite <- (firstn_skipn
                  (length (get_chapters_needing_improvement batch threshold))
                  (analyze_difficulty batch)) in Hs.
    revert Hs. generalize (firstn (length (get_chapters_needing_improvement batch threshold))
                                  (analyze_difficulty batch)).
    intros l1. generalize (skipn (length (get_chapters_needing_improvement batch threshold))
                                 (analyze_difficulty batch)).
    intros l2. induction l1 as [|x l1 IH]; intro Hs; [constructor|].
    simpl in Hs. inversion Hs as [|? ? Hs' Hall]; subst.
    constructor; [apply IH, Hs'|].
    rewrite Forall_forall in *. intros z Hz. apply Hall, in_or_app. left. exact Hz.
Qed.

Lemma levels_partition (df : list Assessment.t) :
  (forall a, In a df -> Assessment.difficulty_level a <> None) ->
  (length (filter (level_is Hard) df) + length (filter (level_is Medium) df)
   + length (filter (level_is Easy) df) = length df)%nat.
Proof.
  induction df as [|a df IH]; intro H; [reflexivity|].
  assert (IH' := IH (fun x Hx => H x (or_intror Hx))).
  specialize (H a (or_introl eq_refl)).
  simpl. unfold level_is in *.
  destruct (Assessment.difficulty_level a) as [[| |]|] eqn:E; simpl;
    try lia. exfalso. apply H. reflexivity.
Qed.

(** In the summary of an analysis every chapter is counted once: the
    hard, medium and easy counts add up to the total, which is the
    number of chapter feature vectors analysed. *)
Theorem get_summary_statistics_counts (batch : list ChapterFeatures.t) :
  let stats := get_summary_statistics (analyze_difficulty batch) in
  total_chapters stats = length batch
  /\ (hard_chapters stats + medium_chapters stats + easy_chapters stats
      = total_chapters stats)%nat.
Proof.
  cbn zeta. unfold get_summary_statistics. cbn [total_chapters hard_chapters
    medium_chapters easy_chapters].
  split; [apply analyze_length|].
  apply levels_partition. intros a Ha.
  pose proof (analyze_score_bounds batch a Ha) as Hb.
  apply analyze_row, scored_row in Ha. destruct Ha as (_ & Hl & _). rewrite Hl.
  destruct (DifficultyMore.level_of_score_cases _ Hb) as [[_ ->]|[[_ ->]|[_ ->]]];
    discriminate.
Qed.

Lemma select_rows_features (df : list ChapterFeatures.t) (scores : list Q)
      (f : Q -> option difficulty_level) (g : Q -> Z) :
  length scores = length df ->
  map (fun a => (Assessment.course_id a, Assessment.chapter_order a,
                 Assessment.dropout_rate a, Assessment.avg_time_spent a,
                 Assessment.avg_score a, Assessment.completion_rate a,
                 Assessment.student_count a))
      (select_rows df scores (map f scores) (map g scores))
  = map (fun c => (ChapterFeatures.course_id c, ChapterFeatures.chapter_order c,
                   ChapterFeatures.dropout_rate c, ChapterFeatures.avg_time_spent c,
                   ChapterFeatures.avg_score c, ChapterFeatures.completion_rate c,
                   ChapterFeatures.student_count c)) df.
Proof.
  revert scores. induction df as [|c df IH]; intros [|s scores] H;
    simpl in *; try reflexivity; try discriminate.
  f_equal. apply IH. lia.
Qed.

(** The analysis neither drops nor invents a chapter: its rows carry the
    keys and the four signals of the input vectors, each input vector
    once, rearranged. *)
Theorem analyze_difficulty_keeps_chapters (batch : list ChapterFeatures.t) :
  Permutation
    (map (fun c => (ChapterFeatures.course_id c, ChapterFeatures.chapter_order c,
                    ChapterFeatures.dropout_rate c, ChapterFeatures.avg_time_spent c,
                    ChapterFeatures.avg_score c, ChapterFeatures.completion_rate c,
                    ChapterFeatures.student_count c)) batch)
    (map (fun a => (Assessment.course_id a, Assessment.chapter_order a,
                    Assessment.dropout_rate a, Assessment.avg_time_spent a,
                    Assessment.avg_score a, Assessment.completion_rate a,
                    Assessment.student_count a))
         (analyze_difficulty batch)).
Proof.
  unfold analyze_difficulty, analyze_difficulty_with.
  eapply perm_trans; [|apply Permutation_map, sort_by_perm].
  unfold scored, rank_dense_desc.
  rewrite select_rows_features by apply difficulty_score_column_length.
  apply Permutation_refl.
Qed.
End DifficultyQueriesFacts.

(** ** The score, chapter by chapter *)

Module ChapterScoreFacts.
Import Config DifficultyAnalyzer DifficultyFacts ChapterScore.

Lemma map2_map {A B C D : Type} (f : B -> C -> D) (g : A -> B) (h : A -> C)
      (l : list A) :
  map2 f (map g l) (map h l) = map (fun x => f (g x) (h x)) l.
Proof. induction l as [|x l IH]; simpl; [reflexivity|f_equal; exact IH]. Qed.

Lemma normalize_pointwise {A : Type} (signal : A -> Q) (df : list A) :
  _normalize (map signal df)
  = map (fun c => normalize_value (map signal df) (signal c)) df.
Proof.
  unfold _normalize, normalize_value.
  destruct (series_min (map signal df)) as [mn|] eqn:Hmin.
  - destruct (series_max (map signal df)) as [mx|] eqn:Hmax.
    + destruct (Qeq_bool mx mn).
      * rewrite length_map. clear. induction df; simpl; [reflexivity|f_equal; assumption].
      * apply map_map.
    + destruct df; [reflexivity|discriminate].
  - destruct df; [reflexivity|discriminate].
Qed.

Lemma difficulty_score_column_pointwise (ws : weights) (df : list ChapterFeatures.t) :
  difficulty_score_column ws df = map (score_value ws df) df.
Proof.
  unfold difficulty_score_column, add, scale, dropout_rate_norm, avg_time_norm,
    avg_score_norm, completion_rate_norm, score_value.
  rewrite !normalize_pointwise, !map_map, !map2_map, map_map. reflexivity.
Qed.

Lemma normalize_value_monotone (series : list Q) (x y : Q) :
  x <= y -> normalize_value series x <= normalize_value series y.
Proof.
  intro Hxy. unfold normalize_value.
  destruct (series_min series) as [mn|] eqn:Hmin; [|apply Qle_refl].
  destruct (series_max series) as [mx|] eqn:Hmax; [|apply Qle_refl].
  destruct (Qeq_bool mx mn) eqn:E; [apply Qle_refl|]. qbool.
  assert (Hpos : 0 < mx - mn).
  { pose proof (series_min_lower _ _ Hmin) as Hlo.
    pose proof (series_max_upper _ _ Hmax) as Hhi.
    destruct series as [|v r]; [discriminate|].
    inversion Hlo; subst. inversion Hhi; subst. lra. }
  apply Qle_shift_div_l; [exact Hpos|].
  unfold Qdiv. rewrite <- Qmult_assoc, (Qmult_comm (/ (mx - mn))), Qmult_inv_r by lra.
  lra.
Qed.

Lemma select_rows_source (df : list ChapterFeatures.t) (F : ChapterFeatures.t -> Q)
      (levels : list (option difficulty_level)) (ranks : list Z) (a : Assessment.t) :
  In a (select_rows df (map F df) levels ranks) ->
  exists c, In c df
            /\ Assessment.difficulty_score a = F c
            /\ Assessment.dropout_rate a = ChapterFeatures.dropout_rate c
            /\ Assessment.avg_time_spent a = ChapterFeatures.avg_time_spent c
            /\ Assessment.avg_score a = ChapterFeatures.avg_score c
            /\ Assessment.completion_rate a = ChapterFeatures.completion_rate c
            /\ Assessment.course_id a = ChapterFeatures.course_id c
            /\ Assessment.chapter_order a = ChapterFeatures.chapter_order c.
Proof.
  revert levels ranks. induction df as [|c df IH]; intros levels ranks H;
    [contradiction|].
  simpl in H. destruct levels as [|l levels]; [contradiction|].
  destruct ranks as [|r ranks]; [contradiction|].
  destruct H as [<-|H].
  - exists c. simpl. repeat split; auto.
  - destruct (IH _ _ H) as (c' & Hc & Hrest). exists c'. split; [right; exact Hc|exact Hrest].
Qed.

Lemma analyze_source (batch : list ChapterFeatures.t) (a : Assessment.t) :
  In a (analyze_difficulty batch) ->
  exists c, In c batch
            /\ Assessment.difficulty_score a = score_value DIFFICULTY_WEIGHTS batch c
            /\ Assessment.dropout_rate a = ChapterFeatures.dropout_rate c
            /\ Assessment.avg_time_spent a = ChapterFeatures.avg_time_spent c
            /\ Assessment.avg_score a = ChapterFeatures.avg_score c
            /\ Assessment.completion_rate a = ChapterFeatures.completion_rate c
            /\ Assessment.course_id a = ChapterFeatures.course_id c
            /\ Assessment.chapter_order a = ChapterFeatures.chapter_order c.
Proof.
  intro H. apply analyze_row in H. unfold scored in H.
  rewrite difficulty_score_column_pointwise in H.
  apply select_rows_source in H. exact H.
Qed.

(** A chapter that is at least as bad as another on all four signals
    (dropout rate and time not lower, average score and completion rate
    not higher) has a difficulty score that is not lower. *)
Theorem difficulty_score_dominance
        (batch : list ChapterFeatures.t) (a b : Assessment.t) :
  In a (analyze_difficulty batch) ->
  In b (analyze_difficulty batch) ->
  Assessment.dropout_rate b <= Assessment.dropout_rate a ->
  Assessment.avg_time_spent b <= Assessment.avg_time_spent a ->
  Assessment.avg_score a <= Assessment.avg_score b ->
  Assessment.completion_rate a <= Assessment.completion_rate b ->
  Assessment.difficulty_score b <= Assessment.difficulty_score a.
Proof.
  intros Ha Hb Hd Ht Hs Hc.
  destruct (analyze_source batch a Ha) as (ca & _ & -> & Ed & Et & Es & Ec & _).
  destruct (analyze_source batch b Hb) as (cb & _ & -> & Ed' & Et' & Es' & Ec' & _).
  rewrite Ed, Ed' in Hd. rewrite Et, Et' in Ht.
  rewrite Es, Es' in Hs. rewrite Ec, Ec' in Hc.
  pose proof (normalize_value_monotone (map ChapterFeatures.dropout_rate batch) _ _ Hd).
  pose proof (normalize_value_monotone (map ChapterFeatures.avg_time_spent batch) _ _ Ht).
  pose proof (normalize_value_monotone (map ChapterFeatures.avg_score batch) _ _ Hs).
  pose proof (normalize_value_monotone (map ChapterFeatures.completion_rate batch) _ _ Hc).
  unfold score_value. cbn [w_dropout_rate w_avg_time w_avg_score w_completion_rate
                           DIFFICULTY_WEIGHTS].
  lra.
Qed.

Lemma difficulty_score_dominance_witness :
  let result := analyze_difficulty Samples.two_chapters in
  let d := select_row (Samples.chapter 0 0 0 0 0 0) 0 None 0 in
  Assessment.difficulty_score (nth 1 result d)
  <= Assessment.difficulty_score (nth 0 result d).
Proof.
  intros result d.
  apply (difficulty_score_dominance Samples.two_chapters (nth 0 result d) (nth 1 result d)).
  - vm_compute. left. reflexivity.
  - vm_compute. right. left. reflexivity.
  - vm_compute. discriminate.
  - vm_compute. discriminate.
  - vm_compute. discriminate.
  - vm_compute. discriminate.
Defined.
End ChapterScoreFacts.

(** ** Student features *)

Module StudentFeatureFacts.
Import FeatureEngineering FeatureEngineeringFacts.

Lemma key_filter_eq (k : Z * Z) (e : ChapterEvent.t) :
  (if key_eq_dec (key e) k then true else false) = true <-> key e = k.
Proof. destruct (key_eq_dec (key e) k); split; intro H; congruence. Qed.

Lemma group_keys_spec (df : list ChapterEvent.t) (k : Z * Z) :
  In k (sort_by key_leb (nodup key_eq_dec (map key df))) <-> In k (map key df).
Proof. rewrite sort_by_In, nodup_In. reflexivity. Qed.

Lemma group_keys_NoDup (df : list ChapterEvent.t) :
  NoDup (sort_by key_leb (nodup key_eq_dec (map key df))).
Proof.
  eapply Permutation_NoDup; [apply sort_by_perm|apply NoDup_nodup].
Qed.

Lemma row_keys (df : list ChapterEvent.t) :
  map (fun r => (StudentFeatures.student_id r, StudentFeatures.course_id r))
      (student_feature_rows df)
  = sort_by key_leb (nodup key_eq_dec (map key df)).
Proof.
  unfold student_feature_rows, groupby_student_course.
  rewrite !map_map. cbn. rewrite <- (map_id (sort_by _ _)) at 2.
  apply map_ext. intros [s c]. reflexivity.
Qed.

Lemma row_attempts (df : list ChapterEvent.t) :
  map (fun r => Z.to_nat (StudentFeatures.chapters_attempted r))
      (student_feature_rows df)
  = map (fun k => length (filter (fun e => if key_eq_dec (key e) k then true else false) df))
        (sort_by key_leb (nodup key_eq_dec (map key df))).
Proof.
  unfold student_feature_rows, groupby_student_course.
  rewrite !map_map. cbn. apply map_ext. intros k.
  unfold count. rewrite length_map, Nat2Z.id. reflexivity.
Qed.

Lemma count_matching_key (ks : list (Z * Z)) (x : Z * Z) :
  NoDup ks -> In x ks ->
  list_sum (map (fun k => if key_eq_dec x k then 1 else 0)%nat ks) = 1%nat.
Proof.
  induction 1 as [|k ks Hnotin Hnd IH]; intro Hin; [contradiction|].
  simpl. destruct (key_eq_dec x k) as [->|Hne].
  - replace (list_sum _) with 0%nat; [reflexivity|].
    symmetry. clear IH Hin Hnd. induction ks as [|k' ks IHks]; [reflexivity|].
    simpl. destruct (key_eq_dec k k') as [->|_].
    + exfalso. apply Hnotin. left. reflexivity.
    + apply IHks. intro H. apply Hnotin. right. exact H.
  - destruct Hin as [->|Hin]; [contradiction|]. apply IH, Hin.
Qed.

Lemma list_sum_map_add {A : Type} (f g : A -> nat) (l : list A) :
  list_sum (map (fun k => f k + g k)%nat l)
  = (list_sum (map f l) + list_sum (map g l))%nat.
Proof. induction l as [|x l IH]; simpl; [reflexivity|lia]. Qed.

Lemma groups_partition (ks : list (Z * Z)) (df : list ChapterEvent.t) :
  NoDup ks -> (forall e, In e df -> In (key e) ks) ->
  list_sum (map (fun k => length (filter (fun e => if key_eq_dec (key e) k
                                                   then true else false) df)) ks)
  = length df.
Proof.
  intros Hnd. induction df as [|e df IH]; intro Hcov.
  - simpl. clear. induction ks; simpl; [reflexivity|assumption].
  - specialize (IH (fun x Hx => Hcov x (or_intror Hx))).
    pose proof (count_matching_key ks (key e) Hnd (Hcov e (or_introl eq_refl))) as Hone.
    change (length (e :: df)) with (1 + length df)%nat.
    rewrite <- IH. rewrite <- Hone at 1.
    rewrite <- list_sum_map_add. f_equal. apply map_ext. intro k.
    cbn [filter]. destruct (key_eq_dec (key e) k); reflexivity.
Qed.

(** On a frame without rows [engineer_student_features] raises.  On any
    other frame it returns one row for every (student_id, course_id) key
    of the input and for no other key, no key twice, and the rows'
    [chapters_attempted] add up to the number of input events: the
    groups partition the batch. *)
Theorem engineer_student_features_partition (df : list ChapterEvent.t) :
  (df = [] -> engineer_student_features df = None)
  /\ (df <> [] ->
      exists rows,
        engineer_student_features df = Some rows
        /\ NoDup (map (fun r => (StudentFeatures.student_id r,
                                 StudentFeatures.course_id r)) rows)
        /\ (forall s c,
               In (s, c) (map (fun r => (StudentFeatures.student_id r,
                                         StudentFeatures.course_id r)) rows)
               <-> exists e, In e df /\ ChapterEvent.student_id e = s
                             /\ ChapterEvent.course_id e = c)
        /\ list_sum (map (fun r => Z.to_nat (StudentFeatures.chapters_attempted r))
                         rows)
           = length df).
Proof.
  split.
  - intros ->. reflexivity.
  - intro Hne. exists (student_feature_rows df).
    split; [apply engineer_student_features_defined, Hne|].
    rewrite row_keys, row_attempts. split; [|split].
    + apply group_keys_NoDup.
    + intros s c. rewrite group_keys_spec, in_map_iff. split.
      * intros (e & He & Hin). exists e. unfold key in He. injection He as <- <-. auto.
      * intros (e & Hin & <- & <-). exists e. split; [reflexivity|exact Hin].
    + apply groups_partition; [apply group_keys_NoDup|].
      intros e He. apply group_keys_spec, in_map, He.
Qed.

Lemma fold_left_Qplus_bounds (lo hi : Q) (l : list Q) (acc : Q) :
  Forall (fun v => lo <= v <= hi) l ->
  acc + inject_Z (Z.of_nat (length l)) * lo <= fold_left Qplus l acc
  /\ fold_left Qplus l acc <= acc + inject_Z (Z.of_nat (length l)) * hi.
Proof.
  intro H. revert acc. induction H as [|v l Hv Hl IH]; intro acc.
  - simpl. change (inject_Z 0) with 0. lra.
  - cbn [fold_left length]. destruct (IH (acc + v)) as [IH1 IH2].
    rewrite Nat2Z.inj_succ. unfold Z.succ. rewrite inject_Z_plus.
    change (inject_Z 1) with 1.
    set (n := inject_Z (Z.of_nat (length l))) in *.
    assert (E1 : (n + 1) * lo == n * lo + lo) by ring.
    assert (E2 : (n + 1) * hi == n * hi + hi) by ring.
    rewrite E1, E2. split; lra.
Qed.

End StudentFeatureFacts.

Module StudentFeatureRanges.
Import FeatureEngineering FeatureEngineeringFacts StudentFeatureFacts.

Lemma fold_left_Qplus_nonneg (l : list Q) (acc : Q) :
  Forall (fun v => 0 <= v) l -> 0 <= acc -> 0 <= fold_left Qplus l acc.
Proof.
  intro H. revert acc. induction H as [|v l Hv Hl IH]; intros acc Hacc; simpl.
  - exact Hacc.
  - apply IH. lra.
Qed.

Lemma extrema_bounds (series : list Q) :
  Forall (fun v => min series <= v <= max series) series.
Proof.
  destruct series as [|x r]; [constructor|].
  unfold min, max.
  destruct (DifficultyFacts.fold_min_lower r x) as [Hm Hms].
  destruct (DifficultyFacts.fold_max_upper r x) as [HM HMs].
  constructor; [split; assumption|].
  rewrite Forall_forall in *. intros v Hv. split; [apply Hms, Hv|apply HMs, Hv].
Qed.

Lemma row_of_group (df : list ChapterEvent.t) (row : StudentFeatures.t) :
  In row (student_feature_rows df) ->
  exists k rows,
    rows = filter (fun e => if key_eq_dec (key e) k then true else false) df
    /\ rows <> []
    /\ StudentFeatures.student_id row = fst k
    /\ StudentFeatures.course_id row = snd k
    /\ StudentFeatures.chapters_attempted row = Z.of_nat (length rows)
    /\ StudentFeatures.chapters_completed row
       = sum (map ChapterEvent.completion_status rows)
    /\ StudentFeatures.completion_rate row
       = sum (map ChapterEvent.completion_status rows)
         / inject_Z (Z.of_nat (length rows))
    /\ StudentFeatures.engagement_rate row
       = sum (map ChapterEvent.time_spent rows)
         / (inject_Z (Z.of_nat (length rows)) * 60)
    /\ StudentFeatures.avg_score row = mean (map ChapterEvent.score rows)
    /\ StudentFeatures.min_score row = min (map ChapterEvent.score rows)
    /\ StudentFeatures.max_score row = max (map ChapterEvent.score rows)
    /\ StudentFeatures.low_score_count row
       = fillna 0 (merge_left (low_score_table df) (fst k)).
Proof.
  unfold student_feature_rows, groupby_student_course.
  rewrite map_map. intro H. apply in_map_iff in H.
  destruct H as (k & <- & Hk).
  exists k, (filter (fun e => if key_eq_dec (key e) k then true else false) df).
  split; [reflexivity|]. split.
  - apply group_keys_spec, in_map_iff in Hk. destruct Hk as (e & He & Hin).
    intro Hnil.
    assert (Hf : In e (filter (fun e => if key_eq_dec (key e) k then true else false) df)).
    { apply filter_In. split; [exact Hin|]. apply key_filter_eq, He. }
    rewrite Hnil in Hf. contradiction.
  - cbn [StudentFeatures.student_id StudentFeatures.course_id
         StudentFeatures.chapters_attempted StudentFeatures.chapters_completed
         StudentFeatures.completion_rate StudentFeatures.engagement_rate
         StudentFeatures.avg_score StudentFeatures.min_score
         StudentFeatures.max_score StudentFeatures.low_score_count fst snd].
    unfold count. rewrite !length_map. repeat split.
Qed.

(** For a validated batch (completion flags 0 or 1, times not negative),
    every feature row counts at least one chapter, has a completion rate
    in [0, 1] with no more chapters completed than attempted and an
    engagement rate that is not negative, and its minimum and maximum
    score bound the score of every event of its key. *)
Theorem engineer_student_features_ranges
        (df : list ChapterEvent.t) (rows : list StudentFeatures.t)
        (row : StudentFeatures.t) :
  (forall e, In e df ->
             (ChapterEvent.completion_status e == 0
              \/ ChapterEvent.completion_status e == 1)
             /\ 0 <= ChapterEvent.time_spent e) ->
  engineer_student_features df = Some rows ->
  In row rows ->
  (1 <= StudentFeatures.chapters_attempted row)%Z
  /\ 0 <= StudentFeatures.chapters_completed row
     <= inject_Z (StudentFeatures.chapters_attempted row)
  /\ 0 <= StudentFeatures.completion_rate row <= 1
  /\ 0 <= StudentFeatures.engagement_rate row
  /\ (forall e, In e df ->
                ChapterEvent.student_id e = StudentFeatures.student_id row ->
                ChapterEvent.course_id e = StudentFeatures.course_id row ->
                StudentFeatures.min_score row <= ChapterEvent.score e
                <= StudentFeatures.max_score row).
Proof.
  intros Hvalid Hsome Hrow.
  apply engineer_student_features_rows in Hsome. destruct Hsome as [-> _].
  destruct (row_of_group df row Hrow)
    as (k & group & Hgroup & Hne & Hsid & Hcid & -> & -> & -> & -> & _ & -> & -> & _).
  assert (Hsub : forall e, In e group -> In e df).
  { intros e He. rewrite Hgroup in He. apply filter_In in He. tauto. }
  assert (Hn : 0 < inject_Z (Z.of_nat (length group))).
  { destruct group; [contradiction|]. unfold Qlt. simpl. lia. }
  assert (Hstatus : Forall (fun v => 0 <= v <= 1) (map ChapterEvent.completion_status group)).
  { apply Forall_map, Forall_forall. intros e He.
    destruct (Hvalid e (Hsub e He)) as [[H|H] _]; rewrite H; lra. }
  assert (Htime : Forall (fun v => 0 <= v) (map ChapterEvent.time_spent group)).
  { apply Forall_map, Forall_forall. intros e He. apply (Hvalid e (Hsub e He)). }
  destruct (fold_left_Qplus_bounds 0 1 _ 0 Hstatus) as [Hs0 Hs1].
  rewrite length_map in Hs0, Hs1.
  pose proof (fold_left_Qplus_nonneg _ 0 Htime (Qle_refl 0)) as Ht.
  unfold sum. split; [|split; [|split; [|split]]].
  - destruct group; [contradiction|]. simpl length. lia.
  - split; lra.
  - split.
    + apply Qle_shift_div_l; [exact Hn|lra].
    + apply Qle_shift_div_r; [exact Hn|lra].
  - apply Qle_shift_div_l; [lra|lra].
  - intros e He Hs Hc.
    assert (Hin : In e group).
    { rewrite Hgroup. apply filter_In. split; [exact He|].
      apply key_filter_eq. unfold key. rewrite Hs, Hc, Hsid, Hcid.
      destruct k; reflexivity. }
    pose proof (extrema_bounds (map ChapterEvent.score group)) as Hb.
    rewrite Forall_forall in Hb. apply Hb, in_map, Hin.
Qed.

Lemma engineer_student_features_ranges_witness :
  let df := MoreSamples.three_students in
  let rows := match engineer_student_features df with Some r => r | None => [] end in
  let row := nth 1 rows NoRow.student in
  (1 <= StudentFeatures.chapters_attempted row)%Z
  /\ 0 <= StudentFeatures.chapters_completed row
     <= inject_Z (StudentFeatures.chapters_attempted row)
  /\ 0 <= StudentFeatures.completion_rate row <= 1
  /\ 0 <= StudentFeatures.engagement_rate row
  /\ (forall e, In e df ->
                ChapterEvent.student_id e = StudentFeatures.student_id row ->
                ChapterEvent.course_id e = StudentFeatures.course_id row ->
                StudentFeatures.min_score row <= ChapterEvent.score e
                <= StudentFeatures.max_score row).
Proof.
  intros df rows row.
  apply (engineer_student_features_ranges df rows row).
  - intros e He. simpl in He.
    repeat (destruct He as [<-|He];
            [simpl; split;
             [first [left; reflexivity|right; reflexivity]
             |unfold Qle; simpl; lia]|]).
    contradiction.
  - vm_compute. reflexivity.
  - vm_compute. right. left. reflexivity.
Defined.

Lemma merge_left_absent (f : Z -> Q) (students : list Z) (s : Z) :
  ~ In s students ->
  merge_left (map (fun x => (x, f x)) students) s = None.
Proof.
  induction students as [|x r IH]; intro H; [reflexivity|].
  simpl. destruct (Z.eqb_spec x s) as [->|Hne].
  - exfalso. apply H. left. reflexivity.
  - apply IH. intro Hin. apply H. right. exact Hin.
Qed.

Lemma filter_filter_and {A : Type} (p q : A -> bool) (l : list A) :
  filter p (filter q l) = filter (fun x => p x && q x) l.
Proof.
  induction l as [|x l IH]; [reflexivity|].
  simpl. destruct (q x); simpl; destruct (p x); simpl; rewrite ?IH; reflexivity.
Qed.

(** The [low_score_count] of a feature row is the number of events of
    the row's student with a score below 50, over all the student's
    courses, and 0 when the student has none. *)
Theorem low_score_count_per_student
        (df : list ChapterEvent.t) (rows : list StudentFeatures.t)
        (row : StudentFeatures.t) :
  engineer_student_features df = Some rows ->
  In row rows ->
  StudentFeatures.low_score_count row
  = inject_Z (Z.of_nat (length (filter
      (fun e => (ChapterEvent.student_id e =? StudentFeatures.student_id row)%Z
                && negb (Qle_bool 50 (ChapterEvent.score e))) df))).
Proof.
  intros Hsome Hrow.
  apply engineer_student_features_rows in Hsome. destruct Hsome as [-> _].
  destruct (row_of_group df row Hrow)
    as (k & group & _ & _ & -> & _ & _ & _ & _ & _ & _ & _ & _ & ->).
  unfold low_score_table, groupby_student. rewrite map_map. cbn [fst snd].
  rewrite <- filter_filter_and.
  set (low := filter (fun e => negb (Qle_bool 50 (ChapterEvent.score e))) df).
  set (f := fun s => inject_Z (Z.of_nat (length
                       (filter (fun e => (ChapterEvent.student_id e =? s)%Z) low)))).
  change (fillna 0 (merge_left (map (fun x => (x, f x))
            (sort_by Z.leb (nodup Z.eq_dec (map ChapterEvent.student_id low)))) (fst k))
          = f (fst k)).
  destruct (in_dec Z.eq_dec (fst k)
              (sort_by Z.leb (nodup Z.eq_dec (map ChapterEvent.student_id low))))
    as [Hin|Hnot].
  - rewrite (merge_left_computed f _ _ Hin). reflexivity.
  - rewrite (merge_left_absent f _ _ Hnot). unfold f, fillna.
    replace (filter (fun e => (ChapterEvent.student_id e =? fst k)%Z) low)
      with (@nil ChapterEvent.t); [reflexivity|].
    symmetry.
    assert (Hnone : forall e, In e low -> ChapterEvent.student_id e <> fst k).
    { intros e He Heq. apply Hnot. apply sort_by_In, nodup_In.
      rewrite <- Heq. apply in_map, He. }
    clearbody low. clear - Hnone.
    induction low as [|e low IH]; [reflexivity|].
    simpl. destruct (Z.eqb_spec (ChapterEvent.student_id e) (fst k)) as [E|_].
    + exfalso. apply (Hnone e); [left; reflexivity|exact E].
    + apply IH. intros x Hx. apply Hnone. right. exact Hx.
Qed.

Lemma low_score_count_per_student_witness :
  let df := MoreSamples.three_students in
  let rows := match engineer_student_features df with Some r => r | None => [] end in
  let row := nth 2 rows NoRow.student in
  StudentFeatures.low_score_count row
  = inject_Z (Z.of_nat (length (filter
      (fun e => (ChapterEvent.student_id e =? StudentFeatures.student_id row)%Z
                && negb (Qle_bool 50 (ChapterEvent.score e))) df))).
Proof.
  intros df rows row.
  apply (low_score_count_per_student df rows row).
  - vm_compute. reflexivity.
  - vm_compute. do 2 right. left. reflexivity.
Defined.

Lemma score_trend_single_course_witness :
  let df := Samples.one_course in
  let rows := match engineer_student_features df with Some r => r | None => [] end in
  let row := nth 0 rows NoRow.student in
  StudentFeatures.score_trend row
  = spec_score_trend df (StudentFeatures.student_id row) (StudentFeatures.course_id row).
Proof.
  intros df rows row.
  apply (score_trend_single_course df rows row).
  - vm_compute. reflexivity.
  - vm_compute. left. reflexivity.
  - intros e He _. simpl in He.
    repeat (destruct He as [<-|He]; [reflexivity|]).
    contradiction.
Defined.
End StudentFeatureRanges.

(** ** Chapter features *)

Module ChapterFeatureFacts.
Import FeatureEngineering ChapterFeatureEngineering StudentFeatureFacts.

Section BooleanEquivalence.
Context {A : Type}.
Variable eqb : A -> A -> bool.
Hypothesis eqb_refl : forall x, eqb x x = true.
Hypothesis eqb_sym : forall x y, eqb x y = true -> eqb y x = true.
Hypothesis eqb_trans : forall x y z, eqb x y = true -> eqb y z = true -> eqb x z = true.

Lemma unique_by_incl (l : list A) (x : A) : In x (unique_by eqb l) -> In x l.
Proof.
  revert x. induction l as [|a l IH]; intros x H; [contradiction|].
  simpl in H. destruct H as [<-|H]; [left; reflexivity|].
  apply filter_In in H. right. apply IH. tauto.
Qed.

Lemma list_sum_zero (f : A -> nat) (l : list A) :
  (forall k, In k l -> f k = 0%nat) -> list_sum (map f l) = 0%nat.
Proof.
  induction l as [|a l IH]; intro H; [reflexivity|].
  simpl. rewrite (H a (or_introl eq_refl)), IH; [reflexivity|].
  intros k Hk. apply H. right. exact Hk.
Qed.

Lemma list_sum_filter (f : A -> nat) (p : A -> bool) (l : list A) :
  (forall k, In k l -> p k = false -> f k = 0%nat) ->
  list_sum (map f (filter p l)) = list_sum (map f l).
Proof.
  induction l as [|a l IH]; intro H; [reflexivity|].
  simpl. destruct (p a) eqn:E; simpl.
  - f_equal. apply IH. intros k Hk. apply H. right. exact Hk.
  - rewrite (H a (or_introl eq_refl) E). apply IH.
    intros k Hk. apply H. right. exact Hk.
Qed.

(** Every value of the list is equal, by the test, to exactly one of its
    distinct values. *)
Lemma unique_by_count (l : list A) (x : A) :
  In x l ->
  list_sum (map (fun k => if eqb x k then 1 else 0)%nat (unique_by eqb l)) = 1%nat.
Proof.
  induction l as [|a l IH]; intro Hin; [contradiction|].
  simpl. destruct (eqb x a) eqn:Exa.
  - rewrite list_sum_zero; [reflexivity|].
    intros k Hk. apply filter_In in Hk. destruct Hk as [_ Hk].
    destruct (eqb x k) eqn:Exk; [|reflexivity].
    rewrite (eqb_trans a x k (eqb_sym _ _ Exa) Exk) in Hk. discriminate.
  - rewrite list_sum_filter.
    + simpl. apply IH. destruct Hin as [->|Hin]; [|exact Hin].
      rewrite eqb_refl in Exa. discriminate.
    + intros k _ Hk. destruct (eqb x k) eqn:Exk; [|reflexivity].
      apply negb_false_iff in Hk.
      rewrite (eqb_trans x k a Exk (eqb_sym _ _ Hk)) in Exa. discriminate.
Qed.
End BooleanEquivalence.

Lemma list_sum_perm (l l' : list nat) :
  Permutation l l' -> list_sum l = list_sum l'.
Proof. induction 1; simpl; lia. Qed.

Lemma chapter_key_eqb_refl (k : Z * Q) : chapter_key_eqb k k = true.
Proof.
  unfold chapter_key_eqb. rewrite Z.eqb_refl. apply Qeq_bool_iff. reflexivity.
Qed.

Lemma chapter_key_eqb_sym (a b : Z * Q) :
  chapter_key_eqb a b = true -> chapter_key_eqb b a = true.
Proof.
  unfold chapter_key_eqb. intro H. apply andb_true_iff in H. destruct H as [H1 H2].
  apply Z.eqb_eq in H1. qbool. rewrite H1, Z.eqb_refl. apply Qeq_bool_iff.
  symmetry. exact H2.
Qed.

Lemma chapter_key_eqb_trans (a b c : Z * Q) :
  chapter_key_eqb a b = true -> chapter_key_eqb b c = true ->
  chapter_key_eqb a c = true.
Proof.
  unfold chapter_key_eqb. intros H1 H2.
  apply andb_true_iff in H1. destruct H1 as [H1 H1'].
  apply andb_true_iff in H2. destruct H2 as [H2 H2'].
  apply Z.eqb_eq in H1, H2. qbool. rewrite H1, H2, Z.eqb_refl.
  apply Qeq_bool_iff. rewrite H1'. exact H2'.
Qed.

Lemma chapter_groups_partition (df : list ChapterEvent.t) :
  list_sum (map (fun k => length (filter (fun e => chapter_key_eqb (chapter_key e) k) df))
                (unique_by chapter_key_eqb (map chapter_key df)))
  = length df.
Proof.
  assert (H : forall l,
             (forall e, In e l -> In (chapter_key e) (map chapter_key df)) ->
             list_sum (map (fun k => length (filter (fun e => chapter_key_eqb (chapter_key e) k) l))
                           (unique_by chapter_key_eqb (map chapter_key df)))
             = length l).
  { induction l as [|e l IH]; intro Hcov.
    - simpl. apply list_sum_zero. reflexivity.
    - specialize (IH (fun x Hx => Hcov x (or_intror Hx))).
      pose proof (unique_by_count chapter_key_eqb chapter_key_eqb_refl
                    chapter_key_eqb_sym chapter_key_eqb_trans
                    (map chapter_key df) (chapter_key e)
                    (Hcov e (or_introl eq_refl))) as Hone.
      change (length (e :: l)) with (1 + length l)%nat.
      rewrite <- IH. rewrite <- Hone at 1.
      rewrite <- list_sum_map_add. f_equal. apply map_ext. intro k.
      cbn [filter]. destruct (chapter_key_eqb (chapter_key e) k); reflexivity. }
  apply H. intros e He. apply in_map, He.
Qed.

Section Features.
Variable std : list Q -> option Q.

Lemma chapter_row_of_group (df : list ChapterEvent.t) (c : ChapterFeatures.t) :
  In c (engineer_chapter_features std df) ->
  exists k rows,
    rows = filter (fun e => chapter_key_eqb (chapter_key e) k) df
    /\ rows <> []
    /\ In k (map chapter_key df)
    /\ ChapterFeatures.course_id c = fst k
    /\ ChapterFeatures.chapter_order c = snd k
    /\ ChapterFeatures.attempts c = Z.of_nat (length rows)
    /\ ChapterFeatures.student_count c = Z.of_nat (length rows)
    /\ ChapterFeatures.completions c = sum (map ChapterEvent.completion_status rows)
    /\ ChapterFeatures.completion_rate c
       = sum (map ChapterEvent.completion_status rows)
         / inject_Z (Z.of_nat (length rows))
    /\ ChapterFeatures.dropout_rate c = 1 - ChapterFeatures.completion_rate c
    /\ ChapterFeatures.avg_score c = mean (map ChapterEvent.score rows)
    /\ ChapterFeatures.avg_time_spent c = mean (map ChapterEvent.time_spent rows).
Proof.
  unfold engineer_chapter_features, groupby_course_chapter.
  rewrite map_map. intro H. apply in_map_iff in H.
  destruct H as (k & <- & Hk).
  apply sort_by_In in Hk.
  apply (unique_by_incl chapter_key_eqb) in Hk.
  exists k, (filter (fun e => chapter_key_eqb (chapter_key e) k) df).
  split; [reflexivity|]. split; [|split; [exact Hk|]].
  - apply in_map_iff in Hk. destruct Hk as (e & He & Hin).
    intro Hnil.
    assert (Hf : In e (filter (fun e => chapter_key_eqb (chapter_key e) k) df)).
    { apply filter_In. split; [exact Hin|]. rewrite He. apply chapter_key_eqb_refl. }
    rewrite Hnil in Hf. contradiction.
  - cbn [ChapterFeatures.course_id ChapterFeatures.chapter_order
         ChapterFeatures.attempts ChapterFeatures.student_count
         ChapterFeatures.completions ChapterFeatures.completion_rate
         ChapterFeatures.dropout_rate ChapterFeatures.avg_score
         ChapterFeatures.avg_time_spent fst snd].
    unfold count. rewrite !length_map. repeat split.
Qed.

(** For a batch whose completion flags are 0 or 1, every chapter feature
    vector has at least one attempt, as many students as attempts, a
    completion rate in [0, 1] and a dropout rate, one minus it, in
    [0, 1]; and it is the vector of a chapter that occurs in the batch. *)
Theorem engineer_chapter_features_ranges
        (df : list ChapterEvent.t) (c : ChapterFeatures.t) :
  (forall e, In e df ->
             ChapterEvent.completion_status e == 0
             \/ ChapterEvent.completion_status e == 1) ->
  In c (engineer_chapter_features std df) ->
  (1 <= ChapterFeatures.attempts c)%Z
  /\ ChapterFeatures.student_count c = ChapterFeatures.attempts c
  /\ 0 <= ChapterFeatures.completions c <= inject_Z (ChapterFeatures.attempts c)
  /\ 0 <= ChapterFeatures.completion_rate c <= 1
  /\ ChapterFeatures.dropout_rate c = 1 - ChapterFeatures.completion_rate c
  /\ 0 <= ChapterFeatures.dropout_rate c <= 1
  /\ exists e, In e df
               /\ ChapterEvent.course_id e = ChapterFeatures.course_id c
               /\ ChapterEvent.chapter_order e = ChapterFeatures.chapter_order c.
Proof.
  intros Hvalid Hc.
  destruct (chapter_row_of_group df c Hc)
    as (k & rows & Hrows & Hne & Hk & -> & -> & -> & -> & -> & Hrate & -> & _ & _).
  rewrite Hrate.
  assert (Hsub : forall e, In e rows -> In e df).
  { intros e He. rewrite Hrows in He. apply filter_In in He. tauto. }
  assert (Hn : 0 < inject_Z (Z.of_nat (length rows))).
  { destruct rows; [contradiction|]. unfold Qlt. simpl. lia. }
  assert (Hstatus : Forall (fun v => 0 <= v <= 1) (map ChapterEvent.completion_status rows)).
  { apply Forall_map, Forall_forall. intros e He.
    destruct (Hvalid e (Hsub e He)) as [H|H]; rewrite H; lra. }
  destruct (fold_left_Qplus_bounds 0 1 _ 0 Hstatus) as [Hs0 Hs1].
  rewrite length_map in Hs0, Hs1.
  assert (Hrate01 : 0 <= sum (map ChapterEvent.completion_status rows)
                         / inject_Z (Z.of_nat (length rows)) <= 1).
  { unfold sum. split.
    - apply Qle_shift_div_l; [exact Hn|lra].
    - apply Qle_shift_div_r; [exact Hn|lra]. }
  unfold sum in *.
  split; [|split; [|split; [|split; [|split; [|split]]]]].
  - destruct rows; [contradiction|]. simpl length. lia.
  - reflexivity.
  - split; lra.
  - exact Hrate01.
  - reflexivity.
  - split; lra.
  - apply in_map_iff in Hk. destruct Hk as (e & <- & He).
    exists e. repeat split. exact He.
Qed.

(** The chapter groups partition the batch: the attempts of the chapter
    feature vectors add up to the number of events, and an empty batch
    gives no vector. *)
Theorem engineer_chapter_features_partition (df : list ChapterEvent.t) :
  list_sum (map (fun c => Z.to_nat (ChapterFeatures.attempts c))
                (engineer_chapter_features std df))
  = length df
  /\ (forall e, In e df ->
                exists c, In c (engineer_chapter_features std df)
                          /\ ChapterFeatures.course_id c = ChapterEvent.course_id e
                          /\ ChapterFeatures.chapter_order c
                             == ChapterEvent.chapter_order e)
  /\ (df = [] -> engineer_chapter_features std df = []).
Proof.
  split; [|split].
  - unfold engineer_chapter_features, groupby_course_chapter.
    rewrite !map_map. cbn [ChapterFeatures.attempts].
    rewrite <- (chapter_groups_partition df).
    transitivity
      (list_sum (map (fun k => length (filter (fun e => chapter_key_eqb (chapter_key e) k) df))
                     (sort_by chapter_key_leb
                        (unique_by chapter_key_eqb (map chapter_key df))))).
    + f_equal. apply map_ext. intro k. unfold count.
      rewrite length_map, Nat2Z.id. reflexivity.
    + apply list_sum_perm, Permutation_map, Permutation_sym, sort_by_perm.
  - intros e He.
    assert (Hrep : exists k, In k (unique_by chapter_key_eqb (map chapter_key df))
                             /\ chapter_key_eqb k (chapter_key e) = true).
    { assert (Hin : In (chapter_key e) (map chapter_key df)) by (apply in_map, He).
      revert Hin. generalize (chapter_key e) as x. generalize (map chapter_key df) as l.
      induction l as [|a l IH]; intros x Hin; [contradiction|].
      simpl. destruct Hin as [->|Hin].
      - exists x. split; [left; reflexivity|apply chapter_key_eqb_refl].
      - destruct (IH x Hin) as (k & Hk & Hkx).
        destruct (chapter_key_eqb a k) eqn:Eak.
        + exists a. split; [left; reflexivity|].
          eapply chapter_key_eqb_trans; eassumption.
        + exists k. split; [|exact Hkx]. right. apply filter_In.
          split; [exact Hk|]. rewrite Eak. reflexivity. }
    destruct Hrep as (k & Hk & Hke).
    unfold engineer_chapter_features, groupby_course_chapter. rewrite map_map.
    eexists. split.
    + apply in_map_iff. exists k. split; [reflexivity|].
      apply sort_by_In, Hk.
    + cbn [ChapterFeatures.course_id ChapterFeatures.chapter_order fst snd].
      unfold chapter_key_eqb, chapter_key in Hke. cbn [fst snd] in Hke.
      apply andb_true_iff in Hke. destruct Hke as [H1 H2].
      apply Z.eqb_eq in H1. qbool. split; assumption.
  - intros ->. reflexivity.
Qed.
End Features.

Lemma engineer_chapter_features_ranges_witness :
  let c := nth 1 (engineer_chapter_features (fun _ => None) MoreSamples.three_students)
               NoRow.chapter in
  (1 <= ChapterFeatures.attempts c)%Z
  /\ ChapterFeatures.student_count c = ChapterFeatures.attempts c
  /\ 0 <= ChapterFeatures.completions c <= inject_Z (ChapterFeatures.attempts c)
  /\ 0 <= ChapterFeatures.completion_rate c <= 1
  /\ ChapterFeatures.dropout_rate c = 1 - ChapterFeatures.completion_rate c
  /\ 0 <= ChapterFeatures.dropout_rate c <= 1
  /\ exists e, In e MoreSamples.three_students
               /\ ChapterEvent.course_id e = ChapterFeatures.course_id c
               /\ ChapterEvent.chapter_order e = ChapterFeatures.chapter_order c.
Proof.
  intro c.
  apply (engineer_chapter_features_ranges (fun _ => None) MoreSamples.three_students c).
  - intros e He. simpl in He.
    repeat (destruct He as [<-|He];
            [simpl; first [left; reflexivity|right; reflexivity]|]).
    contradiction.
  - vm_compute. right. left. reflexivity.
Defined.

(** The sample: three chapters, (1, 1) with three students, (1, 2) with
    two and (2, 1) with one; completion rates 1, 1/2 and 0. *)
Example three_students_chapters :
  map (fun c => (ChapterFeatures.course_id c, ChapterFeatures.chapter_order c,
                 ChapterFeatures.attempts c, Qred (ChapterFeatures.completion_rate c),
                 Qred (ChapterFeatures.dropout_rate c)))
      (engineer_chapter_features (fun _ => None) MoreSamples.three_students)
  = [(1%Z, 1, 3%Z, 1, 0); (1%Z, 2, 2%Z, 1 # 2, 1 # 2); (2%Z, 1, 1%Z, 0, 1)].
Proof. vm_compute. reflexivity. Qed.
End ChapterFeatureFacts.

(** ** Imputation and outlier capping *)

Module ImputationFacts.
Import Preprocessing.

Lemma set_fields_id (e : RawEvent.t) :
  set_time_spent e (RawEvent.time_spent e) = e
  /\ set_score e (RawEvent.score e) = e
  /\ set_completion_status e (RawEvent.completion_status e) = e.
Proof. destruct e. repeat split. Qed.

Lemma fillna_present (m : option Q) (series : list (option Q)) (x : option Q) :
  isna_any series = false -> In x series -> fillna m x = x.
Proof.
  intros Hany Hin. destruct x as [v|]; [reflexivity|].
  exfalso. unfold isna_any in Hany.
  assert (H : existsb (fun x => match x with None => true | Some _ => false end) series = true).
  { apply existsb_exists. exists None. split; [exact Hin|reflexivity]. }
  congruence.
Qed.

(** Each imputation step, whether or not its column has a gap, fills the
    column row by row. *)
Lemma impute_time_step (df : list RawEvent.t) (m : option Q) :
  (if isna_any (map RawEvent.time_spent df)
   then map (fun e => set_time_spent e (fillna m (RawEvent.time_spent e))) df
   else df)
  = map (fun e => set_time_spent e (fillna m (RawEvent.time_spent e))) df.
Proof.
  destruct (isna_any (map RawEvent.time_spent df)) eqn:E; [reflexivity|].
  rewrite <- (map_id df) at 1. apply map_ext_in. intros e He.
  rewrite (fillna_present m _ _ E (in_map RawEvent.time_spent df e He)).
  symmetry. apply set_fields_id.
Qed.

Lemma impute_score_step (df : list RawEvent.t) (m : option Q) :
  (if isna_any (map RawEvent.score df)
   then map (fun e => set_score e (fillna m (RawEvent.score e))) df
   else df)
  = map (fun e => set_score e (fillna m (RawEvent.score e))) df.
Proof.
  destruct (isna_any (map RawEvent.score df)) eqn:E; [reflexivity|].
  rewrite <- (map_id df) at 1. apply map_ext_in. intros e He.
  rewrite (fillna_present m _ _ E (in_map RawEvent.score df e He)).
  symmetry. apply set_fields_id.
Qed.

Lemma impute_status_step (df : list RawEvent.t) (m : option Q) :
  (if isna_any (map RawEvent.completion_status df)
   then map (fun e => set_completion_status e (fillna m (RawEvent.completion_status e))) df
   else df)
  = map (fun e => set_completion_status e (fillna m (RawEvent.completion_status e))) df.
Proof.
  destruct (isna_any (map RawEvent.completion_status df)) eqn:E; [reflexivity|].
  rewrite <- (map_id df) at 1. apply map_ext_in. intros e He.
  rewrite (fillna_present m _ _ E (in_map RawEvent.completion_status df e He)).
  symmetry. apply set_fields_id.
Qed.

Lemma handle_missing_values_rows (df : list RawEvent.t) :
  _handle_missing_values df
  = map (fun e =>
           {| RawEvent.student_id := RawEvent.student_id e;
              RawEvent.course_id := RawEvent.course_id e;
              RawEvent.chapter_order := RawEvent.chapter_order e;
              RawEvent.time_spent :=
                fillna (median (map RawEvent.time_spent df)) (RawEvent.time_spent e);
              RawEvent.score :=
                fillna (mean (map RawEvent.score df)) (RawEvent.score e);
              RawEvent.completion_status :=
                fillna (Some 0) (RawEvent.completion_status e) |}) df.
Proof.
  unfold _handle_missing_values.
  rewrite impute_time_step.
  set (df1 := map (fun e => set_time_spent e
                              (fillna (median (map RawEvent.time_spent df))
                                      (RawEvent.time_spent e))) df).
  assert (Hs : map RawEvent.score df1 = map RawEvent.score df).
  { unfold df1. rewrite map_map. reflexivity. }
  rewrite impute_score_step, Hs.
  rewrite impute_status_step.
  unfold df1. rewrite !map_map. reflexivity.
Qed.

Lemma dropna_present (series : list (option Q)) (v : Q) :
  In (Some v) series -> In v (dropna series).
Proof.
  induction series as [|x r IH]; intro H; [contradiction|].
  destruct H as [->|H]; simpl.
  - left. reflexivity.
  - destruct x; [right|]; apply IH, H.
Qed.

Lemma dropna_In (series : list (option Q)) (v : Q) :
  In v (dropna series) -> In (Some v) series.
Proof.
  induction series as [|x r IH]; intro H; [contradiction|].
  destruct x as [w|]; simpl in H.
  - destruct H as [->|H]; [left; reflexivity|right; apply IH, H].
  - right. apply IH, H.
Qed.

Lemma quantile_defined (q : Q) (series : list (option Q)) (v : Q) :
  In (Some v) series -> quantile q series <> None.
Proof.
  intro H. apply dropna_present in H. unfold quantile.
  pose proof (sort_by_In Qle_bool (dropna series) v) as Hin.
  destruct (sort_by Qle_bool (dropna series)); [|discriminate].
  apply Hin in H. contradiction.
Qed.

Lemma mean_defined (series : list (option Q)) (v : Q) :
  In (Some v) series -> mean series <> None.
Proof.
  intro H. apply dropna_present in H. unfold mean.
  destruct (dropna series); [contradiction|discriminate].
Qed.

(** After imputation the frame has the rows it had, in order, with the
    ids and every value that was present unchanged; no completion flag is
    missing (a gap became 0); no time is missing if any time was present
    and no score is missing if any score was present. *)
Theorem handle_missing_values_fills (df : list RawEvent.t) :
  Forall2
    (fun e o =>
       RawEvent.student_id o = RawEvent.student_id e
       /\ RawEvent.course_id o = RawEvent.course_id e
       /\ RawEvent.chapter_order o = RawEvent.chapter_order e
       /\ (forall v, RawEvent.time_spent e = Some v -> RawEvent.time_spent o = Some v)
       /\ (forall v, RawEvent.score e = Some v -> RawEvent.score o = Some v)
       /\ (forall v, RawEvent.completion_status e = Some v ->
                     RawEvent.completion_status o = Some v)
       /\ (RawEvent.completion_status e = None ->
           RawEvent.completion_status o = Some 0)
       /\ RawEvent.completion_status o <> None
       /\ ((exists e' v, In e' df /\ RawEvent.time_spent e' = Some v) ->
           RawEvent.time_spent o <> None)
       /\ ((exists e' v, In e' df /\ RawEvent.score e' = Some v) ->
           RawEvent.score o <> None))
    df (_handle_missing_values df).
Proof.
  rewrite handle_missing_values_rows.
  assert (Ht : (exists e' v, In e' df /\ RawEvent.time_spent e' = Some v) ->
               median (map RawEvent.time_spent df) <> None).
  { intros (e' & v & He & Hv). apply (quantile_defined _ _ v).
    rewrite <- Hv. apply in_map, He. }
  assert (Hs : (exists e' v, In e' df /\ RawEvent.score e' = Some v) ->
               mean (map RawEvent.score df) <> None).
  { intros (e' & v & He & Hv). apply (mean_defined _ v).
    rewrite <- Hv. apply in_map, He. }
  revert Ht Hs.
  generalize (median (map RawEvent.time_spent df)) as mt.
  generalize (mean (map RawEvent.score df)) as ms.
  generalize (exists e' v, In e' df /\ RawEvent.time_spent e' = Some v) as Pt.
  generalize (exists e' v, In e' df /\ RawEvent.score e' = Some v) as Ps.
  intros Ps Pt ms mt Ht Hs.
  induction df as [|e df IH]; simpl; constructor; [|exact IH].
  cbn. repeat split.
  - intros v ->. reflexivity.
  - intros v ->. reflexivity.
  - intros v ->. reflexivity.
  - intros ->. reflexivity.
  - destruct (RawEvent.completion_status e); discriminate.
  - intro H. specialize (Ht H). destruct (RawEvent.time_spent e); simpl;
      [discriminate|exact Ht].
  - intro H. specialize (Hs H). destruct (RawEvent.score e); simpl;
      [discriminate|exact Hs].
Qed.

(** The sample: the missing time becomes the median 25 of the present
    times, the missing score their mean 75, the missing flag 0. *)
Example with_gaps_imputed :
  map (fun e => (option_map Qred (RawEvent.time_spent e),
                 option_map Qred (RawEvent.score e),
                 RawEvent.completion_status e))
      (_handle_missing_values Samples.with_gaps)
  = [(Some 10, Some 50, Some 0); (Some 25, Some 70, Some 1);
     (Some 20, Some 75, Some 1); (Some 1000, Some 90, Some 1);
     (Some 30, Some 90, Some 1)].
Proof. vm_compute. reflexivity. Qed.
End ImputationFacts.

(** ** The two paths of the preprocessor *)

Module PreprocessingClaims.
Import Preprocessing PreprocessingFacts ImputationFacts.

End PreprocessingClaims.

Module OutlierFacts.
Import Preprocessing OutlierBounds ImputationFacts.

Lemma sorted_nth_le (l : list Q) (d : Q) :
  StronglySorted Qle l ->
  forall i j, (i <= j)%nat -> (j < length l)%nat -> nth i l d <= nth j l d.
Proof.
  induction 1 as [|a l Hs IH Hall]; intros i j Hij Hj; [simpl in Hj; lia|].
  destruct i as [|i]; destruct j as [|j]; simpl in *.
  - apply Qle_refl.
  - rewrite Forall_forall in Hall. apply Hall, nth_In. lia.
  - lia.
  - apply IH; lia.
Qed.

Lemma sort_Q_sorted (l : list Q) : StronglySorted Qle (sort_by Qle_bool l).
Proof.
  eapply StronglySorted_weaken; [|apply sort_by_strongly].
  - unfold ordered_by. intros a b H. apply Qle_bool_iff, H.
  - intros a b. destruct (Qle_bool a b) eqn:E; [left; reflexivity|right].
    qbool. apply Qle_bool_iff. lra.
  - intros a b c H1 H2. qbool. apply Qle_bool_iff. lra.
Qed.

(** A quantile is an interpolation between two neighbours of the sorted
    values: position [lo] and fraction [frac] with [lo + frac = (n - 1) q]. *)
Lemma quantile_shape (q : Q) (series : list (option Q)) (r : Q) :
  0 <= q <= 1 ->
  quantile q series = Some r ->
  exists (lo : nat) (frac : Q),
    (lo < length (sort_by Qle_bool (dropna series)))%nat
    /\ 0 <= frac < 1
    /\ inject_Z (Z.of_nat lo) + frac
       == inject_Z (Z.of_nat (length (sort_by Qle_bool (dropna series))) - 1) * q
    /\ r = nth lo (sort_by Qle_bool (dropna series)) 0
           + (nth (Nat.min (S lo) (length (sort_by Qle_bool (dropna series)) - 1))
                  (sort_by Qle_bool (dropna series)) 0
              - nth lo (sort_by Qle_bool (dropna series)) 0) * frac.
Proof.
  intros [Hq0 Hq1]. unfold quantile.
  set (values := sort_by Qle_bool (dropna series)).
  destruct values as [|v0 rest] eqn:Ev; [discriminate|].
  rewrite <- Ev. intro H. injection H as <-.
  set (n := length values).
  assert (Hn : (1 <= n)%nat) by (unfold n; rewrite Ev; simpl; lia).
  set (h := inject_Z (Z.of_nat n - 1) * q).
  assert (Hn0 : 0 <= inject_Z (Z.of_nat n - 1)).
  { change 0 with (inject_Z 0). rewrite <- Zle_Qle. lia. }
  assert (Hh0 : 0 <= h) by (unfold h; nra).
  assert (Hh1 : h <= inject_Z (Z.of_nat n - 1)) by (unfold h; nra).
  assert (Hf0 : (0 <= Qfloor h)%Z).
  { change 0%Z with (Qfloor 0). apply Qfloor_resp_le, Hh0. }
  assert (Hf1 : (Qfloor h <= Z.of_nat n - 1)%Z).
  { rewrite <- (Qfloor_Z (Z.of_nat n - 1)). apply Qfloor_resp_le, Hh1. }
  exists (Z.to_nat (Qfloor h)), (h - inject_Z (Qfloor h)).
  assert (Hlo : (Z.to_nat (Qfloor h) < n)%nat) by lia.
  pose proof (Qfloor_le h) as Hfl.
  pose proof (Qlt_floor h) as Hfu. rewrite inject_Z_plus in Hfu.
  change (inject_Z 1) with 1 in Hfu.
  split; [exact Hlo|]. split; [split; lra|]. split.
  - rewrite Z2Nat.id by exact Hf0. fold h. lra.
  - assert (Hhi : (Nat.min (S (Z.to_nat (Qfloor h))) (n - 1) < n)%nat) by lia.
    rewrite (nth_indep values 0 v0 Hlo), (nth_indep values 0 v0 Hhi).
    reflexivity.
Qed.

Lemma quantile_between (q : Q) (series : list (option Q)) (r : Q) :
  0 <= q <= 1 ->
  quantile q series = Some r ->
  exists a b, In (Some a) series /\ In (Some b) series /\ a <= r <= b.
Proof.
  intros Hq Hr.
  destruct (quantile_shape q series r Hq Hr) as (lo & frac & Hlo & Hfrac & _ & ->).
  set (values := sort_by Qle_bool (dropna series)) in *.
  set (hi := Nat.min (S lo) (length values - 1)).
  assert (Hhi : (hi < length values)%nat) by (unfold hi; lia).
  assert (Hle : nth lo values 0 <= nth hi values 0).
  { apply sorted_nth_le; [apply sort_Q_sorted|unfold hi; lia|exact Hhi]. }
  exists (nth lo values 0), (nth hi values 0).
  split; [|split].
  - apply dropna_In, (sort_by_In Qle_bool), nth_In, Hlo.
  - apply dropna_In, (sort_by_In Qle_bool), nth_In, Hhi.
  - split; nra.
Qed.

Lemma quantile_monotone (q q' : Q) (series : list (option Q)) (r r' : Q) :
  0 <= q -> q <= q' -> q' <= 1 ->
  quantile q series = Some r -> quantile q' series = Some r' -> r <= r'.
Proof.
  intros Hq0 Hqq Hq1 Hr Hr'.
  destruct (quantile_shape q series r ltac:(split; lra) Hr)
    as (lo & frac & Hlo & Hfrac & Hpos & ->).
  destruct (quantile_shape q' series r' ltac:(split; lra) Hr')
    as (lo' & frac' & Hlo' & Hfrac' & Hpos' & ->).
  set (values := sort_by Qle_bool (dropna series)) in *.
  set (n := length values) in *.
  assert (Hn0 : 0 <= inject_Z (Z.of_nat n - 1)).
  { change 0 with (inject_Z 0). rewrite <- Zle_Qle. lia. }
  assert (Hsum : inject_Z (Z.of_nat lo) + frac <= inject_Z (Z.of_nat lo') + frac').
  { rewrite Hpos, Hpos'. nra. }
  assert (Hsorted : StronglySorted Qle values) by apply sort_Q_sorted.
  assert (Hab : nth lo values 0 <= nth (Nat.min (S lo) (n - 1)) values 0).
  { apply sorted_nth_le; [exact Hsorted|lia|lia]. }
  assert (Hab' : nth lo' values 0 <= nth (Nat.min (S lo') (n - 1)) values 0).
  { apply sorted_nth_le; [exact Hsorted|lia|lia]. }
  destruct (Nat.lt_trichotomy lo lo') as [Hlt|[Heq|Hgt]].
  - assert (Hmid : nth (Nat.min (S lo) (n - 1)) values 0 <= nth lo' values 0).
    { apply sorted_nth_le; [exact Hsorted|lia|exact Hlo']. }
    nra.
  - subst lo'. nra.
  - exfalso.
    assert (H : inject_Z (Z.of_nat lo') + 1 <= inject_Z (Z.of_nat lo)).
    { change 1 with (inject_Z 1). rewrite <- inject_Z_plus, <- Zle_Qle. lia. }
    lra.
Qed.

Lemma Forall2_map_In {A B : Type} (R : A -> B -> Prop) (f : A -> B) (l : list A) :
  (forall x, In x l -> R x (f x)) -> Forall2 R l (map f l).
Proof.
  induction l as [|x l IH]; intro H; simpl; constructor.
  - apply H. left. reflexivity.
  - apply IH. intros y Hy. apply H. right. exact Hy.
Qed.

Lemma clip_between (lower upper v : Q) :
  lower <= upper ->
  exists w, clip lower (Some upper) (Some v) = Some w
            /\ lower <= w <= upper
            /\ (lower <= v <= upper -> w = v)
            /\ (v < lower -> w == lower)
            /\ (upper < v -> w == upper).
Proof.
  intro Hlu. unfold clip.
  destruct (Qle_bool lower upper) eqn:E1; [|qbool; lra].
  destruct (Qle_bool upper lower) eqn:E2; cbn [negb];
    destruct (Qle_bool v upper) eqn:E3; destruct (Qle_bool v lower) eqn:E4;
    try destruct (Qle_bool lower v) eqn:E5;
    try destruct (Qle_bool lower upper) eqn:E6;
    try destruct (Qle_bool lower lower) eqn:E7;
    qbool; eexists; (split; [reflexivity|]);
    repeat split; intros; try reflexivity; try lra.
Qed.

(** For a frame whose present times are not negative, the outlier step
    keeps every row, touches only [time_spent], keeps a missing time
    missing, and puts every present time into the interval from
    [max(0, Q1 - 1.5 IQR)] to [Q3 + 1.5 IQR] of the batch: a time inside
    the interval is unchanged, a time below it becomes the lower bound
    and a time above it the upper bound. *)
Theorem handle_outliers_clamps (df : list RawEvent.t) :
  (forall e v, In e df -> RawEvent.time_spent e = Some v -> 0 <= v) ->
  Forall2
    (fun e o =>
       RawEvent.student_id o = RawEvent.student_id e
       /\ RawEvent.course_id o = RawEvent.course_id e
       /\ RawEvent.chapter_order o = RawEvent.chapter_order e
       /\ RawEvent.score o = RawEvent.score e
       /\ RawEvent.completion_status o = RawEvent.completion_status e
       /\ match RawEvent.time_spent e with
          | None => RawEvent.time_spent o = None
          | Some v =>
              exists upper w,
                upper_bound df = Some upper
                /\ RawEvent.time_spent o = Some w
                /\ 0 <= lower_bound df
                /\ lower_bound df <= w <= upper
                /\ (lower_bound df <= v <= upper -> w = v)
                /\ (v < lower_bound df -> w == lower_bound df)
                /\ (upper < v -> w == upper)
          end)
    df (_handle_outliers df).
Proof.
  intro Hpos.
  assert (Hrows : _handle_outliers df
                  = map (fun e => set_time_spent e
                                    (clip (lower_bound df) (upper_bound df)
                                          (RawEvent.time_spent e))) df)
    by reflexivity.
  rewrite Hrows.
  assert (Hbounds : forall e v, In e df -> RawEvent.time_spent e = Some v ->
                      exists upper, upper_bound df = Some upper
                                    /\ 0 <= lower_bound df <= upper).
  { intros e v He Hv.
    assert (Hin : In (Some v) (map RawEvent.time_spent df)).
    { rewrite <- Hv. apply in_map, He. }
    unfold upper_bound, lower_bound, iqr, q1, q3.
    destruct (quantile (25 # 100) (map RawEvent.time_spent df)) as [r1|] eqn:E1;
      [|exfalso; exact (quantile_defined _ _ _ Hin E1)].
    destruct (quantile (75 # 100) (map RawEvent.time_spent df)) as [r3|] eqn:E3;
      [|exfalso; exact (quantile_defined _ _ _ Hin E3)].
    assert (H13 : r1 <= r3).
    { apply (quantile_monotone (25 # 100) (75 # 100)
               (map RawEvent.time_spent df) r1 r3); try assumption;
        unfold Qle; simpl; lia. }
    assert (H1 : 0 <= r1).
    { destruct (quantile_between (25 # 100) (map RawEvent.time_spent df) r1
                  ltac:(split; unfold Qle; simpl; lia) E1) as (a & b & Ha & _ & Hab & _).
      apply in_map_iff in Ha. destruct Ha as (e' & He' & Hin').
      pose proof (Hpos e' a Hin' He'). lra. }
    cbn [option_map2 option_map]. eexists. split; [reflexivity|].
    unfold max_0.
    destruct (Qle_bool (r1 - (15 # 10) * (r3 - r1)) 0) eqn:Em; cbn [negb]; qbool;
      split; lra. }
  clear Hrows.
  apply Forall2_map_In. intros e He.
  repeat split. destruct (RawEvent.time_spent e) as [v|] eqn:Ev; [|reflexivity].
  destruct (Hbounds e v He Ev) as (upper & Hu & Hl0 & Hlu).
  destruct (clip_between (lower_bound df) upper v Hlu) as (w & Hw & Hrange & Hin & Hlow & Hhigh).
  exists upper, w. rewrite Hu. cbn [set_time_spent RawEvent.time_spent].
  repeat split; try assumption; try apply Hrange.
Qed.

Lemma handle_outliers_clamps_witness :
  Forall2
    (fun e o =>
       RawEvent.student_id o = RawEvent.student_id e
       /\ RawEvent.course_id o = RawEvent.course_id e
       /\ RawEvent.chapter_order o = RawEvent.chapter_order e
       /\ RawEvent.score o = RawEvent.score e
       /\ RawEvent.completion_status o = RawEvent.completion_status e
       /\ match RawEvent.time_spent e with
          | None => RawEvent.time_spent o = None
          | Some v =>
              exists upper w,
                upper_bound MoreSamples.with_outlier = Some upper
                /\ RawEvent.time_spent o = Some w
                /\ 0 <= lower_bound MoreSamples.with_outlier
                /\ lower_bound MoreSamples.with_outlier <= w <= upper
                /\ (lower_bound MoreSamples.with_outlier <= v <= upper -> w = v)
                /\ (v < lower_bound MoreSamples.with_outlier ->
                    w == lower_bound MoreSamples.with_outlier)
                /\ (upper < v -> w == upper)
          end)
    MoreSamples.with_outlier (_handle_outliers MoreSamples.with_outlier).
Proof.
  apply (handle_outliers_clamps MoreSamples.with_outlier).
  intros e v He Hv. simpl in He.
  repeat (destruct He as [<-|He];
          [injection Hv as <-; unfold Qle; simpl; lia|]).
  contradiction.
Defined.

(** The sample: Q1 = 20 and Q3 = 30, so the bounds are 5 and 45; the
    time 1000 becomes 45 and the other times stay. *)
Example with_outlier_capped :
  map (fun e => option_map Qred (RawEvent.time_spent e))
      (_handle_outliers MoreSamples.with_outlier)
  = [Some 10; Some 20; Some 25; Some 45; Some 30]
  /\ Qred (lower_bound MoreSamples.with_outlier) = 5
  /\ option_map Qred (upper_bound MoreSamples.with_outlier) = Some 45.
Proof. vm_compute. repeat split. Qed.
End OutlierFacts.

(** ** What validation establishes *)

Module ValidationFacts.
Import Ingestion IngestionFacts.

Section Facts.
Variable parse_number : string -> option Q.

Lemma to_numeric_is_number (c : cell) :
  to_numeric parse_number c <> NaN -> exists v, to_numeric parse_number c = Num v.
Proof.
  destruct c as [q|s|]; simpl.
  - intros _. exists q. reflexivity.
  - destruct (parse_number s) as [q|]; intro H; [exists q; reflexivity|contradiction].
  - intro H. contradiction.
Qed.

Lemma empty_coerce_column (name : string) (df : DataFrame) :
  empty (coerce_column parse_number name df) = empty df.
Proof.
  destruct df as [|[n cells] r]; [reflexivity|].
  simpl. destruct (String.eqb n name); simpl; [rewrite length_map|]; reflexivity.
Qed.

Lemma empty_coerced (df : DataFrame) :
  empty (coerce_numeric_columns parse_number df) = empty df.
Proof. unfold coerce_numeric_columns. rewrite !empty_coerce_column. reflexivity. Qed.

Lemma has_column_names (df df' : DataFrame) (name : string) :
  map fst df' = map fst df -> has_column df' name = has_column df name.
Proof.
  unfold has_column. intro H.
  rewrite <- (map_id df'), <- (map_id df) at 1.
  transitivity (existsb (fun n => String.eqb n name) (map fst df')).
  - clear. induction df' as [|c r IH]; [reflexivity|]. simpl. rewrite <- IH.
    rewrite map_id. reflexivity.
  - rewrite H. clear. induction df as [|c r IH]; [reflexivity|]. simpl. rewrite IH.
    rewrite map_id. reflexivity.
Qed.

Lemma has_column_coerced (df : DataFrame) (name : string) :
  has_column (coerce_numeric_columns parse_number df) name = has_column df name.
Proof.
  apply has_column_names. unfold coerce_numeric_columns.
  rewrite !coerce_column_names. reflexivity.
Qed.

Lemma missing_coerced (df : DataFrame) :
  filter (fun c => negb (has_column (coerce_numeric_columns parse_number df) c))
         REQUIRED_COLUMNS
  = filter (fun c => negb (has_column df c)) REQUIRED_COLUMNS.
Proof. apply filter_ext. intro c. rewrite has_column_coerced. reflexivity. Qed.

(** No text is left in a column that went through [pd.to_numeric]. *)
Lemma coerce_column_no_text (done : list string) (name : string) (df : DataFrame) :
  (forall n cells c s, In (n, cells) df -> In n done -> In c cells -> c <> Text s) ->
  forall n cells c s,
    In (n, cells) (coerce_column parse_number name df) ->
    In n (name :: done) -> In c cells -> c <> Text s.
Proof.
  intros H n cells c s Hin Hn Hc.
  unfold coerce_column in Hin. apply in_map_iff in Hin.
  destruct Hin as ([n0 cells0] & Heq & Hin0). simpl in Heq.
  destruct (String.eqb n0 name) eqn:E.
  - injection Heq as <- <-. apply in_map_iff in Hc.
    destruct Hc as (c0 & <- & _).
    destruct c0 as [q|t|]; simpl; try discriminate.
    destruct (parse_number t); discriminate.
  - injection Heq as <- <-. apply String.eqb_neq in E.
    destruct Hn as [Hn|Hn]; [congruence|].
    apply (H n0 cells0 c s Hin0 Hn Hc).
Qed.

Lemma coerced_no_text (df : DataFrame) :
  forall n cells c s,
    In (n, cells) (coerce_numeric_columns parse_number df) ->
    In n COERCED_COLUMNS -> In c cells -> c <> Text s.
Proof.
  intros n cells c s Hin Hn Hc.
  unfold coerce_numeric_columns in Hin.
  refine (coerce_column_no_text ["chapter_order"; "score"; "time_spent"]%string
            "completion_status" _ _ n cells c s Hin _ Hc).
  - apply (coerce_column_no_text ["score"; "time_spent"]%string).
    apply (coerce_column_no_text ["time_spent"]%string).
    apply (coerce_column_no_text []%string).
    intros ? ? ? ? _ [].
  - unfold COERCED_COLUMNS in Hn. simpl in *. tauto.
Qed.

Lemma coerce_numeric_columns_id (df : DataFrame) :
  (forall name cells c s,
      In (name, cells) df -> In name COERCED_COLUMNS -> In c cells -> c <> Text s) ->
  coerce_numeric_columns parse_number df = df.
Proof.
  intro H. unfold coerce_numeric_columns.
  rewrite (coerce_column_id parse_number "time_spent" df);
    [|intros cells c s Hin; apply (H _ _ c s Hin); simpl; tauto].
  rewrite (coerce_column_id parse_number "score" df);
    [|intros cells c s Hin; apply (H _ _ c s Hin); simpl; tauto].
  rewrite (coerce_column_id parse_number "chapter_order" df);
    [|intros cells c s Hin; apply (H _ _ c s Hin); simpl; tauto].
  apply coerce_column_id.
  intros cells c s Hin; apply (H _ _ c s Hin); simpl; tauto.
Qed.

Lemma coerce_numeric_columns_idempotent (df : DataFrame) :
  coerce_numeric_columns parse_number (coerce_numeric_columns parse_number df)
  = coerce_numeric_columns parse_number df.
Proof. apply coerce_numeric_columns_id, coerced_no_text. Qed.

Lemma validate_data_again (df : DataFrame) :
  validate_data parse_number (fst (validate_data parse_number df))
  = validate_data parse_number df.
Proof.
  unfold validate_data at 2 3.
  destruct (empty df) eqn:Eempty.
  - cbn [fst]. unfold validate_data. rewrite Eempty. reflexivity.
  - destruct (filter (fun c => negb (has_column df c)) REQUIRED_COLUMNS) eqn:Emiss.
    + assert (Hfst : forall (b : bool) (x y : DataFrame * outcome),
                 fst x = coerce_numeric_columns parse_number df ->
                 fst y = coerce_numeric_columns parse_number df ->
                 fst (if b then x else y) = coerce_numeric_columns parse_number df).
      { intros [] x y Hx Hy; assumption. }
      match goal with
      | |- validate_data _ (fst ?r) = _ =>
          assert (E : fst r = coerce_numeric_columns parse_number df)
            by (repeat apply Hfst; reflexivity)
      end.
      rewrite E. unfold validate_data.
      rewrite empty_coerced, Eempty, missing_coerced, Emiss,
        coerce_numeric_columns_idempotent.
      reflexivity.
    + cbn [fst]. unfold validate_data. rewrite Eempty, Emiss. reflexivity.
Qed.

Lemma validate_data_returned (df : DataFrame) :
  snd (validate_data parse_number df) = Returned ->
  let df' := coerce_numeric_columns parse_number df in
  fst (validate_data parse_number df) = df'
  /\ empty df = false
  /\ filter (fun c => negb (has_column df c)) REQUIRED_COLUMNS = []
  /\ existsb isna (column df' "time_spent") = false
  /\ existsb isna (column df' "score") = false
  /\ existsb isna (column df' "chapter_order") = false
  /\ existsb (fun c => lt_cell c 0) (column df' "score") = false
  /\ existsb (fun c => gt_cell c 100) (column df' "score") = false
  /\ existsb (fun c => lt_cell c 0) (column df' "time_spent") = false
  /\ existsb (fun c => lt_cell c 1) (column df' "chapter_order") = false
  /\ forallb isin_0_1 (column df' "completion_status") = true.
Proof.
  unfold validate_data.
  destruct (empty df); [discriminate|].
  destruct (filter (fun c => negb (has_column df c)) REQUIRED_COLUMNS);
    [|discriminate].
  cbn zeta.
  destruct (existsb isna (column _ "time_spent")); [discriminate|].
  destruct (existsb isna (column _ "score")); [discriminate|].
  destruct (existsb isna (column _ "chapter_order")); [discriminate|].
  cbn [orb].
  destruct (existsb (fun c => lt_cell c 0) (column _ "score")); [discriminate|].
  destruct (existsb (fun c => gt_cell c 100) (column _ "score")); [discriminate|].
  cbn [orb].
  destruct (existsb (fun c => lt_cell c 0) (column _ "time_spent")); [discriminate|].
  destruct (existsb (fun c => lt_cell c 1) (column _ "chapter_order")); [discriminate|].
  destruct (forallb isin_0_1 (column _ "completion_status")); [|discriminate].
  intros _. repeat split.
Qed.

Lemma existsb_false {A : Type} (p : A -> bool) (l : list A) (x : A) :
  existsb p l = false -> In x l -> p x = false.
Proof.
  intros H Hin. destruct (p x) eqn:E; [|reflexivity].
  assert (existsb p l = true) by (apply existsb_exists; exists x; auto).
  congruence.
Qed.

Lemma coerced_cell_number (df : DataFrame) (name : string) (c : cell) :
  In name COERCED_COLUMNS ->
  existsb isna (column (coerce_numeric_columns parse_number df) name) = false ->
  In c (column (coerce_numeric_columns parse_number df) name) ->
  exists v, c = Num v.
Proof.
  intros Hn Hna Hc.
  pose proof (existsb_false _ _ _ Hna Hc) as Hnot.
  rewrite column_coerced in Hc by exact Hn.
  apply in_map_iff in Hc. destruct Hc as (c0 & <- & _).
  apply to_numeric_is_number. intro E. rewrite E in Hnot. discriminate.
Qed.
End Facts.

(** The frame [validate_data] leaves behind when it returns is not
    empty, has every required column, and holds in [score] only numbers
    within [0, 100], in [time_spent] only numbers that are not negative,
    in [chapter_order] only numbers from 1 up, and in
    [completion_status] only the numbers 0 and 1. *)
Theorem validate_data_returned_frame
        (parse_number : string -> option Q) (df : DataFrame) :
  snd (validate_data parse_number df) = Returned ->
  empty (fst (validate_data parse_number df)) = false
  /\ (forall name, In name REQUIRED_COLUMNS ->
                   has_column (fst (validate_data parse_number df)) name = true)
  /\ (forall c, In c (column (fst (validate_data parse_number df)) "score") ->
                exists v, c = Num v /\ 0 <= v <= 100)
  /\ (forall c, In c (column (fst (validate_data parse_number df)) "time_spent") ->
                exists v, c = Num v /\ 0 <= v)
  /\ (forall c, In c (column (fst (validate_data parse_number df)) "chapter_order") ->
                exists v, c = Num v /\ 1 <= v)
  /\ (forall c, In c (column (fst (validate_data parse_number df)) "completion_status") ->
                exists v, c = Num v /\ (v == 0 \/ v == 1)).
Proof.
  intro Hret.
  destruct (validate_data_returned parse_number df Hret)
    as (-> & Hempty & Hmiss & Nt & Ns & Nc & Slo & Shi & Tlo & Clo & Cs).
  split; [rewrite empty_coerced; exact Hempty|].
  split; [|split; [|split; [|split]]].
  - intros name Hname. rewrite has_column_coerced.
    destruct (has_column df name) eqn:E; [reflexivity|].
    assert (Hin : In name (filter (fun c => negb (has_column df c)) REQUIRED_COLUMNS)).
    { apply filter_In. split; [exact Hname|]. rewrite E. reflexivity. }
    rewrite Hmiss in Hin. contradiction.
  - intros c Hc.
    destruct (coerced_cell_number parse_number df "score" c
                ltac:(simpl; tauto) Ns Hc) as (v & ->).
    exists v. split; [reflexivity|].
    pose proof (existsb_false _ _ _ Slo Hc) as H1.
    pose proof (existsb_false _ _ _ Shi Hc) as H2.
    simpl in H1, H2. apply negb_false_iff in H1, H2. qbool. split; assumption.
  - intros c Hc.
    destruct (coerced_cell_number parse_number df "time_spent" c
                ltac:(simpl; tauto) Nt Hc) as (v & ->).
    exists v. split; [reflexivity|].
    pose proof (existsb_false _ _ _ Tlo Hc) as H1.
    simpl in H1. apply negb_false_iff in H1. qbool. exact H1.
  - intros c Hc.
    destruct (coerced_cell_number parse_number df "chapter_order" c
                ltac:(simpl; tauto) Nc Hc) as (v & ->).
    exists v. split; [reflexivity|].
    pose proof (existsb_false _ _ _ Clo Hc) as H1.
    simpl in H1. apply negb_false_iff in H1. qbool. exact H1.
  - intros c Hc. rewrite forallb_forall in Cs. specialize (Cs c Hc).
    destruct c as [v|s|]; simpl in Cs; try discriminate.
    exists v. split; [reflexivity|].
    apply orb_true_iff in Cs. destruct Cs as [H|H]; qbool; auto.
Qed.

Lemma validate_data_returned_frame_witness :
  let df := Samples.text_score in
  empty (fst (validate_data parse_unsigned df)) = false
  /\ (forall name, In name REQUIRED_COLUMNS ->
                   has_column (fst (validate_data parse_unsigned df)) name = true)
  /\ (forall c, In c (column (fst (validate_data parse_unsigned df)) "score") ->
                exists v, c = Num v /\ 0 <= v <= 100)
  /\ (forall c, In c (column (fst (validate_data parse_unsigned df)) "time_spent") ->
                exists v, c = Num v /\ 0 <= v)
  /\ (forall c, In c (column (fst (validate_data parse_unsigned df)) "chapter_order") ->
                exists v, c = Num v /\ 1 <= v)
  /\ (forall c, In c (column (fst (validate_data parse_unsigned df)) "completion_status") ->
                exists v, c = Num v /\ (v == 0 \/ v == 1)).
Proof.
  intro df.
  apply (validate_data_returned_frame parse_unsigned df).
  vm_compute. reflexivity.
Defined.

(** Validation is idempotent: run again on the frame it left behind, it
    gives the same outcome and changes nothing more. *)
Theorem validate_data_idempotent
        (parse_number : string -> option Q) (df : DataFrame) :
  validate_data parse_number (fst (validate_data parse_number df))
  = (fst (validate_data parse_number df), snd (validate_data parse_number df)).
Proof.
  rewrite validate_data_again. destruct (validate_data parse_number df). reflexivity.
Qed.
End ValidationFacts.

Module ValidationMore.
Import Ingestion IngestionFacts ValidationFacts.

Lemma column_In (df : DataFrame) (name : string) :
  has_column df name = true -> In (name, column df name) df.
Proof.
  unfold has_column. induction df as [|[n cells] r IH]; intro H; [discriminate|].
  simpl in *. destruct (String.eqb n name) eqn:E.
  - apply String.eqb_eq in E. subst. left. reflexivity.
  - right. apply IH, H.
Qed.

Lemma existsb_none {A : Type} (p : A -> bool) (l : list A) :
  (forall x, In x l -> p x = false) -> existsb p l = false.
Proof.
  intro H. destruct (existsb p l) eqn:E; [|reflexivity].
  apply existsb_exists in E. destruct E as (x & Hx & Hp).
  rewrite (H x Hx) in Hp. discriminate.
Qed.

(** A frame that is not empty, has every required column, holds only
    numbers in the four checked columns and respects the four ranges
    passes validation and is left exactly as it was. *)
Theorem validate_data_accepts
        (parse_number : string -> option Q) (df : DataFrame) :
  empty df = false ->
  (forall name, In name REQUIRED_COLUMNS -> has_column df name = true) ->
  (forall name cells c, In (name, cells) df -> In name COERCED_COLUMNS ->
                        In c cells -> exists v, c = Num v) ->
  (forall v, In (Num v) (column df "score") -> 0 <= v <= 100) ->
  (forall v, In (Num v) (column df "time_spent") -> 0 <= v) ->
  (forall v, In (Num v) (column df "chapter_order") -> 1 <= v) ->
  (forall v, In (Num v) (column df "completion_status") -> v == 0 \/ v == 1) ->
  validate_data parse_number df = (df, Returned).
Proof.
  intros Hempty Hcols Hnum Hscore Htime Hchap Hstat.
  assert (Hid : coerce_numeric_columns parse_number df = df).
  { apply coerce_numeric_columns_id. intros name cells c s Hin Hn Hc.
    destruct (Hnum name cells c Hin Hn Hc) as (v & ->). discriminate. }
  assert (Hcell : forall name c, In name COERCED_COLUMNS -> In c (column df name) ->
                                 exists v, c = Num v).
  { intros name c Hn Hc. apply (Hnum name (column df name) c); [|exact Hn|exact Hc].
    apply column_In, Hcols. unfold COERCED_COLUMNS, REQUIRED_COLUMNS in *.
    simpl in *. tauto. }
  unfold validate_data. rewrite Hempty.
  replace (filter (fun c => negb (has_column df c)) REQUIRED_COLUMNS)
    with (@nil string).
  2:{ symmetry. clear - Hcols. induction REQUIRED_COLUMNS as [|n r IH]; [reflexivity|].
      simpl. rewrite (Hcols n (or_introl eq_refl)). simpl.
      apply IH. intros x Hx. apply Hcols. right. exact Hx. }
  cbn zeta. rewrite Hid.
  rewrite (existsb_none isna (column df "time_spent")).
  2:{ intros c Hc. destruct (Hcell "time_spent"%string c ltac:(simpl; tauto) Hc) as (v & ->).
      reflexivity. }
  rewrite (existsb_none isna (column df "score")).
  2:{ intros c Hc. destruct (Hcell "score"%string c ltac:(simpl; tauto) Hc) as (v & ->).
      reflexivity. }
  rewrite (existsb_none isna (column df "chapter_order")).
  2:{ intros c Hc. destruct (Hcell "chapter_order"%string c ltac:(simpl; tauto) Hc) as (v & ->).
      reflexivity. }
  cbn [orb].
  rewrite (existsb_none (fun c => lt_cell c 0) (column df "score")).
  2:{ intros c Hc. destruct (Hcell "score"%string c ltac:(simpl; tauto) Hc) as (v & ->).
      simpl. apply negb_false_iff, Qle_bool_iff, (Hscore v Hc). }
  rewrite (existsb_none (fun c => gt_cell c 100) (column df "score")).
  2:{ intros c Hc. destruct (Hcell "score"%string c ltac:(simpl; tauto) Hc) as (v & ->).
      simpl. apply negb_false_iff, Qle_bool_iff, (Hscore v Hc). }
  cbn [orb].
  rewrite (existsb_none (fun c => lt_cell c 0) (column df "time_spent")).
  2:{ intros c Hc. destruct (Hcell "time_spent"%string c ltac:(simpl; tauto) Hc) as (v & ->).
      simpl. apply negb_false_iff, Qle_bool_iff, (Htime v Hc). }
  rewrite (existsb_none (fun c => lt_cell c 1) (column df "chapter_order")).
  2:{ intros c Hc. destruct (Hcell "chapter_order"%string c ltac:(simpl; tauto) Hc) as (v & ->).
      simpl. apply negb_false_iff, Qle_bool_iff, (Hchap v Hc). }
  replace (forallb isin_0_1 (column df "completion_status")) with true; [reflexivity|].
  symmetry. apply forallb_forall. intros c Hc.
  destruct (Hcell "completion_status"%string c ltac:(simpl; tauto) Hc) as (v & ->).
  simpl. apply orb_true_iff.
  destruct (Hstat v Hc) as [H|H]; [left|right]; apply Qeq_bool_iff, H.
Qed.

Lemma validate_data_accepts_witness :
  validate_data parse_unsigned Samples.all_numbers = (Samples.all_numbers, Returned).
Proof.
  apply (validate_data_accepts parse_unsigned Samples.all_numbers).
  - reflexivity.
  - intros name Hname. simpl in Hname.
    repeat (destruct Hname as [<-|Hname]; [reflexivity|]). contradiction.
  - intros name cells c Hin _ Hc. simpl in Hin.
    repeat (destruct Hin as [Hin|Hin];
            [injection Hin as <- <-; simpl in Hc;
             repeat (destruct Hc as [<-|Hc]; [eexists; reflexivity|]);
             contradiction|]).
    contradiction.
  - intros v Hv. simpl in Hv.
    repeat (destruct Hv as [Hv|Hv];
            [injection Hv as <-; split; unfold Qle; simpl; lia|]).
    contradiction.
  - intros v Hv. simpl in Hv.
    repeat (destruct Hv as [Hv|Hv];
            [injection Hv as <-; unfold Qle; simpl; lia|]).
    contradiction.
  - intros v Hv. simpl in Hv.
    repeat (destruct Hv as [Hv|Hv];
            [injection Hv as <-; unfold Qle; simpl; lia|]).
    contradiction.
  - intros v Hv. simpl in Hv.
    repeat (destruct Hv as [Hv|Hv];
            [injection Hv as <-; first [left; reflexivity|right; reflexivity]|]).
    contradiction.
Defined.

(** A frame that is not empty but lacks a required column is refused
    with the list of exactly the required columns it lacks, before any
    column is coerced: the frame is left as it was. *)
Theorem validate_data_missing_columns
        (parse_number : string -> option Q) (df : DataFrame) (absent : string) :
  empty df = false ->
  In absent REQUIRED_COLUMNS ->
  has_column df absent = false ->
  exists missing,
    validate_data parse_number df = (df, Raised (MissingColumns missing))
    /\ In absent missing
    /\ forall name, In name missing
                    <-> In name REQUIRED_COLUMNS /\ has_column df name = false.
Proof.
  intros Hempty Hreq Habs.
  exists (filter (fun c => negb (has_column df c)) REQUIRED_COLUMNS).
  assert (Hin : In absent (filter (fun c => negb (has_column df c)) REQUIRED_COLUMNS)).
  { apply filter_In. split; [exact Hreq|]. rewrite Habs. reflexivity. }
  split; [|split].
  - unfold validate_data. rewrite Hempty.
    destruct (filter (fun c => negb (has_column df c)) REQUIRED_COLUMNS);
      [contradiction|reflexivity].
  - exact Hin.
  - intro name. rewrite filter_In, negb_true_iff. reflexivity.
Qed.

Lemma validate_data_missing_columns_witness :
  exists missing,
    validate_data parse_unsigned MoreSamples.no_score
    = (MoreSamples.no_score, Raised (MissingColumns missing))
    /\ In "score"%string missing
    /\ forall name, In name missing
                    <-> In name REQUIRED_COLUMNS
                        /\ has_column MoreSamples.no_score name = false.
Proof.
  apply (validate_data_missing_columns parse_unsigned MoreSamples.no_score "score").
  - reflexivity.
  - simpl. tauto.
  - reflexivity.
Defined.
End ValidationMore.

Module LoadingFacts.
Import Ingestion IngestionFacts ValidationFacts ValidationMore Loading.

Section Files.
Variable Path : Type.
Variable exists_ : Path -> bool.
Variable suffix_lower : Path -> string.
Variable read_csv : Path -> option DataFrame.
Variable read_json : Path -> option DataFrame.
Variable parse_number : string -> option Q.

(** A frame that [load_data] returns comes from a file that exists and
    has the suffix .csv or .json, read by the reader of that suffix; it
    is the frame read with its four checked columns coerced, and it is
    valid: validating it again returns and changes nothing. *)
Theorem load_data_returns_validated (file_path : Path) (df : DataFrame) :
  load_data Path exists_ suffix_lower read_csv read_json parse_number file_path
  = inl df ->
  exists_ file_path = true
  /\ (exists raw,
         ((suffix_lower file_path = ".csv"%string /\ read_csv file_path = Some raw)
          \/ (suffix_lower file_path = ".json"%string /\ read_json file_path = Some raw))
         /\ df = coerce_numeric_columns parse_number raw
         /\ snd (validate_data parse_number raw) = Returned)
  /\ validate_data parse_number df = (df, Returned).
Proof.
  unfold load_data.
  destruct (exists_ file_path); [|discriminate]. cbn [negb].
  set (loaded := if String.eqb (suffix_lower file_path) ".csv" then read_csv file_path
                 else if String.eqb (suffix_lower file_path) ".json"
                      then read_json file_path else None).
  assert (Hloaded : forall raw, loaded = Some raw ->
            (suffix_lower file_path = ".csv"%string /\ read_csv file_path = Some raw)
            \/ (suffix_lower file_path = ".json"%string /\ read_json file_path = Some raw)).
  { unfold loaded. intros raw.
    destruct (String.eqb (suffix_lower file_path) ".csv") eqn:E1.
    - apply String.eqb_eq in E1. auto.
    - destruct (String.eqb (suffix_lower file_path) ".json") eqn:E2; [|discriminate].
      apply String.eqb_eq in E2. auto. }
  destruct loaded as [raw|]; [|discriminate].
  destruct (validate_data parse_number raw) as [df' out] eqn:Ev.
  destruct out; [|discriminate].
  intro H. injection H as <-.
  assert (Hret : snd (validate_data parse_number raw) = Returned) by (rewrite Ev; reflexivity).
  assert (Hfst : fst (validate_data parse_number raw) = df') by (rewrite Ev; reflexivity).
  split; [reflexivity|]. split.
  - exists raw. split; [apply Hloaded; reflexivity|]. split; [|exact Hret].
    rewrite <- Hfst. apply (validate_data_returned parse_number raw Hret).
  - rewrite <- Hfst at 1. rewrite validate_data_again. exact Ev.
Qed.

(** [load_data] refuses a path that does not exist, and a file whose
    suffix is neither .csv nor .json without calling a reader. *)
Theorem load_data_refuses (file_path : Path) :
  exists_ file_path = false
  \/ (suffix_lower file_path <> ".csv"%string
      /\ suffix_lower file_path <> ".json"%string) ->
  exists err,
    load_data Path exists_ suffix_lower read_csv read_json parse_number file_path
    = inr err
    /\ (exists_ file_path = false -> err = FileNotFound)
    /\ (exists_ file_path = true -> err = ErrorLoadingFile).
Proof.
  unfold load_data. intros [H|[H1 H2]].
  - rewrite H. eexists. split; [reflexivity|]. split; [reflexivity|discriminate].
  - destruct (exists_ file_path); cbn [negb].
    + apply String.eqb_neq in H1, H2. rewrite H1, H2.
      eexists. split; [reflexivity|]. split; [discriminate|reflexivity].
    + eexists. split; [reflexivity|]. split; [reflexivity|discriminate].
Qed.
End Files.

Lemma load_data_returns_validated_witness :
  let df := coerce_numeric_columns parse_unsigned Samples.text_score in
  MoreSamples.file_exists "data.csv" = true
  /\ (exists raw,
         ((MoreSamples.file_suffix "data.csv" = ".csv"%string
           /\ MoreSamples.file_csv "data.csv" = Some raw)
          \/ (MoreSamples.file_suffix "data.csv" = ".json"%string
              /\ None = Some raw))
         /\ df = coerce_numeric_columns parse_unsigned raw
         /\ snd (validate_data parse_unsigned raw) = Returned)
  /\ validate_data parse_unsigned df = (df, Returned).
Proof.
  intro df.
  apply (load_data_returns_validated string MoreSamples.file_exists
           MoreSamples.file_suffix MoreSamples.file_csv (fun _ => None)
           parse_unsigned "data.csv"%string df).
  reflexivity.
Defined.

Lemma load_data_refuses_witness :
  exists err,
    load_data string MoreSamples.file_exists MoreSamples.file_suffix
              MoreSamples.file_csv (fun _ => None) parse_unsigned "notes.txt"%string
    = inr err
    /\ (MoreSamples.file_exists "notes.txt" = false -> err = FileNotFound)
    /\ (MoreSamples.file_exists "notes.txt" = true -> err = ErrorLoadingFile).
Proof.
  apply (load_data_refuses string MoreSamples.file_exists MoreSamples.file_suffix
           MoreSamples.file_csv (fun _ => None) parse_unsigned "notes.txt"%string).
  right. split; discriminate.
Defined.
End LoadingFacts.

(** ** The trend does not depend on the order of the rows *)

Module TrendOrderFacts.
Import FeatureEngineering.

Lemma by_chapter_order_sorted (group : list ChapterEvent.t) :
  StronglySorted
    (fun a b => ChapterEvent.chapter_order a <= ChapterEvent.chapter_order b)
    (sort_by by_chapter_order group).
Proof.
  eapply StronglySorted_weaken; [|apply sort_by_strongly].
  - unfold ordered_by, by_chapter_order. intros a b H. apply Qle_bool_iff, H.
  - intros a b. unfold by_chapter_order.
    destruct (Qle_bool (ChapterEvent.chapter_order a) (ChapterEvent.chapter_order b)) eqn:E;
      [left; reflexivity|right].
    qbool. apply Qle_bool_iff. lra.
  - unfold by_chapter_order. intros a b c H1 H2. qbool. apply Qle_bool_iff. lra.
Qed.

(** Two lists in ascending order of chapter with the same rows, no two
    rows on one chapter, are the same list. *)
Lemma sorted_rows_unique (l l' : list ChapterEvent.t) :
  StronglySorted
    (fun a b => ChapterEvent.chapter_order a <= ChapterEvent.chapter_order b) l ->
  StronglySorted
    (fun a b => ChapterEvent.chapter_order a <= ChapterEvent.chapter_order b) l' ->
  Permutation l l' ->
  (forall a b, In a l -> In b l ->
               ChapterEvent.chapter_order a == ChapterEvent.chapter_order b -> a = b) ->
  l = l'.
Proof.
  intros Hs. revert l'. induction Hs as [|x l Hs IH Hall]; intros l' Hs' Hp Hinj.
  - apply Permutation_nil in Hp. symmetry. exact Hp.
  - destruct Hs' as [|y l' Hs' Hall'].
    + apply Permutation_sym, Permutation_nil in Hp. discriminate.
    + rewrite Forall_forall in Hall, Hall'.
      assert (Hxy : x = y).
      { assert (Hy : In y (x :: l)).
        { apply (Permutation_in _ (Permutation_sym Hp)). left. reflexivity. }
        assert (Hx : In x (y :: l')).
        { apply (Permutation_in _ Hp). left. reflexivity. }
        apply Hinj; [left; reflexivity|exact Hy|].
        destruct Hy as [->|Hy]; [reflexivity|].
        destruct Hx as [->|Hx]; [reflexivity|].
        pose proof (Hall y Hy). pose proof (Hall' x Hx). lra. }
      subst y. f_equal. apply IH.
      * exact Hs'.
      * apply Permutation_cons_inv in Hp. exact Hp.
      * intros a b Ha Hb. apply Hinj; right; assumption.
Qed.

(** When no two events of a group are on the same chapter, the trend of
    the group is the same whatever the order of its rows in the input. *)
Theorem calculate_score_trend_order_independent
        (group group' : list ChapterEvent.t) :
  Permutation group group' ->
  (forall a b, In a group -> In b group ->
               ChapterEvent.chapter_order a == ChapterEvent.chapter_order b -> a = b) ->
  _calculate_score_trend group = _calculate_score_trend group'.
Proof.
  intros Hp Hinj. unfold _calculate_score_trend.
  rewrite (Permutation_length Hp).
  replace (sort_by by_chapter_order group') with (sort_by by_chapter_order group);
    [reflexivity|].
  apply sorted_rows_unique; try apply by_chapter_order_sorted.
  - eapply perm_trans; [apply Permutation_sym, sort_by_perm|].
    eapply perm_trans; [exact Hp|apply sort_by_perm].
  - intros a b Ha Hb. apply Hinj; apply (sort_by_In by_chapter_order); assumption.
Qed.

Lemma calculate_score_trend_order_independent_witness :
  _calculate_score_trend Samples.one_course
  = _calculate_score_trend (rev Samples.one_course).
Proof.
  apply (calculate_score_trend_order_independent Samples.one_course
           (rev Samples.one_course)).
  - apply Permutation_rev.
  - intros a b Ha Hb. simpl in Ha, Hb.
    repeat (destruct Ha as [<-|Ha]; [|]);
      try contradiction;
      repeat (destruct Hb as [<-|Hb]; [|]);
      try contradiction;
      intro H; first [reflexivity|exfalso; revert H; vm_compute; discriminate].
Defined.
End TrendOrderFacts.
